(** * MindArsenal bot: conversational state machine, streak accounting and
      scheduled dispatch

    A shallow embedding of [src/bot.js] (the logger/safeSend variant of the
    bot) together with the three functions of the older variant
    [src/unnamed/part_001] that differ from it ([updateDailyStats],
    [coachReply] and the weekly report job), followed by the properties of the
    specification that concern them.

    Modelling conventions.
    - JS strings are [string]s holding the UTF-8 bytes of the text.
    - JS objects used as dictionaries ([users], [user.logs],
      [user.weeklyStats]) are [gmap]s.  [Object.values(users)] is enumerated
      with [map_to_list]; the order in which different users are visited is
      not observable by any property below.
    - Calendar dates ([todayDate()], a [YYYY-MM-DD] string) are day numbers in
      [Z]; the rendering of a day number is injective, and [d.setDate
      (d.getDate() - i)] is [today - i].
    - The counters of [user.stats] are JS numbers holding integers; they are
      [Z] here (they count days, so they stay far below 2^53 where [++] is
      exact).
    - Handlers mutate the in-memory [users] table in place; here every
      handler takes the table and returns the new table together with the
      list of outbound effects it initiates, in program order: [ESave snap]
      for [saveUsers(users)] (with the snapshot written) and [ESend chat
      text] for [safeSend]/[bot.sendMessage].  Calls to the structured
      logger and to the runtime document ([markJob], send counters) do not
      touch [users] and are left out. *)

From Stdlib Require Import Ascii String DecimalString ZArith.
From stdpp Require Import gmap strings list fin_maps.

Open Scope Z_scope.

(** ** JavaScript string primitives *)

Module JS.

Definition nl : string := String "010"%char EmptyString.
Definition dquote : string := String "034"%char EmptyString.

Definition byte (c : ascii) : nat := nat_of_ascii c.

(** One-byte members of ECMAScript [WhiteSpace] and [LineTerminator]:
    TAB, LF, VT, FF, CR, SP. *)
Definition ws1 (c : ascii) : bool :=
  let n := byte c in
  ((9 <=? n) && (n <=? 13))%nat || (n =? 32)%nat.

(** U+00A0, encoded [C2 A0]. *)
Definition ws2 (c1 c2 : ascii) : bool :=
  ((byte c1 =? 194) && (byte c2 =? 160))%nat.

(** Three-byte members: U+1680, U+2000..U+200A, U+2028, U+2029, U+202F,
    U+205F, U+3000 and U+FEFF. *)
Definition ws3 (c1 c2 c3 : ascii) : bool :=
  let a := byte c1 in
  let b := byte c2 in
  let c := byte c3 in
  ((a =? 225) && (b =? 154) && (c =? 128))%nat
  || ((a =? 226) && (b =? 128)
      && (((128 <=? c) && (c <=? 138)) || (c =? 168) || (c =? 169) || (c =? 175)))%nat
  || ((a =? 226) && (b =? 129) && (c =? 159))%nat
  || ((a =? 227) && (b =? 128) && (c =? 128))%nat
  || ((a =? 239) && (b =? 187) && (c =? 191))%nat.

(** Removes one white-space character from the front, if there is one. *)
Definition stripFront (s : string) : option string :=
  match s with
  | String c1 r1 =>
      if ws1 c1 then Some r1 else
      match r1 with
      | String c2 r2 =>
          if ws2 c1 c2 then Some r2 else
          match r2 with
          | String c3 r3 => if ws3 c1 c2 c3 then Some r3 else None
          | EmptyString => None
          end
      | EmptyString => None
      end
  | EmptyString => None
  end.

(** The same on the reversed string: the bytes of a character come last
    byte first. *)
Definition stripBack (s : string) : option string :=
  match s with
  | String c1 r1 =>
      if ws1 c1 then Some r1 else
      match r1 with
      | String c2 r2 =>
          if ws2 c2 c1 then Some r2 else
          match r2 with
          | String c3 r3 => if ws3 c3 c2 c1 then Some r3 else None
          | EmptyString => None
          end
      | EmptyString => None
      end
  | EmptyString => None
  end.

Fixpoint stripAll (strip : string → option string) (fuel : nat) (s : string) : string :=
  match fuel with
  | O => s
  | S fuel' =>
      match strip s with
      | Some s' => stripAll strip fuel' s'
      | None => s
      end
  end.

(** [String.prototype.trim].  Every strip removes at least one byte, so the
    length of the string is enough fuel. *)
Definition trim (s : string) : string :=
  let s1 := stripAll stripFront (String.length s) s in
  String.rev (stripAll stripBack (String.length s1) (String.rev s1)).

(** [s.startsWith(p)]. *)
Definition startsWith (p s : string) : bool := String.prefix p s.

(** [\d]: an ASCII decimal digit. *)
Definition isDigit (c : ascii) : bool :=
  ((48 <=? byte c) && (byte c <=? 57))%nat.

Definition digitVal (c : ascii) : Z := Z.of_nat (byte c - 48).

(** [String(n)] for an integer-valued number. *)
Definition showZ (n : Z) : string := NilZero.string_of_int (Z.to_int n).

(** The first [k] bytes of [cur] followed by [fill] repeated for ever. *)
Fixpoint repeatTo (fill cur : string) (k : nat) : string :=
  match k with
  | O => EmptyString
  | S k' =>
      match cur with
      | String c cur' => String c (repeatTo fill cur' k')
      | EmptyString =>
          match fill with
          | String c fill' => String c (repeatTo fill fill' k')
          | EmptyString => EmptyString
          end
      end
  end.

(** [s.padStart(len, fill)]: [fill] repeated and truncated to the missing
    length, then [s]; [s] itself when it is long enough or [fill] is
    empty. *)
Definition padStart (len : nat) (fill s : string) : string :=
  repeatTo fill fill (len - String.length s) +:+ s.

(** JS truthiness of a string: non-empty. *)
Definition truthy (s : string) : bool :=
  match s with EmptyString => false | _ => true end.

(** [a || b] on strings. *)
Definition orElse (a b : string) : string := if truthy a then a else b.

(** [hay] contains [needle] as a contiguous substring. *)
Definition contains (needle hay : string) : Prop :=
  ∃ pre post, hay = pre +:+ needle +:+ post.

End JS.

(** ** [formatTimeString] *)

(** [text.trim().match(/^(\d{1,2}):(\d{2})$/)]: the trimmed text must be one
    or two digits, a colon and exactly two digits; the two groups are
    returned as numbers ([Number(match[i])]). *)
Definition matchTime (text : string) : option (Z * Z) :=
  match JS.trim text with
  | String h1 (String ":" (String m1 (String m2 EmptyString))) =>
      if JS.isDigit h1 && JS.isDigit m1 && JS.isDigit m2
      then Some (JS.digitVal h1, 10 * JS.digitVal m1 + JS.digitVal m2)
      else None
  | String h1 (String h2 (String ":" (String m1 (String m2 EmptyString)))) =>
      if JS.isDigit h1 && JS.isDigit h2 && JS.isDigit m1 && JS.isDigit m2
      then Some (10 * JS.digitVal h1 + JS.digitVal h2,
                 10 * JS.digitVal m1 + JS.digitVal m2)
      else None
  | _ => None
  end.

Definition formatTimeString (text : string) : option string :=
  match matchTime text with
  | None => None
  | Some (h, m) =>
      if (h <? 0) || (23 <? h) || (m <? 0) || (59 <? m) then None
      else Some (JS.padStart 2 "0" (JS.showZ h) +:+ ":" +:+ JS.padStart 2 "0" (JS.showZ m))
  end.

(** ** Calendar dates *)

Definition Date := Z.

(** [new Date(86400000 * d).toISOString().slice(0, 10)] for a day number
    [d] (days since 1970-01-01) whose year lies in 0..9999: the proleptic
    Gregorian date as [YYYY-MM-DD]. *)
Definition civil (d : Date) : Z * Z * Z :=
  let z := d + 719468 in
  let era := z / 146097 in
  let doe := z - era * 146097 in
  let yoe := (doe - doe / 1460 + doe / 36524 - doe / 146096) / 365 in
  let doy := doe - (365 * yoe + yoe / 4 - yoe / 100) in
  let mp := (5 * doy + 2) / 153 in
  let day := doy - (153 * mp + 2) / 5 + 1 in
  let month := if mp <? 10 then mp + 3 else mp - 9 in
  let year := yoe + era * 400 + (if month <=? 2 then 1 else 0) in
  (year, month, day).

Definition isoDate (d : Date) : string :=
  let '(y, m, dd) := civil d in
  JS.padStart 4 "0" (JS.showZ y) +:+ "-" +:+ JS.padStart 2 "0" (JS.showZ m)
    +:+ "-" +:+ JS.padStart 2 "0" (JS.showZ dd).

(** [`${hh}:${mm}`] with both parts padded to two digits, as the minute job
    builds [current] from [now.getHours()] and [now.getMinutes()]. *)
Definition clock (hh mm : Z) : string :=
  JS.padStart 2 "0" (JS.showZ hh) +:+ ":" +:+ JS.padStart 2 "0" (JS.showZ mm).

(** ** Data model *)

(** [{ text, timestamp }], the value stored under [am] or [pm]. *)
Record Entry := { text : string; timestamp : string }.

(** One object of [user.logs].  Objects are created as [{}], so every
    field starts out undefined: an absent entry is [None], and the three
    flags, which the code only ever tests for truthiness, are [false]. *)
Record DayLog := {
  am : option Entry;
  pm : option Entry;
  amPromptSent : bool;
  pmPromptSent : bool;
  _counted : bool
}.

Definition emptyDay : DayLog :=
  {| am := None; pm := None; amPromptSent := false; pmPromptSent := false;
     _counted := false |}.

Record Stats := {
  totalDays : Z;
  daysWithBoth : Z;
  streakCurrent : Z;
  streakBest : Z
}.

Definition zeroStats : Stats :=
  {| totalDays := 0; daysWithBoth := 0; streakCurrent := 0; streakBest := 0 |}.

(** The record the older variant stores under [user.weeklyStats[weekKey]]. *)
Record WeekSnapshot := {
  startDate : Date;
  endDate : Date;
  habitExecutionRate : Z;
  completedDays : Z;
  totalDaysLogged : Z;
  generatedAt : string
}.

(** [user.pending]: ["setgoals"], ["am"], ["pm"] or [null]. *)
Inductive Pending := Setgoals | AwaitAm | AwaitPm.

(** [user.onboardingStep]: one of the five step names or [null]. *)
Inductive Step := StepName | StepTimezone | StepHabits | StepAmTime | StepPmTime.

Record User := {
  chatId : string;
  firstName : string;
  name : string;
  timezone : string;
  amTime : string;
  pmTime : string;
  goalsText : string;
  habitsText : string;
  pending : option Pending;
  onboardingStep : option Step;
  onboarded : bool;
  logs : gmap Z DayLog;
  stats : Stats;
  weeklyStats : gmap (Z * Z) WeekSnapshot
}.

(** Field assignments [user.f = v]. *)
Definition set_name (v : string) (u : User) : User :=
  {| chatId := chatId u; firstName := firstName u; name := v;
     timezone := timezone u; amTime := amTime u; pmTime := pmTime u;
     goalsText := goalsText u; habitsText := habitsText u;
     pending := pending u; onboardingStep := onboardingStep u;
     onboarded := onboarded u; logs := logs u; stats := stats u;
     weeklyStats := weeklyStats u |}.

Definition set_timezone (v : string) (u : User) : User :=
  {| chatId := chatId u; firstName := firstName u; name := name u;
     timezone := v; amTime := amTime u; pmTime := pmTime u;
     goalsText := goalsText u; habitsText := habitsText u;
     pending := pending u; onboardingStep := onboardingStep u;
     onboarded := onboarded u; logs := logs u; stats := stats u;
     weeklyStats := weeklyStats u |}.

Definition set_amTime (v : string) (u : User) : User :=
  {| chatId := chatId u; firstName := firstName u; name := name u;
     timezone := timezone u; amTime := v; pmTime := pmTime u;
     goalsText := goalsText u; habitsText := habitsText u;
     pending := pending u; onboardingStep := onboardingStep u;
     onboarded := onboarded u; logs := logs u; stats := stats u;
     weeklyStats := weeklyStats u |}.

Definition set_pmTime (v : string) (u : User) : User :=
  {| chatId := chatId u; firstName := firstName u; name := name u;
     timezone := timezone u; amTime := amTime u; pmTime := v;
     goalsText := goalsText u; habitsText := habitsText u;
     pending := pending u; onboardingStep := onboardingStep u;
     onboarded := onboarded u; logs := logs u; stats := stats u;
     weeklyStats := weeklyStats u |}.

(** [user.goalsText = v; user.habitsText = v], always assigned together. *)
Definition set_mission (v : string) (u : User) : User :=
  {| chatId := chatId u; firstName := firstName u; name := name u;
     timezone := timezone u; amTime := amTime u; pmTime := pmTime u;
     goalsText := v; habitsText := v;
     pending := pending u; onboardingStep := onboardingStep u;
     onboarded := onboarded u; logs := logs u; stats := stats u;
     weeklyStats := weeklyStats u |}.

Definition set_pending (v : option Pending) (u : User) : User :=
  {| chatId := chatId u; firstName := firstName u; name := name u;
     timezone := timezone u; amTime := amTime u; pmTime := pmTime u;
     goalsText := goalsText u; habitsText := habitsText u;
     pending := v; onboardingStep := onboardingStep u;
     onboarded := onboarded u; logs := logs u; stats := stats u;
     weeklyStats := weeklyStats u |}.

Definition set_onboardingStep (v : option Step) (u : User) : User :=
  {| chatId := chatId u; firstName := firstName u; name := name u;
     timezone := timezone u; amTime := amTime u; pmTime := pmTime u;
     goalsText := goalsText u; habitsText := habitsText u;
     pending := pending u; onboardingStep := v;
     onboarded := onboarded u; logs := logs u; stats := stats u;
     weeklyStats := weeklyStats u |}.

Definition set_onboarded (v : bool) (u : User) : User :=
  {| chatId := chatId u; firstName := firstName u; name := name u;
     timezone := timezone u; amTime := amTime u; pmTime := pmTime u;
     goalsText := goalsText u; habitsText := habitsText u;
     pending := pending u; onboardingStep := onboardingStep u;
     onboarded := v; logs := logs u; stats := stats u;
     weeklyStats := weeklyStats u |}.

Definition set_logs (v : gmap Z DayLog) (u : User) : User :=
  {| chatId := chatId u; firstName := firstName u; name := name u;
     timezone := timezone u; amTime := amTime u; pmTime := pmTime u;
     goalsText := goalsText u; habitsText := habitsText u;
     pending := pending u; onboardingStep := onboardingStep u;
     onboarded := onboarded u; logs := v; stats := stats u;
     weeklyStats := weeklyStats u |}.

Definition set_stats (v : Stats) (u : User) : User :=
  {| chatId := chatId u; firstName := firstName u; name := name u;
     timezone := timezone u; amTime := amTime u; pmTime := pmTime u;
     goalsText := goalsText u; habitsText := habitsText u;
     pending := pending u; onboardingStep := onboardingStep u;
     onboarded := onboarded u; logs := logs u; stats := v;
     weeklyStats := weeklyStats u |}.

Definition set_am (v : option Entry) (day : DayLog) : DayLog :=
  {| am := v; pm := pm day; amPromptSent := amPromptSent day;
     pmPromptSent := pmPromptSent day; _counted := _counted day |}.

Definition set_pm (v : option Entry) (day : DayLog) : DayLog :=
  {| am := am day; pm := v; amPromptSent := amPromptSent day;
     pmPromptSent := pmPromptSent day; _counted := _counted day |}.

Definition set_amPromptSent (v : bool) (day : DayLog) : DayLog :=
  {| am := am day; pm := pm day; amPromptSent := v;
     pmPromptSent := pmPromptSent day; _counted := _counted day |}.

Definition set_pmPromptSent (v : bool) (day : DayLog) : DayLog :=
  {| am := am day; pm := pm day; amPromptSent := amPromptSent day;
     pmPromptSent := v; _counted := _counted day |}.

Definition set_counted (v : bool) (day : DayLog) : DayLog :=
  {| am := am day; pm := pm day; amPromptSent := amPromptSent day;
     pmPromptSent := pmPromptSent day; _counted := v |}.

(** The [users] table, keyed by [String(msg.chat.id)]. *)
Abbreviation Users := (gmap string User).

(** What a handler initiates towards the outside, in program order. *)
Inductive Effect :=
  | ESave (snapshot : Users)
  | ESend (chat : string) (body : string).

(** An inbound Telegram message, as far as the handlers read it:
    [msg.chat.id], [msg.chat.first_name] and [msg.text] (the last two may
    be missing). *)
Record Msg := {
  chat_id : Z;
  first_name : option string;
  msg_text : option string
}.

(** The outcome of [openai.chat.completions.create]: the call rejects with
    an error, or resolves with [choices[0].message.content], which may be
    [null]. *)
Inductive Completion :=
  | Failed (message : string)
  | Replied (content : option string).

(** The text-generation client: model name, system prompt and user
    content give a completion.  [openai] is [null] exactly when
    [hasOpenAI] is false, so the pair is an [option Client]. *)
Definition Client := string → string → string → Completion.

(** ** Message texts of [src/bot.js] *)

Import JS.

Definition OPENAI_MODEL : string := "gpt-4o-mini".

Definition SYSTEM_PROMPT : string :=
  nl +:+ "You are the MindArsenal AI Coach, modeled after Master Asmo." +:+ nl
  +:+ "Tone: ruthless, stoic, commanding. No emojis. No softness." +:+ nl
  +:+ "You enforce discipline, remove excuses, and sharpen the user's habits." +:+ nl
  +:+ "Use short, precise language. Maximum 5 short paragraphs per reply." +:+ nl
  +:+ "Acknowledge wins briefly. Call out failures directly with clear correction steps." +:+ nl
  +:+ "Never comfort. Never ramble. Always end with a concrete execution step or next action." +:+ nl.

Definition BETA_WELCOME_MESSAGE : string :=
  "Welcome to the MindArsenal Beta." +:+ nl
  +:+ "This system will hold you to a warrior standard." +:+ nl +:+ nl
  +:+ "Expect morning commands, nightly accountability, and a weekly war report." +:+ nl
  +:+ "Your job: reply honestly and execute daily." +:+ nl +:+ nl
  +:+ "Failure is noted. Progress is forged." +:+ nl
  +:+ "Stay sharp.".

Definition AM_PROMPT : string :=
  "Dawn Report." +:+ nl +:+ nl
  +:+ "State your 3 critical objectives for today." +:+ nl +:+ nl
  +:+ "Concrete actions only. No wishes. No fluff.".

Definition PM_PROMPT : string :=
  "Nightly Debrief." +:+ nl +:+ nl
  +:+ "Report:" +:+ nl
  +:+ "- What did you execute?" +:+ nl
  +:+ "- What did you skip?" +:+ nl
  +:+ "- Why?" +:+ nl +:+ nl
  +:+ "No excuses. Only truth.".

Definition STARTUP_PING : string :=
  "MindArsenal core updated." +:+ nl +:+ nl
  +:+ "Onboarding, AM/PM check-ins, data logging and Master Asmo protocol are now active.".

Definition INVALID_TIME : string := "Invalid format. Use HH:MM (24h).".

(** ** The user table *)

(** [String(msg.chat.id)]. *)
Definition userKey (msg : Msg) : string := showZ (chat_id msg).

Definition newUser (id : string) (msg : Msg) : User :=
  {| chatId := id;
     firstName := default EmptyString (first_name msg);
     name := EmptyString;
     timezone := EmptyString;
     amTime := "07:00";
     pmTime := "21:00";
     goalsText := EmptyString;
     habitsText := EmptyString;
     pending := None;
     onboardingStep := None;
     onboarded := false;
     logs := ∅;
     stats := zeroStats;
     weeklyStats := ∅ |}.

(** [ensureUser(msg)]: creates the record when [users[id]] is missing,
    saves the table in either case and returns [users[id]]. *)
Definition ensureUser (msg : Msg) (users : Users) : Users * User * list Effect :=
  let id := userKey msg in
  match users !! id with
  | Some user => (users, user, [ESave users])
  | None =>
      let user := newUser id msg in
      (<[id := user]> users, user, [ESave (<[id := user]> users)])
  end.

(** [if (!user.logs[d]) user.logs[d] = {}]. *)
Definition touchDay (d : Date) (user : User) : User :=
  match logs user !! d with
  | Some _ => user
  | None => set_logs (<[d := emptyDay]> (logs user)) user
  end.

(** [user.logs[d] || {}]. *)
Definition getDay (d : Date) (user : User) : DayLog :=
  default emptyDay (logs user !! d).

(** [user.logs[d] = day], also the write-back of a mutated alias of
    [user.logs[d]]. *)
Definition putDay (d : Date) (day : DayLog) (user : User) : User :=
  set_logs (<[d := day]> (logs user)) user.

(** ** [updateDailyStats] *)

(** [day.am && day.pm]: an entry is an object, truthy whenever present. *)
Definition isFull (day : DayLog) : bool :=
  match am day, pm day with
  | Some _, Some _ => true
  | _, _ => false
  end.

Definition updateDailyStats (user : User) (dateStr : Date) : User :=
  match logs user !! dateStr with
  | None => user
  | Some day =>
      if _counted day then user else
      let s := stats user in
      let total := totalDays s + 1 in
      let s' :=
        if isFull day then
          {| totalDays := total;
             daysWithBoth := daysWithBoth s + 1;
             streakCurrent := streakCurrent s + 1;
             streakBest := Z.max (streakBest s) (streakCurrent s + 1) |}
        else
          {| totalDays := total;
             daysWithBoth := daysWithBoth s;
             streakCurrent := 0;
             streakBest := streakBest s |} in
      putDay dateStr (set_counted true day) (set_stats s' user)
  end.

(** ** [coachReply] *)

Definition coachName (user : User) : string :=
  orElse (orElse (name user) (firstName user)) "warrior".

Definition coachGoals (user : User) : string :=
  orElse (orElse (goalsText user) (habitsText user)) "No mission defined.".

Definition offlineReply (user : User) : string :=
  coachName user +:+ ", system offline." +:+ nl +:+ "Your mission:" +:+ nl
  +:+ coachGoals user.

Definition failedReply (user : User) (text : string) : string :=
  coachName user +:+ ", OpenAI failed." +:+ nl +:+ "Message:" +:+ nl
  +:+ dquote +:+ text +:+ dquote +:+ nl +:+ "Execute one step now.".

(** The [try] block awaits the completion and returns its trimmed content;
    a rejected call, and the [TypeError] of [.trim()] on a [null] content,
    both land in the [catch] block. *)
Definition coachReply (openai : option Client) (user : User) (text : string) : string :=
  match openai with
  | None => offlineReply user
  | Some create =>
      match create OPENAI_MODEL SYSTEM_PROMPT
              ("Trainee: " +:+ coachName user +:+ nl +:+ "Mission:" +:+ nl
               +:+ coachGoals user +:+ nl +:+ nl +:+ "User message:" +:+ nl +:+ text) with
      | Replied (Some content) => trim content
      | Replied None => failedReply user text
      | Failed _ => failedReply user text
      end
  end.

(** ** Command handlers *)

Definition summaryText (user : User) : string :=
  let s := stats user in
  "MindArsenal Coach online." +:+ nl +:+ "You are enlisted." +:+ nl +:+ nl
  +:+ "Name: " +:+ orElse (name user) (firstName user) +:+ nl
  +:+ "Zone: " +:+ timezone user +:+ nl
  +:+ "AM: " +:+ amTime user +:+ nl +:+ "PM: " +:+ pmTime user +:+ nl +:+ nl
  +:+ "Mission:" +:+ nl +:+ goalsText user +:+ nl +:+ nl
  +:+ "Discipline:" +:+ nl
  +:+ "• Full execution days: " +:+ showZ (daysWithBoth s) +:+ "/" +:+ showZ (totalDays s) +:+ nl
  +:+ "• Current streak: " +:+ showZ (streakCurrent s) +:+ nl
  +:+ "• Best streak: " +:+ showZ (streakBest s).

Definition STEP1_START : string :=
  "MindArsenal Coach online." +:+ nl +:+ "Step 1/5 — Name." +:+ nl +:+ "How do I address you?".

Definition STEP1_ONBOARD : string :=
  "Onboarding reset." +:+ nl +:+ "Step 1/5 — Name." +:+ nl +:+ "How do I call you?".

Definition SETGOALS_PROMPT : string :=
  "Update mission." +:+ nl +:+ "Send your TOP 3 habits/goals.".

(** [/gpt]: a connectivity test that does not touch the table. *)
Definition onGpt (openai : option Client) (msg : Msg) (users : Users) : Users * list Effect :=
  let chat := showZ (chat_id msg) in
  match openai with
  | None => (users, [ESend chat "OpenAI missing."])
  | Some create =>
      match create OPENAI_MODEL "Short. Ruthless." "Say System online." with
      | Replied (Some content) => (users, [ESend chat (trim content)])
      | Replied None => (users, [ESend chat "OpenAI failed."])
      | Failed _ => (users, [ESend chat "OpenAI failed."])
      end
  end.

(** [/start].  The step-1 question is sent from the [.then] of the welcome
    message, so only when that first send was [delivered]. *)
Definition onStart (msg : Msg) (delivered : bool) (users : Users) : Users * list Effect :=
  let '(users1, user, saved) := ensureUser msg users in
  if onboarded user then
    (users1, saved ++ [ESend (chatId user) (summaryText user)])
  else
    let users2 := <[userKey msg := set_onboardingStep (Some StepName) user]> users1 in
    (users2,
     saved ++ [ESave users2; ESend (chatId user) BETA_WELCOME_MESSAGE]
       ++ (if delivered then [ESend (chatId user) STEP1_START] else [])).

(** [/onboard]. *)
Definition onOnboard (msg : Msg) (users : Users) : Users * list Effect :=
  let '(users1, user, saved) := ensureUser msg users in
  let users2 :=
    <[userKey msg := set_onboarded false (set_onboardingStep (Some StepName) user)]> users1 in
  (users2, saved ++ [ESave users2; ESend (chatId user) STEP1_ONBOARD]).

(** [/setgoals]. *)
Definition onSetgoals (msg : Msg) (users : Users) : Users * list Effect :=
  let '(users1, user, saved) := ensureUser msg users in
  let users2 := <[userKey msg := set_pending (Some Setgoals) user]> users1 in
  (users2, saved ++ [ESave users2; ESend (chatId user) SETGOALS_PROMPT]).

Definition doneOrMissing (e : option Entry) : string :=
  match e with Some _ => "DONE" | None => "MISSING" end.

Definition statusText (user : User) (d : Date) : string :=
  let day := getDay d user in
  let s := stats user in
  "Status for " +:+ isoDate d +:+ ":" +:+ nl
  +:+ "AM: " +:+ doneOrMissing (am day) +:+ nl
  +:+ "PM: " +:+ doneOrMissing (pm day) +:+ nl +:+ nl
  +:+ "All-time:" +:+ nl
  +:+ "• Full days: " +:+ showZ (daysWithBoth s) +:+ "/" +:+ showZ (totalDays s) +:+ nl
  +:+ "• Streak: " +:+ showZ (streakCurrent s) +:+ nl
  +:+ "• Best: " +:+ showZ (streakBest s).

(** [/status]. *)
Definition onStatus (msg : Msg) (d : Date) (users : Users) : Users * list Effect :=
  let '(users1, user, saved) := ensureUser msg users in
  (users1, saved ++ [ESend (chatId user) (statusText user d)]).

(** [/test_am]: the prompt is sent first, then [pending] and the flag are
    assigned, then the table is saved. *)
Definition onTestAm (msg : Msg) (d : Date) (users : Users) : Users * list Effect :=
  let '(users1, user, saved) := ensureUser msg users in
  if negb (onboarded user) then
    (users1, saved ++ [ESend (chatId user) "Complete onboarding first."])
  else
    let user1 := touchDay d user in
    let user2 := set_pending (Some AwaitAm) user1 in
    let user3 := putDay d (set_amPromptSent true (getDay d user2)) user2 in
    let users2 := <[userKey msg := user3]> users1 in
    (users2, saved ++ [ESend (chatId user) AM_PROMPT; ESave users2]).

(** [/test_pm]. *)
Definition onTestPm (msg : Msg) (d : Date) (users : Users) : Users * list Effect :=
  let '(users1, user, saved) := ensureUser msg users in
  if negb (onboarded user) then
    (users1, saved ++ [ESend (chatId user) "Complete onboarding first."])
  else
    let user1 := touchDay d user in
    let user2 := set_pending (Some AwaitPm) user1 in
    let user3 := putDay d (set_pmPromptSent true (getDay d user2)) user2 in
    let users2 := <[userKey msg := user3]> users1 in
    (users2, saved ++ [ESend (chatId user) PM_PROMPT; ESave users2]).

(** ** The weekly figures *)

(** What the weekly code reads of the clock: [todayStr = todayDate()], the
    UTC date; the time value of [today = new Date()], in milliseconds since
    the epoch; and the time zone of the host, as the offset [LocalTZA(t,
    isUTC)] of ECMAScript: the milliseconds that local time is ahead of UTC
    at the UTC time [t] ([isUTC] true) or at the local time [t] ([isUTC]
    false). *)
Record Today := {
  todayStr : Date;
  timeValue : Z;
  LocalTZA : Z → bool → Z
}.

Definition msPerDay : Z := 86400000.

(** [LocalTime(t)], [UTC(t)] and [Day(t)] of ECMAScript. *)
Definition LocalTime (today : Today) (t : Z) : Z := t + LocalTZA today t true.
Definition UTC (today : Today) (t : Z) : Z := t - LocalTZA today t false.
Definition Day (t : Z) : Date := t / msPerDay.

(** [const d = new Date(today); d.setDate(d.getDate() - i)]: the local
    time of [today] is taken, its day of the month is lowered by [i] with
    the time within the day kept ([MakeDay] carries a day below 1 into the
    months before), which is [i] days less on the local time line, and the
    result is converted back to UTC with the offset in force there. *)
Definition setDateBack (today : Today) (i : Z) : Z :=
  UTC today (LocalTime today (timeValue today) - i * msPerDay).

(** [d.toISOString().slice(0, 10)]: the UTC date of the time value. *)
Definition weekKey (today : Today) (i : Z) : Date := Day (setDateBack today i).

(** The keys visited by [for (let i = 0; i < 7; i++)], newest first.  On a
    host whose offset does not change within the week these are the
    seven UTC dates that end with the one of [today]; across a change of
    the offset a date can be visited twice or not at all. *)
Definition weekWindow (today : Today) : list Date :=
  weekKey today <$> [0; 1; 2; 3; 4; 5; 6].

(** The loop body: [if (logs[key]) { total++; if (logs[key].am &&
    logs[key].pm) full++; }] on the pair [(total, full)]. *)
Definition weekCount (logs : gmap Z DayLog) (acc : Z * Z) (key : Date) : Z * Z :=
  match logs !! key with
  | Some day => (acc.1 + 1, if isFull day then acc.2 + 1 else acc.2)
  | None => acc
  end.

Definition weekTotals (logs : gmap Z DayLog) (today : Today) : Z * Z :=
  foldl (weekCount logs) (0, 0) (weekWindow today).

(** [total ? Math.round((full / total) * 100) : 0].  [Math.round] rounds to
    the nearest integer, halves upwards.  With [0 <= full <= total <= 7]
    the quotient times 100 is either an integer or at least 1/14 away from
    a half, so the double-precision result rounds as the exact one does. *)
Definition weekRate (total full : Z) : Z :=
  if total =? 0 then 0 else (200 * full + total) / (2 * total).

Definition weeklyText (todayStr : Date) (rate full total : Z) : string :=
  "Weekly War Report." +:+ nl +:+ nl
  +:+ "Last 7 days (to " +:+ isoDate todayStr +:+ "):" +:+ nl
  +:+ "• Execution rate: " +:+ showZ rate +:+ "%" +:+ nl
  +:+ "• Full days: " +:+ showZ full +:+ "/" +:+ showZ total +:+ nl +:+ nl
  +:+ "This week is dead." +:+ nl +:+ "The next one is unbuilt." +:+ nl +:+ "Dominate it.".

Definition weeklyFor (user : User) (today : Today) : string :=
  let '(total, full) := weekTotals (logs user) today in
  weeklyText (todayStr today) (weekRate total full) full total.

(** [/test_weekly]. *)
Definition onTestWeekly (msg : Msg) (today : Today) (users : Users) : Users * list Effect :=
  let '(users1, user, saved) := ensureUser msg users in
  if negb (onboarded user) then
    (users1, saved ++ [ESend (chatId user) "No data yet."])
  else
    (users1, saved ++ [ESend (chatId user) (weeklyFor user today)]).

(** ** The message router *)

(** What one branch of the router does: the user object after its
    assignments, whether it calls [saveUsers] before replying, and the text
    it sends. *)
Record Routed := { routedUser : User; routedSave : bool; routedReply : string }.

(** The onboarding branch for one step; [value] is the trimmed text.  An
    invalid time is answered without any assignment and without a save. *)
Definition routeOnboarding (step : Step) (value : string) (user : User) : Routed :=
  match step with
  | StepName =>
      {| routedUser := set_onboardingStep (Some StepTimezone) (set_name value user);
         routedSave := true;
         routedReply := "Step 2/5 — Timezone." +:+ nl +:+ "Example: Europe/Zurich" |}
  | StepTimezone =>
      {| routedUser := set_onboardingStep (Some StepHabits) (set_timezone value user);
         routedSave := true;
         routedReply := "Step 3/5 — Mission." +:+ nl +:+ "Send your TOP 3 habits/goals." |}
  | StepHabits =>
      {| routedUser := set_onboardingStep (Some StepAmTime) (set_mission value user);
         routedSave := true;
         routedReply := "Step 4/5 — AM time." +:+ nl +:+ "Example: 07:00" |}
  | StepAmTime =>
      match formatTimeString value with
      | None => {| routedUser := user; routedSave := false; routedReply := INVALID_TIME |}
      | Some t =>
          {| routedUser := set_onboardingStep (Some StepPmTime) (set_amTime t user);
             routedSave := true;
             routedReply := "Step 5/5 — PM time." +:+ nl +:+ "Example: 21:00" |}
      end
  | StepPmTime =>
      match formatTimeString value with
      | None => {| routedUser := user; routedSave := false; routedReply := INVALID_TIME |}
      | Some t =>
          let user' :=
            set_onboarded true (set_onboardingStep None (set_pmTime t user)) in
          {| routedUser := user';
             routedSave := true;
             routedReply :=
               "Onboarding complete." +:+ nl +:+ "Protocol armed." +:+ nl +:+ nl
               +:+ "Name: " +:+ name user' +:+ nl
               +:+ "Zone: " +:+ timezone user' +:+ nl
               +:+ "AM: " +:+ amTime user' +:+ nl +:+ "PM: " +:+ pmTime user' +:+ nl +:+ nl
               +:+ "Mission:" +:+ nl +:+ goalsText user' +:+ nl +:+ nl
               +:+ "Reports will hit at your times." +:+ nl +:+ "Respond. No excuses." |}
      end
  end.

(** The router after [ensureUser]: today's log is created if missing, then
    the first applicable branch runs: onboarding, [setgoals], [am], [pm],
    or the coach. *)
Definition route (openai : option Client) (text : string) (d : Date) (now : string)
    (user0 : User) : Routed :=
  let user := touchDay d user0 in
  match onboardingStep user with
  | Some step => routeOnboarding step (trim text) user
  | None =>
      match pending user with
      | Some Setgoals =>
          let user' := set_pending None (set_mission (trim text) user) in
          {| routedUser := user'; routedSave := true;
             routedReply := "Mission updated:" +:+ nl +:+ goalsText user' |}
      | Some AwaitAm =>
          let entry := {| text := text; timestamp := now |} in
          {| routedUser := set_pending None (putDay d (set_am (Some entry) (getDay d user)) user);
             routedSave := true;
             routedReply := "Dawn Report logged." +:+ nl +:+ "Execute." |}
      | Some AwaitPm =>
          let entry := {| text := text; timestamp := now |} in
          {| routedUser :=
               updateDailyStats
                 (set_pending None (putDay d (set_pm (Some entry) (getDay d user)) user)) d;
             routedSave := true;
             routedReply := "Nightly Debrief logged." +:+ nl +:+ "Tomorrow the standard rises." |}
      | None =>
          {| routedUser := user; routedSave := false;
             routedReply := coachReply openai user text |}
      end
  end.

(** [bot.on("message", ...)].  [d] is [todayDate()] and [now] is [new
    Date().toISOString()] at the time of the call.  Texts that start with a
    slash are left to the command handlers. *)
Definition onMessage (openai : option Client) (msg : Msg) (d : Date) (now : string)
    (users : Users) : Users * list Effect :=
  let text := default EmptyString (msg_text msg) in
  if startsWith "/" text then (users, []) else
  let '(users1, user0, saved) := ensureUser msg users in
  let r := route openai text d now user0 in
  let users2 := <[userKey msg := routedUser r]> users1 in
  (users2,
   saved ++ (if routedSave r then [ESave users2] else [])
     ++ [ESend (chatId user0) (routedReply r)]).

(** ** The scheduled jobs *)

(** The body of the minute job for one user.  [day] is an alias of
    [user.logs[d]], so the flag assignments land in the table. *)
Definition tickUser (current : string) (d : Date) (user : User) : User * list Effect :=
  if negb (onboarded user) then (user, []) else
  let user0 := touchDay d user in
  let day0 := getDay d user0 in
  let fireAm := String.eqb current (amTime user0) && negb (amPromptSent day0) in
  let user1 := if fireAm then set_pending (Some AwaitAm) user0 else user0 in
  let day1 := if fireAm then set_amPromptSent true day0 else day0 in
  let firePm := String.eqb current (pmTime user1) && negb (pmPromptSent day1) in
  let user2 := if firePm then set_pending (Some AwaitPm) user1 else user1 in
  let day2 := if firePm then set_pmPromptSent true day1 else day1 in
  (putDay d day2 user2,
   (if fireAm then [ESend (chatId user) AM_PROMPT] else [])
     ++ (if firePm then [ESend (chatId user) PM_PROMPT] else [])).

(** [cron.schedule("* * * * *", ...)]: every user is visited, the prompts
    are sent as they fall due, and the table is saved once at the end when
    anything [changed], that is when at least one prompt was sent. *)
Definition cronTick (hh mm : Z) (d : Date) (users : Users) : Users * list Effect :=
  let current := clock hh mm in
  let users' := (λ user, (tickUser current d user).1) <$> users in
  let sends := flat_map (λ kv, (tickUser current d kv.2).2) (map_to_list users) in
  (users', sends ++ match sends with [] => [] | _ :: _ => [ESave users'] end).

(** [cron.schedule("0 18 * * 0", ...)]: the report is computed and sent to
    every onboarded user; the table is neither changed nor saved. *)
Definition weeklyUser (today : Today) (user : User) : list Effect :=
  if negb (onboarded user) then [] else [ESend (chatId user) (weeklyFor user today)].

Definition weeklyReport (today : Today) (users : Users) : Users * list Effect :=
  (users, flat_map (λ kv, weeklyUser today kv.2) (map_to_list users)).

(** The start-up ping, sent to every known user when the process boots. *)
Definition startupPing (users : Users) : Users * list Effect :=
  (users, flat_map (λ kv, [ESend (chatId kv.2) STARTUP_PING]) (map_to_list users)).

(** ** Runs *)

(** One invocation of a handler, with what it reads from its
    environment.  The Telegram library calls [bot.on("message")] for every
    message and, besides, each [bot.onText] handler whose pattern occurs in
    the text; a message that reaches several handlers is the sequence of
    their events. *)
Inductive Event :=
  | Gpt (openai : option Client) (msg : Msg)
  | Start (msg : Msg) (delivered : bool)
  | Onboard (msg : Msg)
  | SetGoals (msg : Msg)
  | Status (msg : Msg) (d : Date)
  | TestAm (msg : Msg) (d : Date)
  | TestPm (msg : Msg) (d : Date)
  | TestWeekly (msg : Msg) (today : Today)
  | Message (openai : option Client) (msg : Msg) (d : Date) (now : string)
  | MinuteTick (hh mm : Z) (d : Date)
  | WeeklyTick (today : Today)
  | Boot.

Definition step (ev : Event) (users : Users) : Users * list Effect :=
  match ev with
  | Gpt openai msg => onGpt openai msg users
  | Start msg delivered => onStart msg delivered users
  | Onboard msg => onOnboard msg users
  | SetGoals msg => onSetgoals msg users
  | Status msg d => onStatus msg d users
  | TestAm msg d => onTestAm msg d users
  | TestPm msg d => onTestPm msg d users
  | TestWeekly msg today => onTestWeekly msg today users
  | Message openai msg d now => onMessage openai msg d now users
  | MinuteTick hh mm d => cronTick hh mm d users
  | WeeklyTick today => weeklyReport today users
  | Boot => startupPing users
  end.

(** The table after a sequence of events, handled one after the other. *)
Definition run (evs : list Event) (users : Users) : Users :=
  foldl (λ s ev, (step ev s).1) users evs.

(** The effects of a sequence of events, each event with its own. *)
Fixpoint trace (evs : list Event) (users : Users) : list (Event * list Effect) :=
  match evs with
  | [] => []
  | ev :: evs' => (ev, (step ev users).2) :: trace evs' (step ev users).1
  end.

(** The tables that can arise from the empty one ([loadUsers] on a first
    start). *)
Definition reachable (users : Users) : Prop := ∃ evs, users = run evs ∅.

(** ** The older variant, [src/unnamed/part_001]

    Only the three functions that differ in behaviour from [src/bot.js] are
    embedded: [updateDailyStats], [coachReply] and the weekly report job.
    This variant still reads tables written by earlier versions, so [logs],
    [stats] and [weeklyStats] may be missing from a user object. *)

Module Part001.

(** The fields of a user object that the three functions read or write. *)
Record User := {
  chatId : string;
  firstName : string;
  name : string;
  goalsText : string;
  habitsText : string;
  onboarded : bool;
  logs : option (gmap Z DayLog);
  stats : option Stats;
  weeklyStats : option (gmap (Z * Z) WeekSnapshot)
}.

Definition set_logs (v : option (gmap Z DayLog)) (u : User) : User :=
  {| chatId := chatId u; firstName := firstName u; name := name u;
     goalsText := goalsText u; habitsText := habitsText u;
     onboarded := onboarded u; logs := v; stats := stats u;
     weeklyStats := weeklyStats u |}.

Definition set_stats (v : option Stats) (u : User) : User :=
  {| chatId := chatId u; firstName := firstName u; name := name u;
     goalsText := goalsText u; habitsText := habitsText u;
     onboarded := onboarded u; logs := logs u; stats := v;
     weeklyStats := weeklyStats u |}.

Definition set_weeklyStats (v : option (gmap (Z * Z) WeekSnapshot)) (u : User) : User :=
  {| chatId := chatId u; firstName := firstName u; name := name u;
     goalsText := goalsText u; habitsText := habitsText u;
     onboarded := onboarded u; logs := logs u; stats := stats u;
     weeklyStats := v |}.

Inductive Effect :=
  | ESave (snapshot : gmap string User)
  | ESend (chat : string) (body : string).

Definition updateDailyStats (user : User) (dateStr : Date) : User :=
  match logs user with
  | None => user
  | Some lg =>
      match lg !! dateStr with
      | None => user
      | Some day =>
          if _counted day then user else
          let s := default zeroStats (stats user) in
          let total := totalDays s + 1 in
          let s' :=
            if isFull day then
              {| totalDays := total;
                 daysWithBoth := daysWithBoth s + 1;
                 streakCurrent := streakCurrent s + 1;
                 streakBest :=
                   if streakBest s <? streakCurrent s + 1
                   then streakCurrent s + 1 else streakBest s |}
            else
              {| totalDays := total;
                 daysWithBoth := daysWithBoth s;
                 streakCurrent := 0;
                 streakBest := streakBest s |} in
          set_logs (Some (<[dateStr := set_counted true day]> lg))
            (set_stats (Some s') user)
      end
  end.

Definition coachName (user : User) : string :=
  orElse (orElse (name user) (firstName user)) "warrior".

Definition coachGoals (user : User) : string :=
  orElse (orElse (goalsText user) (habitsText user)) "No mission defined yet.".

Definition localFallback (user : User) (userText extraLine : string) : string :=
  coachName user +:+ ", higher systems are offline." +:+ nl
  +:+ (if truthy extraLine then extraLine +:+ nl +:+ nl else EmptyString)
  +:+ "Your current mission:" +:+ nl +:+ coachGoals user +:+ nl +:+ nl
  +:+ "You wrote:" +:+ nl +:+ dquote +:+ userText +:+ dquote +:+ nl +:+ nl
  +:+ "Pick one concrete action that moves your mission forward." +:+ nl
  +:+ "Execute it now.".

(** [content?.trim?.() ?? ""], then [text || localFallback(...)]; a
    rejected call is reported with its message. *)
Definition coachReply (openai : option Client) (user : User) (userText : string) : string :=
  match openai with
  | None => localFallback user userText "OpenAI key missing or not loaded."
  | Some create =>
      match create OPENAI_MODEL SYSTEM_PROMPT
              ("Trainee name: " +:+ coachName user +:+ "." +:+ nl
               +:+ "Current habits / goals:" +:+ nl +:+ coachGoals user +:+ nl +:+ nl
               +:+ "Message from trainee:" +:+ nl +:+ userText) with
      | Replied content =>
          let text := trim (default EmptyString content) in
          if truthy text then text
          else localFallback user userText "OpenAI returned an empty reply."
      | Failed message =>
          localFallback user userText ("OpenAI error: " +:+ message)
      end
  end.

Definition weekMsg (todayStr : Date) (rate full total : Z) : string :=
  "Weekly War Report." +:+ nl +:+ nl
  +:+ "Last 7 days (up to " +:+ isoDate todayStr +:+ "):" +:+ nl
  +:+ "• Execution rate: " +:+ showZ rate +:+ "%" +:+ nl
  +:+ "• Full execution days: " +:+ showZ full +:+ "/" +:+ showZ total +:+ nl +:+ nl
  +:+ "This week is dead." +:+ nl +:+ "The next one is unbuilt." +:+ nl +:+ "Dominate it.".

(** [datesSorted[0]] and [datesSorted[datesSorted.length - 1]]: the
    [YYYY-MM-DD] strings sort as the days do, so these are the least and
    the greatest of the seven keys. *)
Definition firstDate (today : Today) : Date :=
  foldr Z.min (weekKey today 0) (weekWindow today).
Definition lastDate (today : Today) : Date :=
  foldr Z.max (weekKey today 0) (weekWindow today).

Definition weekSnapshot (user : User) (today : Today) (now : string) : WeekSnapshot :=
  let '(total, full) := weekTotals (default ∅ (logs user)) today in
  {| startDate := firstDate today;
     endDate := lastDate today;
     habitExecutionRate := weekRate total full;
     completedDays := full;
     totalDaysLogged := total;
     generatedAt := now |}.

(** The body of the weekly job for one user: the message is sent, then the
    snapshot is stored under the week key (the pair of its first and last
    date, [`${start}_${end}`] in the source). *)
Definition weeklyUser (today : Today) (now : string) (user : User) : User * list Effect :=
  if negb (onboarded user) then (user, []) else
  let snap := weekSnapshot user today now in
  (set_weeklyStats
     (Some (<[(startDate snap, endDate snap) := snap]> (default ∅ (weeklyStats user)))) user,
   [ESend (chatId user)
      (weekMsg (todayStr today) (habitExecutionRate snap) (completedDays snap)
         (totalDaysLogged snap))]).

(** [cron.schedule("0 18 * * 0", ...)], ending in an unconditional
    [saveUsers(users)]. *)
Definition weeklyReport (today : Today) (now : string) (users : gmap string User)
  : gmap string User * list Effect :=
  let users' := (λ user, (weeklyUser today now user).1) <$> users in
  (users',
   flat_map (λ kv, (weeklyUser today now kv.2).2) (map_to_list users) ++ [ESave users']).

End Part001.

(** ** Vocabulary of the properties *)

(** The user whose record an event creates when missing: the sender of the
    message, for the handlers that call [ensureUser]. *)
Definition target (ev : Event) : option Msg :=
  match ev with
  | Start msg _ | Onboard msg | SetGoals msg | Status msg _
  | TestAm msg _ | TestPm msg _ | TestWeekly msg _ => Some msg
  | Message _ msg _ _ =>
      if startsWith "/" (default EmptyString (msg_text msg)) then None else Some msg
  | Gpt _ _ | MinuteTick _ _ _ | WeeklyTick _ | Boot => None
  end.

(** What an event does to one user object: to the sender's for a message or
    a command, to every user's for the minute job. *)
Definition evolve (ev : Event) (user : User) : User :=
  match ev with
  | Start _ _ =>
      if onboarded user then user else set_onboardingStep (Some StepName) user
  | Onboard _ => set_onboarded false (set_onboardingStep (Some StepName) user)
  | SetGoals _ => set_pending (Some Setgoals) user
  | TestAm _ d =>
      if negb (onboarded user) then user else
      let user2 := set_pending (Some AwaitAm) (touchDay d user) in
      putDay d (set_amPromptSent true (getDay d user2)) user2
  | TestPm _ d =>
      if negb (onboarded user) then user else
      let user2 := set_pending (Some AwaitPm) (touchDay d user) in
      putDay d (set_pmPromptSent true (getDay d user2)) user2
  | Message openai msg d now =>
      let text := default EmptyString (msg_text msg) in
      if startsWith "/" text then user else routedUser (route openai text d now user)
  | MinuteTick hh mm d => (tickUser (clock hh mm) d user).1
  | Gpt _ _ | Status _ _ | TestWeekly _ _ | WeeklyTick _ | Boot => user
  end.

(** The prompt flags of a user on a date; a missing log, like a missing
    flag, reads as [false]. *)
Definition amSentU (user : User) (d : Date) : bool := amPromptSent (getDay d user).
Definition pmSentU (user : User) (d : Date) : bool := pmPromptSent (getDay d user).

Definition amSent (users : Users) (c : string) (d : Date) : bool :=
  match users !! c with Some user => amSentU user d | None => false end.

Definition pmSent (users : Users) (c : string) (d : Date) : bool :=
  match users !! c with Some user => pmSentU user d | None => false end.

Definition isSend (chat body : string) (e : Effect) : bool :=
  match e with
  | ESend c b => String.eqb c chat && String.eqb b body
  | ESave _ => false
  end.

(** How many times [body] is sent to [chat] in a list of effects. *)
Fixpoint countSends (chat body : string) (effs : list Effect) : nat :=
  match effs with
  | [] => O
  | e :: effs' => ((if isSend chat body e then 1 else 0) + countSends chat body effs')%nat
  end.

(** The sends of [body] to [chat] made by the minute job on date [d] in one
    entry of a trace. *)
Definition tickSends (chat body : string) (d : Date) (entry : Event * list Effect) : nat :=
  match entry.1 with
  | MinuteTick _ _ d' => if bool_decide (d' = d) then countSends chat body entry.2 else O
  | _ => O
  end.

(** The same over a whole trace. *)
Definition scheduledSends (chat body : string) (d : Date)
    (tr : list (Event * list Effect)) : nat :=
  sum_list (tickSends chat body d <$> tr).

(** All the sends of [body] to [chat] in a trace, whatever made them. *)
Definition totalSends (chat body : string) (tr : list (Event * list Effect)) : nat :=
  sum_list ((λ entry, countSends chat body entry.2) <$> tr).

(** Every record sits under its own [chatId]. *)
Definition wellKeyed (users : Users) : Prop :=
  ∀ k user, users !! k = Some user → chatId user = k.

(** A user in the middle of onboarding is not onboarded. *)
Definition gatedU (user : User) : Prop :=
  onboardingStep user ≠ None → onboarded user = false.

(** [onboardingStep] and [pending] are not both set. *)
Definition exclusiveU (user : User) : Prop :=
  onboardingStep user = None ∨ pending user = None.

Definition exclusive (users : Users) : Prop :=
  ∀ k user, users !! k = Some user → exclusiveU user.

(** The events that are not [/start], [/onboard] or [/setgoals]: free-text
    messages, the scheduled jobs, the manual triggers and the read-only
    commands. *)
Definition notConfigCommand (ev : Event) : bool :=
  match ev with
  | Start _ _ | Onboard _ | SetGoals _ => false
  | _ => true
  end.

Definition statsOrdered (s : Stats) : Prop :=
  0 ≤ streakCurrent s ∧ streakCurrent s ≤ daysWithBoth s ∧ daysWithBoth s ≤ totalDays s.

(** Write-then-notify for one handler run that leaves the table as
    [final]: every send is preceded by a save of [final]. *)
Definition writeThenNotify (final : Users) (effs : list Effect) : Prop :=
  ∀ (i : nat) chat body, effs !! i = Some (ESend chat body) →
    ∃ j : nat, (j < i)%nat ∧ effs !! j = Some (ESave final).

(** A list of effects that holds sends only. *)
Definition onlySends (effs : list Effect) : Prop :=
  Forall (λ e, ∃ chat body, e = ESend chat body) effs.

(** The prompt flags of [user'] are at least those of [user], on every
    date. *)
Definition flagsLe (user user' : User) : Prop :=
  ∀ d, (amSentU user d = true → amSentU user' d = true)
       ∧ (pmSentU user d = true → pmSentU user' d = true).

(** The minute job finds the AM (PM) prompt of a user due: the user is
    onboarded, the clock reads their time and the day's flag is not set. *)
Definition dueAm (current : string) (d : Date) (user : User) : bool :=
  onboarded user && String.eqb current (amTime user) && negb (amSentU user d).

Definition duePm (current : string) (d : Date) (user : User) : bool :=
  onboarded user && String.eqb current (pmTime user) && negb (pmSentU user d).

(** A date has a log; a date has a log with both entries. *)
Definition hasLog (logs : gmap Z DayLog) (key : Date) : bool :=
  match logs !! key with Some _ => true | None => false end.

Definition hasFull (logs : gmap Z DayLog) (key : Date) : bool :=
  match logs !! key with Some day => isFull day | None => false end.

Definition countIf (p : Date → bool) (dates : list Date) : Z :=
  Z.of_nat (length (List.filter p dates)).

(** Closing a list of days in order. *)
Definition closeDays (user : User) (dates : list Date) : User :=
  foldl updateDailyStats user dates.

(** A day with a log that has not been counted yet and is full or not. *)
Definition openDay (user : User) (d : Date) (full : bool) : Prop :=
  ∃ day, logs user !! d = Some day ∧ _counted day = false ∧ isFull day = full.

(** ** Sample inputs *)

(** A Telegram user, chat 42, first name Ann; a command from her (the
    command handlers do not read the text) and a free-text message. *)
Definition ann : Msg :=
  {| chat_id := 42; first_name := Some "Ann"%string; msg_text := None |}.

Definition say (text : string) : Msg :=
  {| chat_id := 42; first_name := Some "Ann"%string; msg_text := Some text |}.

(** Day 20000 is 2024-10-04. *)
Definition day0 : Date := 20000.

(** 18:00 of the day [d] on a host that keeps UTC. *)
Definition eveningOf (d : Date) : Today :=
  {| todayStr := d;
     timeValue := d * msPerDay + 18 * 3600000;
     LocalTZA := λ _ _, 0 |}.

(** A host on US Central time on Sunday 2024-11-03 (day 20030), the day
    its clocks go back from UTC-5 to UTC-6 (at 07:00 UTC, which is 02:00
    local daylight time), at 18:00 local time, when the weekly job fires:
    it is midnight UTC, so the UTC date is already 2024-11-04. *)
Definition centralOffset (t : Z) (isUTC : bool) : Z :=
  if t <? 20030 * msPerDay + (if isUTC then 7 else 1) * 3600000
  then -5 * 3600000
  else -6 * 3600000.

Definition clocksGoBack : Today :=
  {| todayStr := 20031;
     timeValue := 20031 * msPerDay;
     LocalTZA := centralOffset |}.

(** [/start] and the five onboarding answers. *)
Definition onboarding : list Event :=
  [Start ann true;
   Message None (say "Ann") day0 "2024-10-04T06:00:00.000Z";
   Message None (say "Europe/Zurich") day0 "2024-10-04T06:00:10.000Z";
   Message None (say "Train. Build. Study.") day0 "2024-10-04T06:00:20.000Z";
   Message None (say "07:00") day0 "2024-10-04T06:00:30.000Z";
   Message None (say "21:00") day0 "2024-10-04T06:00:40.000Z"].

(** The table once Ann is onboarded. *)
Definition enlisted : Users := run onboarding ∅.

(** Two days of use: Ann answers both prompts of the first day and the
    morning prompt of the second. *)
Definition firstDays : list Event :=
  [MinuteTick 7 0 day0;
   Message None (say "Train. Build. Study.") day0 "2024-10-04T07:03:00.000Z";
   MinuteTick 21 0 day0;
   Message None (say "All three done.") day0 "2024-10-04T21:10:00.000Z";
   MinuteTick 7 0 (day0 + 1);
   Message None (say "Train.") (day0 + 1) "2024-10-05T07:01:00.000Z"].

Definition veteran : Users := run firstDays enlisted.

(** A user object of [src/bot.js] as the older variant reads it. *)
Definition asPart001 (user : User) : Part001.User :=
  {| Part001.chatId := chatId user;
     Part001.firstName := firstName user;
     Part001.name := name user;
     Part001.goalsText := goalsText user;
     Part001.habitsText := habitsText user;
     Part001.onboarded := onboarded user;
     Part001.logs := Some (logs user);
     Part001.stats := Some (stats user);
     Part001.weeklyStats := Some (weeklyStats user) |}.

(** Ann's record in that table. *)
Definition annRecord : User := default (newUser "42" ann) (veteran !! "42"%string).

(** A user with four logged days that have not been counted: two full
    ones, one with the morning entry only, and a full one. *)
Definition entry0 : Entry :=
  {| text := "Done."; timestamp := "2024-10-04T21:10:00.000Z" |}.

Definition fullDay : DayLog :=
  {| am := Some entry0; pm := Some entry0; amPromptSent := true;
     pmPromptSent := true; _counted := false |}.

Definition amOnlyDay : DayLog :=
  {| am := Some entry0; pm := None; amPromptSent := true;
     pmPromptSent := true; _counted := false |}.

Definition fourDays : User :=
  set_logs
    (list_to_map
       [(day0, fullDay); (day0 + 1, fullDay); (day0 + 2, amOnlyDay); (day0 + 3, fullDay)])
    (newUser "42" ann).

(** A text-generation client whose calls all time out. *)
Definition timingOut : Client := λ _ _ _, Failed "Request timed out.".

(** ** Further vocabulary *)

(** The shape of a stored time: two digits, a colon, two digits, the hour
    at most 23 and the minute at most 59. *)
Definition isHHMM (t : string) : bool :=
  match t with
  | String a (String b (String ":" (String c (String d EmptyString)))) =>
      isDigit a && isDigit b && isDigit c && isDigit d
      && (10 * digitVal a + digitVal b <=? 23)
      && (10 * digitVal c + digitVal d <=? 59)
  | _ => false
  end.

(** For one minute of the day: its clock reading has the shape above, is
    read back by [matchTime] as the same hour and minute, and is returned
    unchanged by [formatTimeString]. *)
Definition clockChecked (h m : Z) : bool :=
  isHHMM (clock h m)
  && match matchTime (clock h m) with
     | Some (h', m') => (h' =? h) && (m' =? m)
     | None => false
     end
  && match formatTimeString (clock h m) with
     | Some t => String.eqb t (clock h m)
     | None => false
     end.

Definition allClocksChecked : bool :=
  forallb (λ h, forallb (clockChecked h) (seqZ 0 60)) (seqZ 0 24).

(** A time of day that some minute's clock reading equals. *)
Definition clockTime (t : string) : Prop :=
  ∃ h m, 0 ≤ h ≤ 23 ∧ 0 ≤ m ≤ 59 ∧ t = clock h m.

(** The minute job run at the given clock readings of one date. *)
Definition ticksAt (d : Date) (readings : list (Z * Z)) : list Event :=
  (λ hm, MinuteTick hm.1 hm.2 d) <$> readings.

(** Some reading shows the time [t]. *)
Definition shows (t : string) (readings : list (Z * Z)) : bool :=
  existsb (λ hm, String.eqb (clock hm.1 hm.2) t) readings.

(** A second user, chat 7, with no first name on the Telegram side. *)
Definition ben (body : string) : Msg :=
  {| chat_id := 7; first_name := None; msg_text := Some body |}.

(** The table when Ben has been asked for his AM time. *)
Definition benAsked : Users :=
  run [Start (ben "/start") true; Message None (ben "Ben") day0 "2024-10-04T09:00:00.000Z";
       Message None (ben "UTC") day0 "2024-10-04T09:00:10.000Z";
       Message None (ben "Run.") day0 "2024-10-04T09:00:20.000Z"] veteran.

Definition benRecord : User := default (newUser "7" (ben "")) (benAsked !! "7"%string).

(** The chat an event comes from, for the events that are a message or a
    command. *)
Definition sender (ev : Event) : option Msg :=
  match ev with
  | Gpt _ msg | Start msg _ | Onboard msg | SetGoals msg | Status msg _
  | TestAm msg _ | TestPm msg _ | TestWeekly msg _ | Message _ msg _ _ => Some msg
  | MinuteTick _ _ _ | WeeklyTick _ | Boot => None
  end.

(** What a later day log retains of an earlier one: the entries that were
    there are still there (possibly rewritten), and the day stays counted
    once it is. *)
Definition keepsDay (day day' : DayLog) : Prop :=
  (is_Some (am day) → is_Some (am day'))
  ∧ (is_Some (pm day) → is_Some (pm day'))
  ∧ (_counted day = true → _counted day' = true).

(** Every day log of [user] is still there in [user'], retaining the
    above. *)
Definition keeps (user user' : User) : Prop :=
  ∀ d day, logs user !! d = Some day →
    ∃ day', logs user' !! d = Some day' ∧ keepsDay day day'.

(** The streak never exceeds the best streak, which never exceeds the
    number of full days. *)
Definition streaksBounded (s : Stats) : Prop :=
  0 ≤ streakCurrent s ∧ streakCurrent s ≤ streakBest s
  ∧ streakBest s ≤ daysWithBoth s.

(** The counters that only ever grow. *)
Definition statsLe (s s' : Stats) : Prop :=
  totalDays s ≤ totalDays s' ∧ daysWithBoth s ≤ daysWithBoth s'
  ∧ streakBest s ≤ streakBest s'.

(** The number of day logs of a user that have been counted for the
    stats. *)
Definition countedDays (user : User) : Z :=
  Z.of_nat (size (filter (λ kv : Z * DayLog, _counted kv.2 = true) (logs user))).

(** The stats after closing a day that was full or not. *)
Definition closedStats (full : bool) (s : Stats) : Stats :=
  if full then
    {| totalDays := totalDays s + 1;
       daysWithBoth := daysWithBoth s + 1;
       streakCurrent := streakCurrent s + 1;
       streakBest := Z.max (streakBest s) (streakCurrent s + 1) |}
  else
    {| totalDays := totalDays s + 1;
       daysWithBoth := daysWithBoth s;
       streakCurrent := 0;
       streakBest := streakBest s |}.

(** The events that fire a prompt: the minute job and the two manual
    triggers. *)
Definition firesPrompts (ev : Event) : bool :=
  match ev with
  | MinuteTick _ _ _ | TestAm _ _ | TestPm _ _ => true
  | _ => false
  end.

(** * The runtime document ([data/runtime.json])

    [src/bot.js] keeps, beside the users table, a runtime object with the
    time of the start, one record per named job and two send counters.
    The job records hold what [markJob] writes, [last_status] and
    [last_at], and the fields its two callers pass as [extra]: [current]
    (minute job) and [when] (weekly job).  Instants are the milliseconds
    of [Date.now()]; [new Date().toISOString()] keeps them to the
    millisecond and [new Date(last).getTime()] gives them back. *)

Module Runtime.

Record Job := {
  last_status : option string;
  last_at : option Z;
  current : option string;
  when : option string
}.

Record Counters := { send_ok : Z; send_err : Z }.

Record Runtime := {
  started_at : Z;
  jobs : gmap string Job;
  counters : Counters
}.

Definition set_jobs (v : gmap string Job) (rt : Runtime) : Runtime :=
  {| started_at := started_at rt; jobs := v; counters := counters rt |}.

Definition set_counters (v : Counters) (rt : Runtime) : Runtime :=
  {| started_at := started_at rt; jobs := jobs rt; counters := v |}.

(** [loadRuntime]: the parsed file, or a new document when the file is
    missing or cannot be parsed. *)
Definition loadRuntime (file : option Runtime) (now : Z) : Runtime :=
  match file with
  | Some rt => rt
  | None =>
      {| started_at := now; jobs := ∅; counters := {| send_ok := 0; send_err := 0 |} |}
  end.

(** The [extra] argument of [markJob]: an object with some of the fields
    [current] and [when]. *)
Record Extra := { extraCurrent : option string; extraWhen : option string }.

Definition noExtra : Extra := {| extraCurrent := None; extraWhen := None |}.

(** [{ ...old, last_status: status, last_at: now, ...extra }]: later
    members win, members that [extra] does not have are kept from the
    record the job had. *)
Definition spreadJob (old : option Job) (status : string) (now : Z) (extra : Extra) : Job :=
  {| last_status := Some status;
     last_at := Some now;
     current :=
       match extraCurrent extra with
       | Some c => Some c
       | None => old ≫= current
       end;
     when :=
       match extraWhen extra with
       | Some w => Some w
       | None => old ≫= when
       end |}.

(** [markJob(jobName, status, extra)] at the instant [now]; the document is
    saved as it is left. *)
Definition markJob (jobName status : string) (extra : Extra) (now : Z) (rt : Runtime) : Runtime :=
  set_jobs (<[jobName := spreadJob (jobs rt !! jobName) status now extra]> (jobs rt)) rt.

(** The counting half of [safeSend]: [send_ok++] when [bot.sendMessage]
    resolves, [send_err++] when it rejects. *)
Definition countSend (delivered : bool) (rt : Runtime) : Runtime :=
  let c := counters rt in
  if delivered
  then set_counters {| send_ok := send_ok c + 1; send_err := send_err c |} rt
  else set_counters {| send_ok := send_ok c; send_err := send_err c + 1 |} rt.

(** The first statement of the minute job and of the weekly job. *)
Definition markTick (current : string) (now : Z) (rt : Runtime) : Runtime :=
  markJob "cron_tick_am_pm" "ok" {| extraCurrent := Some current; extraWhen := None |} now rt.

Definition markWeekly (todayStr : string) (now : Z) (rt : Runtime) : Runtime :=
  markJob "weekly_report" "fired" {| extraCurrent := None; extraWhen := Some todayStr |} now rt.

(** The record the watchdog logs as [watchdog_missed]. *)
Record Missed := { missed_last_at : Z; diff_minutes : Z }.

(** [Math.round] of a ratio of two integers, the divisor positive: the
    nearest integer, halves upwards. *)
Definition roundDiv (a b : Z) : Z := (2 * a + b) / (2 * b).

(** The watchdog, every five minutes: silent when no tick of the minute
    job is on record, otherwise it reports a last tick that is more than
    six minutes old. *)
Definition watchdog (now : Z) (rt : Runtime) : option Missed :=
  match jobs rt !! "cron_tick_am_pm"%string ≫= last_at with
  | None => None
  | Some last =>
      let diffMs := now - last in
      if 6 * 60 * 1000 <? diffMs
      then Some {| missed_last_at := last; diff_minutes := roundDiv diffMs 60000 |}
      else None
  end.

(** What happens to the document while the bot runs. *)
Inductive Change :=
  | Ticked (current : string) (now : Z)
  | WeeklyFired (todayStr : string) (now : Z)
  | SendSettled (delivered : bool).

Definition apply (c : Change) (rt : Runtime) : Runtime :=
  match c with
  | Ticked current now => markTick current now rt
  | WeeklyFired todayStr now => markWeekly todayStr now rt
  | SendSettled delivered => countSend delivered rt
  end.

Definition applyAll (cs : list Change) (rt : Runtime) : Runtime :=
  foldl (λ rt c, apply c rt) rt cs.

(** The instant of the last tick among the changes, [recorded] when there
    is none. *)
Fixpoint lastTick (recorded : option Z) (cs : list Change) : option Z :=
  match cs with
  | [] => recorded
  | Ticked _ now :: cs' => lastTick (Some now) cs'
  | _ :: cs' => lastTick recorded cs'
  end.

(** The number of sends among the changes that settled as [delivered]. *)
Fixpoint settled (delivered : bool) (cs : list Change) : Z :=
  match cs with
  | [] => 0
  | SendSettled b :: cs' =>
      (if Bool.eqb b delivered then 1 else 0) + settled delivered cs'
  | _ :: cs' => settled delivered cs'
  end.

End Runtime.

(** * The two-channel variant ([src/unnamed/part_000])

    The variant that serves Telegram and WhatsApp keys its users by
    ["tg:" + chat id] or ["wa:" + phone] and records on each user the
    address of each channel the user has been seen on. *)

Module Part000.

Record User := {
  userKey : string;
  telegramChatId : option string;
  whatsappFrom : option string;
  firstName : string;
  name : string;
  timezone : string;
  amTime : string;
  pmTime : string;
  goalsText : string;
  habitsText : string;
  pending : option Pending;
  onboardingStep : option Step;
  onboarded : bool;
  logs : gmap Z DayLog;
  stats : Stats;
  weeklyStats : gmap (Z * Z) WeekSnapshot
}.

Definition set_telegramChatId (v : option string) (u : User) : User :=
  {| userKey := userKey u; telegramChatId := v; whatsappFrom := whatsappFrom u;
     firstName := firstName u; name := name u; timezone := timezone u;
     amTime := amTime u; pmTime := pmTime u; goalsText := goalsText u;
     habitsText := habitsText u; pending := pending u;
     onboardingStep := onboardingStep u; onboarded := onboarded u;
     logs := logs u; stats := stats u; weeklyStats := weeklyStats u |}.

Definition set_whatsappFrom (v : option string) (u : User) : User :=
  {| userKey := userKey u; telegramChatId := telegramChatId u; whatsappFrom := v;
     firstName := firstName u; name := name u; timezone := timezone u;
     amTime := amTime u; pmTime := pmTime u; goalsText := goalsText u;
     habitsText := habitsText u; pending := pending u;
     onboardingStep := onboardingStep u; onboarded := onboarded u;
     logs := logs u; stats := stats u; weeklyStats := weeklyStats u |}.

Inductive Effect :=
  | ESave (snapshot : gmap string User)
  | ETelegram (chat : string) (body : string)
  | EWhatsApp (to : string) (body : string).

(** The [defaults] argument of [ensureUserByKey]; each member may be
    missing. *)
Record Defaults := {
  defaultTelegramChatId : option string;
  defaultWhatsappFrom : option string;
  defaultFirstName : option string
}.

(** Truthiness of a member that is a string, [null] or undefined. *)
Definition linked (v : option string) : bool :=
  match v with
  | Some s => truthy s
  | None => false
  end.

(** [v || null]. *)
Definition orNull (v : option string) : option string :=
  if linked v then v else None.

Definition newUser (key : string) (defaults : Defaults) : User :=
  {| userKey := key;
     telegramChatId := orNull (defaultTelegramChatId defaults);
     whatsappFrom := orNull (defaultWhatsappFrom defaults);
     firstName := if linked (defaultFirstName defaults)
                  then default EmptyString (defaultFirstName defaults)
                  else EmptyString;
     name := EmptyString;
     timezone := EmptyString;
     amTime := "07:00";
     pmTime := "21:00";
     goalsText := EmptyString;
     habitsText := EmptyString;
     pending := None;
     onboardingStep := None;
     onboarded := false;
     logs := ∅;
     stats := zeroStats;
     weeklyStats := ∅ |}.

(** The two statements after the creation: a channel address that comes
    with [defaults] is recorded when the user has none for that channel. *)
Definition linkChannels (defaults : Defaults) (user : User) : User :=
  let user1 :=
    if linked (defaultTelegramChatId defaults) && negb (linked (telegramChatId user))
    then set_telegramChatId (defaultTelegramChatId defaults) user
    else user in
  if linked (defaultWhatsappFrom defaults) && negb (linked (whatsappFrom user1))
  then set_whatsappFrom (defaultWhatsappFrom defaults) user1
  else user1.

(** [ensureUserByKey(userKey, defaults)]: creates and saves the record
    when it is missing, links the channels, saves and returns the
    record. *)
Definition ensureUserByKey (key : string) (defaults : Defaults) (users : gmap string User)
  : gmap string User * User * list Effect :=
  match users !! key with
  | Some user =>
      let user' := linkChannels defaults user in
      let users' := <[key := user']> users in
      (users', user', [ESave users'])
  | None =>
      let created := <[key := newUser key defaults]> users in
      let user' := linkChannels defaults (newUser key defaults) in
      let users' := <[key := user']> created in
      (users', user', [ESave created; ESave users'])
  end.

(** [s.replace(needle, "")] with a string needle: the first occurrence is
    removed. *)
Fixpoint dropChars (n : nat) (s : string) : string :=
  match n, s with
  | O, _ => s
  | S n', String _ r => dropChars n' r
  | S _, EmptyString => EmptyString
  end.

Fixpoint removeFirst (needle s : string) : string :=
  if String.prefix needle s then dropChars (String.length needle) s
  else
    match s with
    | EmptyString => EmptyString
    | String c r => String c (removeFirst needle r)
    end.

(** [normalizeWhatsAppFrom(from)]. *)
Definition normalizeWhatsAppFrom (from : option string) : string :=
  if linked from
  then trim (removeFirst "whatsapp:" (default EmptyString from))
  else EmptyString.

(** The address [safeSendWhatsApp] sends to. *)
Definition toFormatted (whatsappTo : string) : string :=
  "whatsapp:" +:+ (if startsWith "+" whatsappTo then whatsappTo else "+" +:+ whatsappTo).

(** Which transports are configured: [bot] is not [null], [hasTwilio]. *)
Record Channels := { telegramOn : bool; hasTwilio : bool }.

(** [safeSendTelegram]: skipped without a bot, otherwise one send, counted
    as delivered or failed. *)
Definition safeSendTelegram (on : Channels) (delivered : bool) (chat body : string)
    (rt : Runtime.Runtime) : Runtime.Runtime * list Effect :=
  if telegramOn on
  then (Runtime.countSend delivered rt, [ETelegram chat body])
  else (rt, []).

(** [safeSendWhatsApp]: throws before anything is sent or counted when
    Twilio is not configured. *)
Definition safeSendWhatsApp (on : Channels) (delivered : bool) (whatsappTo body : string)
    (rt : Runtime.Runtime) : Runtime.Runtime * list Effect :=
  if hasTwilio on
  then (Runtime.countSend delivered rt, [EWhatsApp (toFormatted whatsappTo) body])
  else (rt, []).

(** [sendToUser(user, text)]: one task per channel the user has, settled
    independently ([Promise.allSettled]). *)
Definition sendToUser (on : Channels) (telegramDelivered whatsappDelivered : bool)
    (user : User) (body : string) (rt : Runtime.Runtime) : Runtime.Runtime * list Effect :=
  let '(rt1, sent1) :=
    if linked (telegramChatId user)
    then safeSendTelegram on telegramDelivered
           (default EmptyString (telegramChatId user)) body rt
    else (rt, []) in
  let '(rt2, sent2) :=
    if linked (whatsappFrom user)
    then safeSendWhatsApp on whatsappDelivered
           (default EmptyString (whatsappFrom user)) body rt1
    else (rt1, []) in
  (rt2, sent1 ++ sent2).

(** The user the WhatsApp webhook works on: [req.body.From] gives the
    phone, the key and the channel address. *)
Definition webhookUser (from : option string) (users : gmap string User)
  : gmap string User * User * list Effect :=
  let fromPhone := normalizeWhatsAppFrom (Some (default EmptyString from)) in
  ensureUserByKey ("wa:" +:+ fromPhone)
    {| defaultTelegramChatId := None;
       defaultWhatsappFrom := Some fromPhone;
       defaultFirstName := Some EmptyString |} users.

(** The user a Telegram handler works on. *)
Definition telegramUser (msg : Msg) (users : gmap string User)
  : gmap string User * User * list Effect :=
  ensureUserByKey ("tg:" +:+ showZ (chat_id msg))
    {| defaultTelegramChatId := Some (showZ (chat_id msg));
       defaultWhatsappFrom := None;
       defaultFirstName := Some (default EmptyString (first_name msg)) |} users.

(** The two ways a user comes in. *)
Inductive Arrival :=
  | FromTelegram (msg : Msg)
  | FromWhatsApp (from : option string).

Definition arrive (a : Arrival) (users : gmap string User) : gmap string User :=
  match a with
  | FromTelegram msg => (telegramUser msg users).1.1
  | FromWhatsApp from => (webhookUser from users).1.1
  end.

Definition arriveAll (arrivals : list Arrival) (users : gmap string User)
  : gmap string User :=
  foldl (λ users a, arrive a users) users arrivals.

(** Every record sits under its own key, and the key names the channel
    address the record has. *)
Definition channelsByKey (users : gmap string User) : Prop :=
  ∀ k user, users !! k = Some user →
    userKey user = k
    ∧ (linked (telegramChatId user) = true →
       k = "tg:" +:+ default EmptyString (telegramChatId user))
    ∧ (linked (whatsappFrom user) = true →
       k = "wa:" +:+ default EmptyString (whatsappFrom user)).

End Part000.

(** The events that only report: the commands [/gpt], [/status] and
    [/test_weekly], the weekly job, the startup ping, and a message that
    starts with a slash, which the router leaves to the command
    handlers. *)
Definition reportsOnly (ev : Event) : bool :=
  match ev with
  | Gpt _ _ | Status _ _ | TestWeekly _ _ | WeeklyTick _ | Boot => true
  | Message _ msg _ _ => startsWith "/" (default EmptyString (msg_text msg))
  | _ => false
  end.

(** * Properties *)

(** ** Dates and times *)

Example isoDate_epoch : isoDate 0 = "1970-01-01"%string.
Proof. reflexivity. Qed.

Example isoDate_leap_day : isoDate 19782 = "2024-02-29"%string.
Proof. reflexivity. Qed.

Example clock_pads : clock 7 5 = "07:05"%string.
Proof. reflexivity. Qed.

Example trim_unicode_space :
  trim (String "194" (String "160" " 7:30 ")) = "7:30"%string.
Proof. reflexivity. Qed.

Example formatTimeString_pads_hour : formatTimeString " 7:30 " = Some "07:30"%string.
Proof. reflexivity. Qed.

(** The claim C6 as written expects ["0:0"] to be accepted and normalised;
    the pattern asks for exactly two minute digits, so it is rejected. *)
Lemma C6_short_minutes_rejected :
  formatTimeString "0:0" = None ∧ formatTimeString "0:0" ≠ Some "00:00"%string.
Proof. split; [reflexivity | discriminate]. Qed.

(** C6 (amended): [formatTimeString] returns ["07:00"] and ["23:59"]
    unchanged, normalises a one-digit hour (["0:00"] becomes ["00:00"]),
    and rejects ["0:0"], ["24:00"], ["12:60"], ["7"] and ["7:0a"]. *)
Theorem C6_formatTimeString_cases :
  formatTimeString "07:00" = Some "07:00"%string
  ∧ formatTimeString "23:59" = Some "23:59"%string
  ∧ formatTimeString "0:00" = Some "00:00"%string
  ∧ formatTimeString "0:0" = None
  ∧ formatTimeString "24:00" = None
  ∧ formatTimeString "12:60" = None
  ∧ formatTimeString "7" = None
  ∧ formatTimeString "7:0a" = None.
Proof. repeat split; reflexivity. Qed.

(** ** Streak accounting *)

Lemma updateDailyStats_open (user : User) (d : Date) (day : DayLog) :
  logs user !! d = Some day → _counted day = false →
  updateDailyStats user d =
    putDay d (set_counted true day)
      (set_stats
         (if isFull day then
            {| totalDays := totalDays (stats user) + 1;
               daysWithBoth := daysWithBoth (stats user) + 1;
               streakCurrent := streakCurrent (stats user) + 1;
               streakBest := Z.max (streakBest (stats user)) (streakCurrent (stats user) + 1) |}
          else
            {| totalDays := totalDays (stats user) + 1;
               daysWithBoth := daysWithBoth (stats user);
               streakCurrent := 0;
               streakBest := streakBest (stats user) |}) user).
Proof. intros Hd Hc. unfold updateDailyStats. by rewrite Hd, Hc. Qed.

Lemma updateDailyStats_counted (user : User) (d : Date) (day : DayLog) :
  logs user !! d = Some day → _counted day = true → updateDailyStats user d = user.
Proof. intros Hd Hc. unfold updateDailyStats. by rewrite Hd, Hc. Qed.

Lemma updateDailyStats_absent (user : User) (d : Date) :
  logs user !! d = None → updateDailyStats user d = user.
Proof. intros Hd. unfold updateDailyStats. by rewrite Hd. Qed.

Lemma part001_updateDailyStats_counted (user : Part001.User) (d : Date)
    (lg : gmap Z DayLog) (day : DayLog) :
  Part001.logs user = Some lg → lg !! d = Some day → _counted day = true →
  Part001.updateDailyStats user d = user.
Proof. intros Hl Hd Hc. unfold Part001.updateDailyStats. by rewrite Hl, Hd, Hc. Qed.

Lemma updateDailyStats_logs_ne (user : User) (d d' : Date) :
  d ≠ d' → logs (updateDailyStats user d) !! d' = logs user !! d'.
Proof.
  intros Hne. unfold updateDailyStats.
  destruct (logs user !! d) as [day|] eqn:Hd; [|done].
  destruct (_counted day); [done|].
  simpl. by rewrite lookup_insert_ne.
Qed.

Lemma openDay_updateDailyStats_ne (user : User) (d d' : Date) (full : bool) :
  d ≠ d' → openDay user d' full → openDay (updateDailyStats user d) d' full.
Proof.
  intros Hne (day & Hday & Hc & Hf). exists day.
  by rewrite updateDailyStats_logs_ne.
Qed.

Lemma updateDailyStats_full (user : User) (d : Date) :
  openDay user d true →
  stats (updateDailyStats user d) =
    {| totalDays := totalDays (stats user) + 1;
       daysWithBoth := daysWithBoth (stats user) + 1;
       streakCurrent := streakCurrent (stats user) + 1;
       streakBest := Z.max (streakBest (stats user)) (streakCurrent (stats user) + 1) |}.
Proof.
  intros (day & Hday & Hc & Hf).
  rewrite (updateDailyStats_open _ _ _ Hday Hc), Hf. reflexivity.
Qed.

Lemma updateDailyStats_partial (user : User) (d : Date) :
  openDay user d false →
  stats (updateDailyStats user d) =
    {| totalDays := totalDays (stats user) + 1;
       daysWithBoth := daysWithBoth (stats user);
       streakCurrent := 0;
       streakBest := streakBest (stats user) |}.
Proof.
  intros (day & Hday & Hc & Hf).
  rewrite (updateDailyStats_open _ _ _ Hday Hc), Hf. reflexivity.
Qed.

(** C2: on a day that has a log and is not counted yet, [updateDailyStats]
    adds one to [totalDays]; a full day adds one to [daysWithBoth] and to
    [streakCurrent] and raises [streakBest] to the new streak if that is
    larger; any other day resets [streakCurrent] to 0.  Closing four days
    full, full, partial, full from zeroed stats leaves [streakCurrent = 1]
    and [streakBest = 2]. *)
Theorem C2_updateDailyStats_streak_law :
  (∀ (user : User) (d : Date) (full : bool),
     openDay user d full →
     let s := stats user in
     let s' := stats (updateDailyStats user d) in
     totalDays s' = totalDays s + 1
     ∧ (full = true →
        daysWithBoth s' = daysWithBoth s + 1
        ∧ streakCurrent s' = streakCurrent s + 1
        ∧ streakBest s' = Z.max (streakBest s) (streakCurrent s'))
     ∧ (full = false →
        streakCurrent s' = 0
        ∧ daysWithBoth s' = daysWithBoth s
        ∧ streakBest s' = streakBest s))
  ∧ (∀ (user : User) (d1 d2 d3 d4 : Date),
       stats user = zeroStats →
       NoDup [d1; d2; d3; d4] →
       openDay user d1 true → openDay user d2 true →
       openDay user d3 false → openDay user d4 true →
       let s' := stats (closeDays user [d1; d2; d3; d4]) in
       streakCurrent s' = 1 ∧ streakBest s' = 2
       ∧ totalDays s' = 4 ∧ daysWithBoth s' = 3).
Proof.
  split.
  - intros user d full Hopen. destruct full.
    + cbv zeta. rewrite (updateDailyStats_full _ _ Hopen). simpl.
      repeat split; done.
    + cbv zeta. rewrite (updateDailyStats_partial _ _ Hopen). simpl.
      repeat split; done.
  - intros user d1 d2 d3 d4 Hz Hnd H1 H2 H3 H4.
    apply NoDup_cons in Hnd as [Hn1 Hnd].
    apply NoDup_cons in Hnd as [Hn2 Hnd].
    apply NoDup_cons in Hnd as [Hn3 _].
    assert (d1 ≠ d2 ∧ d1 ≠ d3 ∧ d1 ≠ d4 ∧ d2 ≠ d3 ∧ d2 ≠ d4 ∧ d3 ≠ d4)
      as (N12 & N13 & N14 & N23 & N24 & N34) by set_solver.
    unfold closeDays. simpl.
    set (u1 := updateDailyStats user d1).
    assert (H2' : openDay u1 d2 true) by by apply openDay_updateDailyStats_ne.
    assert (H3' : openDay u1 d3 false) by by apply openDay_updateDailyStats_ne.
    assert (H4' : openDay u1 d4 true) by by apply openDay_updateDailyStats_ne.
    set (u2 := updateDailyStats u1 d2).
    assert (H3'' : openDay u2 d3 false) by by apply openDay_updateDailyStats_ne.
    assert (H4'' : openDay u2 d4 true) by by apply openDay_updateDailyStats_ne.
    set (u3 := updateDailyStats u2 d3).
    assert (H4''' : openDay u3 d4 true) by by apply openDay_updateDailyStats_ne.
    rewrite (updateDailyStats_full _ _ H4'''). subst u3.
    rewrite (updateDailyStats_partial _ _ H3''). subst u2.
    rewrite (updateDailyStats_full _ _ H2'). subst u1.
    rewrite (updateDailyStats_full _ _ H1), Hz. simpl. done.
Qed.

(** C3: [updateDailyStats] is idempotent.  A second call for the same date
    changes nothing, neither the stats nor the day's log, because the first
    one leaves [_counted] set (or found nothing to count).  This holds for
    the function of [src/bot.js] and for the one of the older variant. *)
Theorem C3_updateDailyStats_idempotent :
  (∀ (user : User) (d : Date),
     updateDailyStats (updateDailyStats user d) d = updateDailyStats user d)
  ∧ (∀ (user : Part001.User) (d : Date),
       Part001.updateDailyStats (Part001.updateDailyStats user d) d
       = Part001.updateDailyStats user d).
Proof.
  split.
  - intros user d.
    destruct (logs user !! d) as [day|] eqn:Hd.
    + destruct (_counted day) eqn:Hc.
      * by rewrite !(updateDailyStats_counted _ _ _ Hd Hc).
      * rewrite (updateDailyStats_open _ _ _ Hd Hc).
        eapply updateDailyStats_counted; [apply lookup_insert_eq | reflexivity].
    + by rewrite !(updateDailyStats_absent _ _ Hd).
  - intros user d.
    destruct (Part001.logs user) as [lg|] eqn:Hl.
    + destruct (lg !! d) as [day|] eqn:Hd.
      * destruct (_counted day) eqn:Hc.
        -- by rewrite !(part001_updateDailyStats_counted _ _ _ _ Hl Hd Hc).
        -- remember (Part001.updateDailyStats user d) as user' eqn:Hu.
           unfold Part001.updateDailyStats in Hu. rewrite Hl, Hd, Hc in Hu.
           subst user'.
           eapply part001_updateDailyStats_counted;
             [reflexivity | apply lookup_insert_eq | reflexivity].
      * assert (Hid : Part001.updateDailyStats user d = user).
        { unfold Part001.updateDailyStats. by rewrite Hl, Hd. }
        by rewrite !Hid.
    + assert (Hid : Part001.updateDailyStats user d = user).
      { unfold Part001.updateDailyStats. by rewrite Hl. }
      by rewrite !Hid.
Qed.

(** ** The coach *)

Lemma append_assoc (a b c : string) : (a +:+ b) +:+ c = a +:+ b +:+ c.
Proof.
  induction a as [|x a IH]; [done|].
  change (String x ((a +:+ b) +:+ c) = String x (a +:+ b +:+ c)). by rewrite IH.
Qed.

Lemma append_nil_r (a : string) : a +:+ EmptyString = a.
Proof.
  induction a as [|x a IH]; [done|].
  change (String x (a +:+ EmptyString) = String x a). by rewrite IH.
Qed.

Lemma contains_middle (pre needle post : string) :
  contains needle (pre +:+ needle +:+ post).
Proof. by exists pre, post. Qed.

Lemma append_nonempty_r (a b : string) : b ≠ EmptyString → a +:+ b ≠ EmptyString.
Proof. destruct a; [done | discriminate]. Qed.

Lemma failedReply_echo (user : User) (text : string) :
  failedReply user text ≠ EmptyString ∧ contains text (failedReply user text).
Proof.
  split.
  - unfold failedReply. by apply append_nonempty_r.
  - exists (coachName user +:+ ", OpenAI failed." +:+ nl +:+ "Message:" +:+ nl +:+ dquote),
      (dquote +:+ nl +:+ "Execute one step now.").
    unfold failedReply. by rewrite !append_assoc.
Qed.

Lemma localFallback_echo (user : Part001.User) (text extra : string) :
  Part001.localFallback user text extra ≠ EmptyString
  ∧ contains text (Part001.localFallback user text extra).
Proof.
  split.
  - unfold Part001.localFallback. by apply append_nonempty_r.
  - exists (Part001.coachName user +:+ ", higher systems are offline." +:+ nl
            +:+ (if truthy extra then extra +:+ nl +:+ nl else EmptyString)
            +:+ "Your current mission:" +:+ nl +:+ Part001.coachGoals user +:+ nl +:+ nl
            +:+ "You wrote:" +:+ nl +:+ dquote),
      (dquote +:+ nl +:+ nl
       +:+ "Pick one concrete action that moves your mission forward." +:+ nl
       +:+ "Execute it now.").
    unfold Part001.localFallback. by rewrite !append_assoc.
Qed.

(** C9: [coachReply] always returns a string.  When the completion call
    fails (it rejects, or its content is [null] so that trimming it throws)
    the reply is non-empty and contains the user's message; without a
    client the reply is the fixed template around the user's mission
    ([goalsText], else [habitsText], else a default line), whatever the
    message.  The older variant behaves the same way with its own
    template, which holds both the mission and the message. *)
Theorem C9_coachReply_fallback :
  (∀ (create : Client) (user : User) (text prompt : string),
     prompt = ("Trainee: " +:+ coachName user +:+ nl +:+ "Mission:" +:+ nl
               +:+ coachGoals user +:+ nl +:+ nl +:+ "User message:" +:+ nl +:+ text) →
     (∃ message, create OPENAI_MODEL SYSTEM_PROMPT prompt = Failed message)
     ∨ create OPENAI_MODEL SYSTEM_PROMPT prompt = Replied None →
     coachReply (Some create) user text ≠ EmptyString
     ∧ contains text (coachReply (Some create) user text))
  ∧ (∀ (user : User) (text : string),
       coachReply None user text
       = coachName user +:+ ", system offline." +:+ nl +:+ "Your mission:" +:+ nl
         +:+ coachGoals user
       ∧ contains (coachGoals user) (coachReply None user text)
       ∧ (goalsText user ≠ EmptyString → coachGoals user = goalsText user))
  ∧ (∀ (create : Client) (user : Part001.User) (text prompt message : string),
       prompt = ("Trainee name: " +:+ Part001.coachName user +:+ "." +:+ nl
                 +:+ "Current habits / goals:" +:+ nl +:+ Part001.coachGoals user
                 +:+ nl +:+ nl +:+ "Message from trainee:" +:+ nl +:+ text) →
       create OPENAI_MODEL SYSTEM_PROMPT prompt = Failed message →
       Part001.coachReply (Some create) user text ≠ EmptyString
       ∧ contains text (Part001.coachReply (Some create) user text))
  ∧ (∀ (user : Part001.User) (text : string),
       Part001.coachReply None user text
       = Part001.localFallback user text "OpenAI key missing or not loaded."
       ∧ contains (Part001.coachGoals user) (Part001.coachReply None user text)).
Proof.
  split; [|split; [|split]].
  - intros create user text prompt -> Hfail. unfold coachReply.
    destruct Hfail as [[message ->] | ->]; apply failedReply_echo.
  - intros user text. split; [reflexivity|]. split.
    + exists (coachName user +:+ ", system offline." +:+ nl +:+ "Your mission:" +:+ nl),
        EmptyString.
      unfold coachReply, offlineReply.
      rewrite !append_assoc. by rewrite append_nil_r.
    + intros Hg. unfold coachGoals, orElse.
      destruct (goalsText user); [done | reflexivity].
  - intros create user text prompt message -> Hfail. unfold Part001.coachReply.
    rewrite Hfail. apply localFallback_echo.
  - intros user text. split; [reflexivity|].
    exists (Part001.coachName user +:+ ", higher systems are offline." +:+ nl
            +:+ "OpenAI key missing or not loaded." +:+ nl +:+ nl
            +:+ "Your current mission:" +:+ nl),
      (nl +:+ nl +:+ "You wrote:" +:+ nl +:+ dquote +:+ text +:+ dquote +:+ nl +:+ nl
       +:+ "Pick one concrete action that moves your mission forward." +:+ nl
       +:+ "Execute it now.").
    unfold Part001.coachReply, Part001.localFallback. simpl truthy. cbv iota.
    by rewrite !append_assoc.
Qed.

(** ** How a handler changes the table *)

Lemma ensureUser_lookup (msg : Msg) (users : Users) :
  ∃ saved,
    ensureUser msg users
    = (<[userKey msg := default (newUser (userKey msg) msg) (users !! userKey msg)]> users,
       default (newUser (userKey msg) msg) (users !! userKey msg), saved).
Proof.
  unfold ensureUser. destruct (users !! userKey msg) as [user|] eqn:Hu; simpl.
  - exists [ESave users]. by rewrite insert_id.
  - eexists. reflexivity.
Qed.

(** After any event the record under a key is the old one (or, for the
    sender of a message, a fresh one) changed by [evolve]. *)
Lemma step_lookup (ev : Event) (users : Users) (k : string) :
  (step ev users).1 !! k =
    match target ev with
    | Some msg =>
        if decide (k = userKey msg)
        then Some (evolve ev (default (newUser k msg) (users !! k)))
        else users !! k
    | None => evolve ev <$> users !! k
    end.
Proof.
  destruct ev as [openai msg | msg delivered | msg | msg | msg d | msg d | msg d
                 | msg today | openai msg d now | hh mm d | today | ]; simpl.
  - unfold onGpt. destruct openai as [create|].
    + destruct (create _ _ _) as [|[|]]; simpl; by destruct (users !! k).
    + simpl; by destruct (users !! k).
  - unfold onStart. destruct (ensureUser_lookup msg users) as [saved ->].
    case_decide as Hk; subst.
    + destruct (onboarded _); simpl; by rewrite ?lookup_insert_eq, ?insert_insert_eq.
    + destruct (onboarded _); simpl; by rewrite !lookup_insert_ne.
  - unfold onOnboard. destruct (ensureUser_lookup msg users) as [saved ->]. simpl.
    case_decide as Hk; subst; by rewrite ?lookup_insert_eq, ?lookup_insert_ne.
  - unfold onSetgoals. destruct (ensureUser_lookup msg users) as [saved ->]. simpl.
    case_decide as Hk; subst; by rewrite ?lookup_insert_eq, ?lookup_insert_ne.
  - unfold onStatus. destruct (ensureUser_lookup msg users) as [saved ->]. simpl.
    case_decide as Hk; subst; by rewrite ?lookup_insert_eq, ?lookup_insert_ne.
  - unfold onTestAm. destruct (ensureUser_lookup msg users) as [saved ->].
    case_decide as Hk; subst; destruct (onboarded _); simpl;
      by rewrite ?lookup_insert_eq, ?lookup_insert_ne.
  - unfold onTestPm. destruct (ensureUser_lookup msg users) as [saved ->].
    case_decide as Hk; subst; destruct (onboarded _); simpl;
      by rewrite ?lookup_insert_eq, ?lookup_insert_ne.
  - unfold onTestWeekly. destruct (ensureUser_lookup msg users) as [saved ->].
    case_decide as Hk; subst; destruct (onboarded _); simpl;
      by rewrite ?lookup_insert_eq, ?lookup_insert_ne.
  - unfold onMessage, evolve.
    destruct (startsWith _ _) eqn:Hs; simpl.
    + by destruct (users !! k).
    + destruct (ensureUser_lookup msg users) as [saved ->]. simpl.
      case_decide as Hk; subst; by rewrite ?lookup_insert_eq, ?lookup_insert_ne.
  - by rewrite lookup_fmap.
  - simpl; by destruct (users !! k).
  - simpl; by destruct (users !! k).
Qed.

(** ** The prompt flags only ever rise *)

Lemma getDay_touchDay (d d' : Date) (user : User) :
  getDay d' (touchDay d user) = getDay d' user.
Proof.
  unfold touchDay, getDay. destruct (logs user !! d) eqn:Hd; [done|]. simpl.
  destruct (decide (d = d')) as [->|Hne].
  - by rewrite lookup_insert_eq, Hd.
  - by rewrite lookup_insert_ne.
Qed.

Lemma getDay_putDay (d d' : Date) (day : DayLog) (user : User) :
  getDay d' (putDay d day user) = if decide (d = d') then day else getDay d' user.
Proof.
  unfold putDay, getDay. simpl. case_decide as Hd; subst.
  - by rewrite lookup_insert_eq.
  - by rewrite lookup_insert_ne.
Qed.

Lemma flagsLe_refl (user : User) : flagsLe user user.
Proof. by intros d. Qed.

Lemma flagsLe_trans (u1 u2 u3 : User) : flagsLe u1 u2 → flagsLe u2 u3 → flagsLe u1 u3.
Proof. intros H12 H23 d. destruct (H12 d), (H23 d). split; auto. Qed.

Lemma flagsLe_same_logs (user user' : User) : logs user' = logs user → flagsLe user user'.
Proof. intros Hl d. unfold amSentU, pmSentU, getDay. by rewrite Hl. Qed.

Lemma flagsLe_touchDay (d : Date) (user : User) : flagsLe user (touchDay d user).
Proof. intros d'. unfold amSentU, pmSentU. by rewrite getDay_touchDay. Qed.

Lemma flagsLe_logs (user u1 u2 : User) :
  logs u2 = logs u1 → flagsLe user u1 → flagsLe user u2.
Proof. intros Hl H. eapply flagsLe_trans; [exact H | by apply flagsLe_same_logs]. Qed.

Lemma flagsLe_putDay (d : Date) (day : DayLog) (user u0 : User) :
  flagsLe user u0 →
  (amSentU u0 d = true → amPromptSent day = true) →
  (pmSentU u0 d = true → pmPromptSent day = true) →
  flagsLe user (putDay d day u0).
Proof.
  intros H0 Ha Hp. eapply flagsLe_trans; [exact H0|].
  intros d'. unfold amSentU, pmSentU in *. rewrite getDay_putDay.
  case_decide; subst; auto.
Qed.

(** Peels the assignments that leave [logs] alone. *)
Ltac peel_setters :=
  repeat match goal with
  | |- flagsLe ?u (?f ?v ?x) => apply (flagsLe_logs u x); [reflexivity|]
  end.

Lemma flagsLe_updateDailyStats (user u0 : User) (d : Date) :
  flagsLe user u0 → flagsLe user (updateDailyStats u0 d).
Proof.
  intros H0. unfold updateDailyStats.
  destruct (logs u0 !! d) as [day|] eqn:Hd; [|done].
  destruct (_counted day); [done|].
  apply flagsLe_putDay; [by peel_setters | |];
    unfold amSentU, pmSentU, getDay; simpl; by rewrite Hd.
Qed.

Lemma flagsLe_routeOnboarding (step : Step) (value : string) (user u0 : User) :
  flagsLe user u0 → flagsLe user (routedUser (routeOnboarding step value u0)).
Proof.
  intros H0.
  destruct step; simpl; try (by peel_setters);
    destruct (formatTimeString value); simpl; by peel_setters.
Qed.

Lemma flagsLe_route (openai : option Client) (text : string) (d : Date) (now : string)
    (user : User) :
  flagsLe user (routedUser (route openai text d now user)).
Proof.
  unfold route.
  pose proof (flagsLe_touchDay d user) as H1.
  set (user1 := touchDay d user) in *.
  destruct (onboardingStep user1) as [step|]; [by apply flagsLe_routeOnboarding|].
  destruct (pending user1) as [[| |]|]; simpl.
  - by peel_setters.
  - peel_setters. by apply flagsLe_putDay.
  - apply flagsLe_updateDailyStats. peel_setters. by apply flagsLe_putDay.
  - done.
Qed.

Lemma flagsLe_tickUser (current : string) (d : Date) (user : User) :
  flagsLe user (tickUser current d user).1.
Proof.
  unfold tickUser. destruct (onboarded user); simpl; [|apply flagsLe_refl].
  pose proof (flagsLe_touchDay d user) as H1.
  set (user0 := touchDay d user) in *.
  destruct (String.eqb current (amTime user0) && negb (amPromptSent (getDay d user0)));
    simpl;
    match goal with
    | |- context [String.eqb current ?t && negb ?f] =>
        destruct (String.eqb current t && negb f)
    end;
    (apply flagsLe_putDay; [by peel_setters | |]);
    unfold amSentU, pmSentU; simpl; auto.
Qed.

Lemma flagsLe_evolve (ev : Event) (user : User) : flagsLe user (evolve ev user).
Proof.
  pose proof (flagsLe_refl user) as H0.
  destruct ev as [openai msg | msg delivered | msg | msg | msg d | msg d | msg d
                 | msg today | openai msg d now | hh mm d | today | ];
    unfold evolve.
  - done.
  - destruct (onboarded user); [done | by apply flagsLe_same_logs].
  - by apply flagsLe_same_logs.
  - by apply flagsLe_same_logs.
  - done.
  - destruct (onboarded user); simpl negb; cbv iota; [|done].
    pose proof (flagsLe_touchDay d user) as H1.
    apply flagsLe_putDay; [by peel_setters | |]; by simpl.
  - destruct (onboarded user); simpl negb; cbv iota; [|done].
    pose proof (flagsLe_touchDay d user) as H1.
    apply flagsLe_putDay; [by peel_setters | |]; by simpl.
  - done.
  - destruct (startsWith _ _); [done | apply flagsLe_route].
  - apply flagsLe_tickUser.
  - done.
  - done.
Qed.

(** ** Invariants of the table *)

Lemma step_lookup_Some (ev : Event) (users : Users) (k : string) (user : User) :
  users !! k = Some user →
  (step ev users).1 !! k = Some user ∨ (step ev users).1 !! k = Some (evolve ev user).
Proof.
  intros Hu. rewrite step_lookup, Hu. destruct (target ev) as [msg|]; simpl.
  - case_decide; auto.
  - auto.
Qed.

Lemma step_lookup_inv (ev : Event) (users : Users) (k : string) (user' : User) :
  (step ev users).1 !! k = Some user' →
  (∃ user, users !! k = Some user ∧ (user' = user ∨ user' = evolve ev user))
  ∨ (users !! k = None ∧ ∃ msg, user' = evolve ev (newUser k msg)).
Proof.
  rewrite step_lookup. destruct (target ev) as [msg|].
  - case_decide as Hk.
    + intros [= <-]. destruct (users !! k) as [user|]; simpl; eauto.
    + intros Hu. left. eauto.
  - destruct (users !! k) as [user|]; simpl; [|done].
    intros [= <-]. left. eauto.
Qed.

(** A property of the records that holds of a fresh one and survives
    [evolve] holds throughout every table that can arise. *)
Lemma step_invariant (P : string → User → Prop) :
  (∀ k msg, P k (newUser k msg)) →
  (∀ ev k user, P k user → P k (evolve ev user)) →
  ∀ ev (users : Users),
    (∀ k user, users !! k = Some user → P k user) →
    ∀ k user, (step ev users).1 !! k = Some user → P k user.
Proof.
  intros Hnew Hev ev users Hall k user' Hu.
  apply step_lookup_inv in Hu as [(user & Hu & [-> | ->]) | (_ & msg & ->)]; eauto.
Qed.

Lemma run_snoc (evs : list Event) (ev : Event) (users : Users) :
  run (evs ++ [ev]) users = (step ev (run evs users)).1.
Proof. unfold run. by rewrite foldl_app. Qed.

Lemma run_cons (ev : Event) (evs : list Event) (users : Users) :
  run (ev :: evs) users = run evs (step ev users).1.
Proof. reflexivity. Qed.

Lemma run_invariant (P : string → User → Prop) :
  (∀ k msg, P k (newUser k msg)) →
  (∀ ev k user, P k user → P k (evolve ev user)) →
  ∀ (users : Users), reachable users →
    ∀ k user, users !! k = Some user → P k user.
Proof.
  intros Hnew Hev users [evs ->].
  induction evs as [|ev evs IH] using rev_ind.
  - intros k user Hk. unfold run in Hk. simpl in Hk. by rewrite lookup_empty in Hk.
  - rewrite run_snoc. by apply step_invariant.
Qed.

Lemma reachable_step (ev : Event) (users : Users) :
  reachable users → reachable (step ev users).1.
Proof. intros [evs ->]. exists (evs ++ [ev]). by rewrite run_snoc. Qed.

Lemma reachable_run (evs : list Event) (users : Users) :
  reachable users → reachable (run evs users).
Proof.
  revert users. induction evs as [|ev evs IH]; intros users Hr; [done|].
  rewrite run_cons. by apply IH, reachable_step.
Qed.

Lemma chatId_tickUser (current : string) (d : Date) (user : User) :
  chatId (tickUser current d user).1 = chatId user.
Proof.
  unfold tickUser, touchDay. destruct (onboarded user); simpl; [|done].
  destruct (logs user !! d); simpl;
    repeat match goal with
    | |- context [if ?b then _ else _] => destruct b; simpl
    end; reflexivity.
Qed.

Lemma chatId_routeOnboarding (step : Step) (value : string) (user : User) :
  chatId (routedUser (routeOnboarding step value user)) = chatId user.
Proof. destruct step; simpl; try done; by destruct (formatTimeString value). Qed.

Lemma chatId_touchDay (d : Date) (user : User) : chatId (touchDay d user) = chatId user.
Proof. unfold touchDay. by destruct (logs user !! d). Qed.

Lemma chatId_updateDailyStats (user : User) (d : Date) :
  chatId (updateDailyStats user d) = chatId user.
Proof.
  unfold updateDailyStats. destruct (logs user !! d) as [day|]; [|done].
  by destruct (_counted day).
Qed.

Lemma chatId_route (openai : option Client) (text : string) (d : Date) (now : string)
    (user : User) :
  chatId (routedUser (route openai text d now user)) = chatId user.
Proof.
  unfold route. destruct (onboardingStep (touchDay d user)) as [step|].
  - by rewrite chatId_routeOnboarding, chatId_touchDay.
  - destruct (pending (touchDay d user)) as [[| |]|]; simpl;
      by rewrite ?chatId_updateDailyStats; simpl; rewrite ?chatId_touchDay.
Qed.

Lemma chatId_evolve (ev : Event) (user : User) : chatId (evolve ev user) = chatId user.
Proof.
  destruct ev as [openai msg | msg delivered | msg | msg | msg d | msg d | msg d
                 | msg today | openai msg d now | hh mm d | today | ];
    unfold evolve.
  - done.
  - by destruct (onboarded user).
  - done.
  - done.
  - done.
  - destruct (onboarded user); simpl; [|done]. apply chatId_touchDay.
  - destruct (onboarded user); simpl; [|done]. apply chatId_touchDay.
  - done.
  - destruct (startsWith _ _); [done | apply chatId_route].
  - apply chatId_tickUser.
  - done.
  - done.
Qed.

Lemma wellKeyed_step (ev : Event) (users : Users) :
  wellKeyed users → wellKeyed (step ev users).1.
Proof.
  intros Hwf. unfold wellKeyed.
  apply (step_invariant (λ k user, chatId user = k)); [done | | done].
  intros ev' k user <-. apply chatId_evolve.
Qed.

Lemma wellKeyed_run (evs : list Event) (users : Users) :
  wellKeyed users → wellKeyed (run evs users).
Proof.
  revert users. induction evs as [|ev evs IH]; intros users Hwf; [done|].
  rewrite run_cons. by apply IH, wellKeyed_step.
Qed.

Lemma wellKeyed_empty : wellKeyed ∅.
Proof. intros k user. by rewrite lookup_empty. Qed.

Lemma reachable_wellKeyed (users : Users) : reachable users → wellKeyed users.
Proof. intros [evs ->]. apply wellKeyed_run, wellKeyed_empty. Qed.

Lemma step_amSent (ev : Event) (users : Users) (c : string) (d : Date) :
  amSent users c d = true → amSent (step ev users).1 c d = true.
Proof.
  unfold amSent. destruct (users !! c) as [user|] eqn:Hu; [|done].
  intros Hs. destruct (step_lookup_Some ev _ _ _ Hu) as [-> | ->]; [done|].
  by apply flagsLe_evolve.
Qed.

Lemma step_pmSent (ev : Event) (users : Users) (c : string) (d : Date) :
  pmSent users c d = true → pmSent (step ev users).1 c d = true.
Proof.
  unfold pmSent. destruct (users !! c) as [user|] eqn:Hu; [|done].
  intros Hs. destruct (step_lookup_Some ev _ _ _ Hu) as [-> | ->]; [done|].
  by apply flagsLe_evolve.
Qed.

Lemma run_amSent (evs : list Event) (users : Users) (c : string) (d : Date) :
  amSent users c d = true → amSent (run evs users) c d = true.
Proof.
  revert users. induction evs as [|ev evs IH]; intros users Hs; [done|].
  rewrite run_cons. by apply IH, step_amSent.
Qed.

Lemma run_pmSent (evs : list Event) (users : Users) (c : string) (d : Date) :
  pmSent users c d = true → pmSent (run evs users) c d = true.
Proof.
  revert users. induction evs as [|ev evs IH]; intros users Hs; [done|].
  rewrite run_cons. by apply IH, step_pmSent.
Qed.

(** ** At most one scheduled prompt per slot and day *)

Lemma amTime_touchDay (d : Date) (user : User) : amTime (touchDay d user) = amTime user.
Proof. unfold touchDay. by destruct (logs user !! d). Qed.

Lemma pmTime_touchDay (d : Date) (user : User) : pmTime (touchDay d user) = pmTime user.
Proof. unfold touchDay. by destruct (logs user !! d). Qed.

Lemma tickUser_effects (current : string) (d : Date) (user : User) :
  (tickUser current d user).2 =
    (if dueAm current d user then [ESend (chatId user) AM_PROMPT] else [])
      ++ (if duePm current d user then [ESend (chatId user) PM_PROMPT] else []).
Proof.
  unfold tickUser, dueAm, duePm, amSentU, pmSentU.
  destruct (onboarded user); simpl; [|done].
  rewrite amTime_touchDay, getDay_touchDay.
  destruct (String.eqb current (amTime user) && negb (amPromptSent (getDay d user)));
    simpl; by rewrite pmTime_touchDay.
Qed.

Lemma tickUser_am_flag (current : string) (d : Date) (user : User) :
  dueAm current d user = true → amSentU (tickUser current d user).1 d = true.
Proof.
  unfold tickUser, dueAm, amSentU. destruct (onboarded user); simpl; [|done].
  rewrite amTime_touchDay, getDay_touchDay. intros ->. simpl.
  rewrite getDay_putDay, decide_True by done.
  by destruct (String.eqb current _ && negb _).
Qed.

Lemma tickUser_pm_flag (current : string) (d : Date) (user : User) :
  duePm current d user = true → pmSentU (tickUser current d user).1 d = true.
Proof.
  unfold tickUser, duePm, pmSentU. destruct (onboarded user); simpl; [|done].
  rewrite getDay_putDay, decide_True by done.
  destruct (String.eqb current (amTime (touchDay d user)) && negb _); simpl;
    rewrite pmTime_touchDay, getDay_touchDay; by intros ->.
Qed.

Lemma prompts_differ : String.eqb PM_PROMPT AM_PROMPT = false.
Proof. reflexivity. Qed.

Lemma tickUser_am_count (current : string) (d : Date) (user : User) (c : string) :
  countSends c AM_PROMPT (tickUser current d user).2 =
    if dueAm current d user && String.eqb (chatId user) c then 1%nat else 0%nat.
Proof.
  rewrite tickUser_effects.
  destruct (dueAm current d user), (duePm current d user); simpl;
    rewrite ?prompts_differ, ?String.eqb_refl, ?andb_false_r, ?andb_true_r;
    by destruct (String.eqb (chatId user) c).
Qed.

Lemma tickUser_pm_count (current : string) (d : Date) (user : User) (c : string) :
  countSends c PM_PROMPT (tickUser current d user).2 =
    if duePm current d user && String.eqb (chatId user) c then 1%nat else 0%nat.
Proof.
  rewrite tickUser_effects.
  assert (String.eqb AM_PROMPT PM_PROMPT = false) as Hne by reflexivity.
  destruct (dueAm current d user), (duePm current d user); simpl;
    rewrite ?Hne, ?String.eqb_refl, ?andb_false_r, ?andb_true_r;
    by destruct (String.eqb (chatId user) c).
Qed.

Lemma countSends_app (c body : string) (l1 l2 : list Effect) :
  countSends c body (l1 ++ l2) = (countSends c body l1 + countSends c body l2)%nat.
Proof. induction l1 as [|e l1 IH]; simpl; [done | rewrite IH; lia]. Qed.

(** Over the entries of a well-keyed table, only the entry of [c] sends to
    [c]. *)
Lemma countSends_entries (f : User → list Effect) (c body : string)
    (l : list (string * User)) :
  (∀ user, chatId user ≠ c → countSends c body (f user) = O) →
  NoDup l.*1 →
  (∀ k user, (k, user) ∈ l → chatId user = k) →
  countSends c body (flat_map (λ kv, f kv.2) l) =
    match list_find (λ kv, kv.1 = c) l with
    | Some (_, (_, user)) => countSends c body (f user)
    | None => O
    end.
Proof.
  intros Hother. induction l as [|[k user] l IH]; intros Hnd Hkeys; [done|].
  simpl in Hnd. apply NoDup_cons in Hnd as [Hk Hnd].
  simpl. rewrite countSends_app, IH; [|done|].
  - case_decide as Hkc; simpl in Hkc.
    + subst k. simpl.
      destruct (list_find (λ kv, kv.1 = c) l) as [[i [k' user']]|] eqn:Hf; simpl; [|lia].
      apply list_find_Some in Hf as (Hi & Hk' & _). simpl in Hk'. subst k'.
      exfalso. apply Hk. apply list_elem_of_fmap. exists (c, user'). split; [done|].
      by eapply list_elem_of_lookup_2.
    + rewrite Hother.
      * by destruct (list_find (λ kv, kv.1 = c) l) as [[i [k' user']]|].
      * rewrite (Hkeys k user); [done | by left].
  - intros k' user' Hin. apply Hkeys. by right.
Qed.

Lemma countSends_map (f : User → list Effect) (c body : string) (users : Users) :
  (∀ user, chatId user ≠ c → countSends c body (f user) = O) →
  wellKeyed users →
  countSends c body (flat_map (λ kv, f kv.2) (map_to_list users)) =
    match users !! c with
    | Some user => countSends c body (f user)
    | None => O
    end.
Proof.
  intros Hother Hwf. rewrite countSends_entries; [|done|apply NoDup_fst_map_to_list|].
  - destruct (list_find _ _) as [[i [k user]]|] eqn:Hf.
    + apply list_find_Some in Hf as (Hi & Hk & _). simpl in Hk. subst k.
      apply list_elem_of_lookup_2, elem_of_map_to_list in Hi. by rewrite Hi.
    + destruct (users !! c) as [user|] eqn:Hu; [|done].
      apply elem_of_map_to_list in Hu.
      eapply list_find_None, Forall_forall in Hf; [|exact Hu]. done.
  - intros k user Hin. apply elem_of_map_to_list in Hin. by apply Hwf.
Qed.

Lemma countSends_save_tail (c body : string) (sends : list Effect) (snap : Users) :
  countSends c body (sends ++ match sends with [] => [] | _ :: _ => [ESave snap] end)
  = countSends c body sends.
Proof. rewrite countSends_app. destruct sends; simpl; lia. Qed.

Lemma cronTick_am_count (hh mm : Z) (d : Date) (users : Users) (c : string) :
  wellKeyed users →
  countSends c AM_PROMPT (cronTick hh mm d users).2 =
    match users !! c with
    | Some user => if dueAm (clock hh mm) d user then 1%nat else 0%nat
    | None => O
    end.
Proof.
  intros Hwf. unfold cronTick. simpl. rewrite countSends_save_tail.
  rewrite (countSends_map (λ user, (tickUser (clock hh mm) d user).2)); [|
    | done].
  - destruct (users !! c) as [user|] eqn:Hu; [|done].
    rewrite tickUser_am_count, (Hwf _ _ Hu), String.eqb_refl. by rewrite andb_true_r.
  - intros user Hne. rewrite tickUser_am_count.
    apply String.eqb_neq in Hne. by rewrite Hne, andb_false_r.
Qed.

Lemma cronTick_pm_count (hh mm : Z) (d : Date) (users : Users) (c : string) :
  wellKeyed users →
  countSends c PM_PROMPT (cronTick hh mm d users).2 =
    match users !! c with
    | Some user => if duePm (clock hh mm) d user then 1%nat else 0%nat
    | None => O
    end.
Proof.
  intros Hwf. unfold cronTick. simpl. rewrite countSends_save_tail.
  rewrite (countSends_map (λ user, (tickUser (clock hh mm) d user).2)); [|
    | done].
  - destruct (users !! c) as [user|] eqn:Hu; [|done].
    rewrite tickUser_pm_count, (Hwf _ _ Hu), String.eqb_refl. by rewrite andb_true_r.
  - intros user Hne. rewrite tickUser_pm_count.
    apply String.eqb_neq in Hne. by rewrite Hne, andb_false_r.
Qed.

Lemma scheduledSends_cons (c body : string) (d : Date) (ev : Event)
    (evs : list Event) (users : Users) :
  scheduledSends c body d (trace (ev :: evs) users)
  = (tickSends c body d (ev, (step ev users).2)
     + scheduledSends c body d (trace evs (step ev users).1))%nat.
Proof. reflexivity. Qed.

Lemma totalSends_cons (c body : string) (ev : Event) (evs : list Event) (users : Users) :
  totalSends c body (trace (ev :: evs) users)
  = (countSends c body (step ev users).2
     + totalSends c body (trace evs (step ev users).1))%nat.
Proof. reflexivity. Qed.

(** The argument is the same for the two slots; it is made once, for a
    prompt [body] that the minute job sends when [due] and whose flag is
    read by [sentU]. *)
Section Slot.

Variable body : string.
Variable due : string → Date → User → bool.
Variable sentU : User → Date → bool.

Hypothesis tick_count : ∀ hh mm d (users : Users) c,
  wellKeyed users →
  countSends c body (cronTick hh mm d users).2 =
    match users !! c with
    | Some user => if due (clock hh mm) d user then 1%nat else 0%nat
    | None => O
    end.
Hypothesis due_unsent : ∀ current d user,
  due current d user = true → sentU user d = false.
Hypothesis due_sets_flag : ∀ current d user,
  due current d user = true → sentU (tickUser current d user).1 d = true.
Hypothesis flag_stays : ∀ ev user d,
  sentU user d = true → sentU (evolve ev user) d = true.

Lemma slot_flag_step (ev : Event) (users : Users) (c : string) (d : Date) :
  from_option (λ user, sentU user d) false (users !! c) = true →
  from_option (λ user, sentU user d) false ((step ev users).1 !! c) = true.
Proof.
  destruct (users !! c) as [user|] eqn:Hu; [|done]. simpl.
  intros Hs. destruct (step_lookup_Some ev _ _ _ Hu) as [-> | ->]; simpl; auto.
Qed.

Lemma slot_entry (ev : Event) (users : Users) (c : string) (d : Date) :
  wellKeyed users →
  tickSends c body d (ev, (step ev users).2) =
    match ev with
    | MinuteTick hh mm d' =>
        if bool_decide (d' = d) then
          match users !! c with
          | Some user => if due (clock hh mm) d user then 1%nat else 0%nat
          | None => O
          end
        else O
    | _ => O
    end.
Proof.
  intros Hwf. unfold tickSends. destruct ev; simpl; try done.
  case_bool_decide; [subst | done]. by apply tick_count.
Qed.

Lemma slot_none_once_sent (evs : list Event) (users : Users) (c : string) (d : Date) :
  wellKeyed users →
  from_option (λ user, sentU user d) false (users !! c) = true →
  scheduledSends c body d (trace evs users) = O.
Proof.
  revert users. induction evs as [|ev evs IH]; intros users Hwf Hs; [done|].
  rewrite scheduledSends_cons, slot_entry by done.
  rewrite IH; [| by apply wellKeyed_step | by apply slot_flag_step].
  destruct ev; try done. case_bool_decide; [|done].
  destruct (users !! c) as [user|]; [|done]. simpl in Hs.
  destruct (due (clock hh mm) d user) eqn:Hdue; [|done].
  apply due_unsent in Hdue. congruence.
Qed.

Lemma slot_flag_after_tick (hh mm : Z) (d : Date) (users : Users) (c : string)
    (user : User) :
  users !! c = Some user → due (clock hh mm) d user = true →
  from_option (λ user, sentU user d) false ((step (MinuteTick hh mm d) users).1 !! c)
  = true.
Proof.
  intros Hu Hdue. simpl. unfold cronTick. simpl. rewrite lookup_fmap, Hu. simpl.
  by apply due_sets_flag.
Qed.

Lemma slot_at_most_once (evs : list Event) (users : Users) (c : string) (d : Date) :
  wellKeyed users →
  (scheduledSends c body d (trace evs users) ≤ 1)%nat.
Proof.
  revert users. induction evs as [|ev evs IH]; intros users Hwf.
  - unfold scheduledSends. simpl. lia.
  - pose proof (IH _ (wellKeyed_step ev _ Hwf)) as Hrest.
    rewrite scheduledSends_cons, slot_entry by done.
    destruct ev; try lia. case_bool_decide; [subst | lia].
    destruct (users !! c) as [user|] eqn:Hu; [|lia].
    destruct (due (clock hh mm) d user) eqn:Hdue; [|lia].
    rewrite slot_none_once_sent; [lia | by apply wellKeyed_step |].
    by eapply slot_flag_after_tick.
Qed.

Lemma slot_exactly_once (n : nat) (hh mm : Z) (users : Users) (c : string)
    (d : Date) (user : User) :
  wellKeyed users → users !! c = Some user → due (clock hh mm) d user = true →
  totalSends c body (trace (replicate (S n) (MinuteTick hh mm d)) users) = 1%nat.
Proof.
  intros Hwf Hu Hdue.
  assert (Htot : ∀ m (s : Users),
    totalSends c body (trace (replicate m (MinuteTick hh mm d)) s)
    = scheduledSends c body d (trace (replicate m (MinuteTick hh mm d)) s)).
  { induction m as [|m IHm]; intros s; [done|].
    change (replicate (S m) (MinuteTick hh mm d))
      with (MinuteTick hh mm d :: replicate m (MinuteTick hh mm d)).
    rewrite totalSends_cons, scheduledSends_cons, IHm.
    unfold tickSends. simpl. by rewrite bool_decide_eq_true_2. }
  rewrite Htot.
  change (replicate (S n) (MinuteTick hh mm d))
    with (MinuteTick hh mm d :: replicate n (MinuteTick hh mm d)).
  rewrite scheduledSends_cons, slot_entry by done.
  rewrite bool_decide_eq_true_2 by done.
  rewrite Hu, Hdue.
  rewrite slot_none_once_sent; [lia | by apply wellKeyed_step |].
  by eapply slot_flag_after_tick.
Qed.

End Slot.

Lemma dueAm_unsent (current : string) (d : Date) (user : User) :
  dueAm current d user = true → amSentU user d = false.
Proof. unfold dueAm. destruct (amSentU user d); [|done]. by rewrite andb_false_r. Qed.

Lemma duePm_unsent (current : string) (d : Date) (user : User) :
  duePm current d user = true → pmSentU user d = false.
Proof. unfold duePm. destruct (pmSentU user d); [|done]. by rewrite andb_false_r. Qed.

Lemma amSentU_evolve (ev : Event) (user : User) (d : Date) :
  amSentU user d = true → amSentU (evolve ev user) d = true.
Proof. apply flagsLe_evolve. Qed.

Lemma pmSentU_evolve (ev : Event) (user : User) (d : Date) :
  pmSentU user d = true → pmSentU (evolve ev user) d = true.
Proof. apply flagsLe_evolve. Qed.

(** C1: the prompt flags of a day never go back from true to false,
    whatever happens; so, over any sequence of events, the minute job sends
    a given user at most one AM prompt and at most one PM prompt for a
    given date; and 120 consecutive ticks at the AM time of an onboarded
    user whose AM flag is not yet set send that user exactly one AM
    prompt. *)
Theorem C1_prompt_flags_monotone_once_per_day :
  (∀ (ev : Event) (users : Users) (c : string) (d : Date),
     (amSent users c d = true → amSent (step ev users).1 c d = true)
     ∧ (pmSent users c d = true → pmSent (step ev users).1 c d = true))
  ∧ (∀ (evs : list Event) (users : Users) (c : string) (d : Date),
       wellKeyed users →
       (scheduledSends c AM_PROMPT d (trace evs users) ≤ 1)%nat
       ∧ (scheduledSends c PM_PROMPT d (trace evs users) ≤ 1)%nat)
  ∧ (∀ (users : Users) (c : string) (user : User) (hh mm : Z) (d : Date),
       wellKeyed users → users !! c = Some user →
       onboarded user = true → clock hh mm = amTime user → amSentU user d = false →
       totalSends c AM_PROMPT (trace (replicate 120 (MinuteTick hh mm d)) users) = 1%nat).
Proof.
  split; [|split].
  - intros ev users c d. split; [apply step_amSent | apply step_pmSent].
  - intros evs users c d Hwf. split.
    + by apply (slot_at_most_once AM_PROMPT dueAm amSentU
                  cronTick_am_count dueAm_unsent tickUser_am_flag amSentU_evolve).
    + by apply (slot_at_most_once PM_PROMPT duePm pmSentU
                  cronTick_pm_count duePm_unsent tickUser_pm_flag pmSentU_evolve).
  - intros users c user hh mm d Hwf Hu Hon Hclock Hflag.
    apply (slot_exactly_once AM_PROMPT dueAm amSentU
             cronTick_am_count dueAm_unsent tickUser_am_flag amSentU_evolve)
      with (user := user); [done | done |].
    unfold dueAm. by rewrite Hon, Hclock, String.eqb_refl, Hflag.
Qed.

Example day0_is : isoDate day0 = "2024-10-04"%string.
Proof. reflexivity. Qed.

Example onboarding_completes :
  ∃ user, enlisted !! "42"%string = Some user
    ∧ onboarded user = true ∧ onboardingStep user = None ∧ pending user = None
    ∧ name user = "Ann"%string ∧ timezone user = "Europe/Zurich"%string
    ∧ goalsText user = "Train. Build. Study."%string
    ∧ amTime user = "07:00"%string ∧ pmTime user = "21:00"%string.
Proof. eexists. split; [vm_compute; reflexivity|]. repeat split. Qed.

(** ** The stats stay ordered *)

Lemma stats_touchDay (d : Date) (user : User) : stats (touchDay d user) = stats user.
Proof. unfold touchDay. by destruct (logs user !! d). Qed.

Lemma statsOrdered_updateDailyStats (user : User) (d : Date) :
  statsOrdered (stats user) → statsOrdered (stats (updateDailyStats user d)).
Proof.
  unfold updateDailyStats, statsOrdered.
  destruct (logs user !! d) as [day|]; [|done].
  destruct (_counted day); [done|].
  destruct (isFull day); simpl; lia.
Qed.

Lemma stats_routeOnboarding (step : Step) (value : string) (user : User) :
  stats (routedUser (routeOnboarding step value user)) = stats user.
Proof. destruct step; simpl; try done; by destruct (formatTimeString value). Qed.

Lemma statsOrdered_route (openai : option Client) (text : string) (d : Date)
    (now : string) (user : User) :
  statsOrdered (stats user) →
  statsOrdered (stats (routedUser (route openai text d now user))).
Proof.
  intros Hs. unfold route.
  destruct (onboardingStep (touchDay d user)) as [step|].
  - by rewrite stats_routeOnboarding, stats_touchDay.
  - destruct (pending (touchDay d user)) as [[| |]|]; simpl;
      rewrite ?stats_touchDay; try done.
    apply statsOrdered_updateDailyStats. simpl. by rewrite stats_touchDay.
Qed.

Lemma stats_tickUser (current : string) (d : Date) (user : User) :
  stats (tickUser current d user).1 = stats user.
Proof.
  unfold tickUser. destruct (onboarded user); simpl; [|done].
  repeat match goal with
  | |- context [if ?b then _ else _] => destruct b; simpl
  end; apply stats_touchDay.
Qed.

Lemma statsOrdered_evolve (ev : Event) (user : User) :
  statsOrdered (stats user) → statsOrdered (stats (evolve ev user)).
Proof.
  intros Hs.
  destruct ev as [openai msg | msg delivered | msg | msg | msg d | msg d | msg d
                 | msg today | openai msg d now | hh mm d | today | ];
    unfold evolve.
  - done.
  - by destruct (onboarded user).
  - done.
  - done.
  - done.
  - destruct (onboarded user); simpl; [|done]. by rewrite stats_touchDay.
  - destruct (onboarded user); simpl; [|done]. by rewrite stats_touchDay.
  - done.
  - destruct (startsWith _ _); [done | by apply statsOrdered_route].
  - by rewrite stats_tickUser.
  - done.
  - done.
Qed.

(** C10: every user record created by [ensureUser] starts with zeroed
    stats, and after any sequence of events its stats satisfy
    [0 <= streakCurrent <= daysWithBoth <= totalDays]. *)
Theorem C10_stats_chain (users : Users) (k : string) (user : User) :
  reachable users → users !! k = Some user →
  0 ≤ streakCurrent (stats user)
  ∧ streakCurrent (stats user) ≤ daysWithBoth (stats user)
  ∧ daysWithBoth (stats user) ≤ totalDays (stats user).
Proof.
  intros Hr Hu.
  apply (run_invariant (λ _ user, statsOrdered (stats user))) with (users := users) (k := k);
    [ | | done | done].
  - intros k' msg. unfold statsOrdered. simpl. lia.
  - intros ev k' user'. apply statsOrdered_evolve.
Qed.

(** ** Onboarding and pending intents *)

Lemma gatedU_routeOnboarding (step : Step) (value : string) (user : User) :
  onboarded user = false →
  gatedU (routedUser (routeOnboarding step value user)).
Proof.
  intros Hon. unfold gatedU.
  destruct step; simpl; try done; destruct (formatTimeString value); simpl; done.
Qed.

Lemma onboardingStep_touchDay (d : Date) (user : User) :
  onboardingStep (touchDay d user) = onboardingStep user.
Proof. unfold touchDay. by destruct (logs user !! d). Qed.

Lemma onboarded_touchDay (d : Date) (user : User) :
  onboarded (touchDay d user) = onboarded user.
Proof. unfold touchDay. by destruct (logs user !! d). Qed.

Lemma pending_touchDay (d : Date) (user : User) :
  pending (touchDay d user) = pending user.
Proof. unfold touchDay. by destruct (logs user !! d). Qed.

Lemma onboardingStep_updateDailyStats (user : User) (d : Date) :
  onboardingStep (updateDailyStats user d) = onboardingStep user.
Proof.
  unfold updateDailyStats. destruct (logs user !! d) as [day|]; [|done].
  by destruct (_counted day).
Qed.

Lemma pending_updateDailyStats (user : User) (d : Date) :
  pending (updateDailyStats user d) = pending user.
Proof.
  unfold updateDailyStats. destruct (logs user !! d) as [day|]; [|done].
  by destruct (_counted day).
Qed.

Lemma onboardingStep_route_idle (openai : option Client) (text : string) (d : Date)
    (now : string) (user : User) :
  onboardingStep user = None →
  onboardingStep (routedUser (route openai text d now user)) = None.
Proof.
  intros Hs. unfold route. rewrite onboardingStep_touchDay, Hs.
  destruct (pending (touchDay d user)) as [[| |]|]; simpl;
    rewrite ?onboardingStep_updateDailyStats; simpl;
    by rewrite onboardingStep_touchDay.
Qed.

Lemma gatedU_route (openai : option Client) (text : string) (d : Date) (now : string)
    (user : User) :
  gatedU user → gatedU (routedUser (route openai text d now user)).
Proof.
  intros Hg. destruct (onboardingStep user) as [step|] eqn:Hs.
  - unfold route. rewrite onboardingStep_touchDay, Hs.
    apply gatedU_routeOnboarding. rewrite onboarded_touchDay. apply Hg. by rewrite Hs.
  - intros Hne. by rewrite onboardingStep_route_idle in Hne.
Qed.

Lemma onboardingStep_tickUser (current : string) (d : Date) (user : User) :
  onboardingStep (tickUser current d user).1 = onboardingStep user.
Proof.
  unfold tickUser. destruct (onboarded user); simpl; [|done].
  repeat match goal with
  | |- context [if ?b then _ else _] => destruct b; simpl
  end; apply onboardingStep_touchDay.
Qed.

Lemma onboarded_tickUser (current : string) (d : Date) (user : User) :
  onboarded (tickUser current d user).1 = onboarded user.
Proof.
  unfold tickUser. destruct (onboarded user) eqn:Hon; simpl; [|done].
  repeat match goal with
  | |- context [if ?b then _ else _] => destruct b; simpl
  end; by rewrite onboarded_touchDay.
Qed.

Lemma gatedU_evolve (ev : Event) (user : User) : gatedU user → gatedU (evolve ev user).
Proof.
  intros Hg.
  destruct ev as [openai msg | msg delivered | msg | msg | msg d | msg d | msg d
                 | msg today | openai msg d now | hh mm d | today | ];
    unfold evolve.
  - done.
  - destruct (onboarded user) eqn:Hon; [done | intros _; exact Hon].
  - by intros _.
  - done.
  - done.
  - destruct (onboarded user) eqn:Hon; simpl; [|done].
    intros Hne. simpl in Hne. rewrite onboardingStep_touchDay in Hne.
    by rewrite Hg in Hon.
  - destruct (onboarded user) eqn:Hon; simpl; [|done].
    intros Hne. simpl in Hne. rewrite onboardingStep_touchDay in Hne.
    by rewrite Hg in Hon.
  - done.
  - destruct (startsWith _ _); [done | by apply gatedU_route].
  - unfold gatedU. by rewrite onboardingStep_tickUser, onboarded_tickUser.
  - done.
  - done.
Qed.

Lemma reachable_gated (users : Users) (k : string) (user : User) :
  reachable users → users !! k = Some user → gatedU user.
Proof.
  intros Hr Hu.
  apply (run_invariant (λ _ user, gatedU user)) with (users := users) (k := k);
    [done | | done | done].
  intros ev k' user'. apply gatedU_evolve.
Qed.

Lemma pending_routeOnboarding (step : Step) (value : string) (user : User) :
  pending (routedUser (routeOnboarding step value user)) = pending user.
Proof. destruct step; simpl; try done; by destruct (formatTimeString value). Qed.

Lemma exclusiveU_route (openai : option Client) (text : string) (d : Date)
    (now : string) (user : User) :
  exclusiveU user → exclusiveU (routedUser (route openai text d now user)).
Proof.
  intros Hx. destruct (onboardingStep user) as [step|] eqn:Hs.
  - right. unfold route. rewrite onboardingStep_touchDay, Hs.
    rewrite pending_routeOnboarding, pending_touchDay.
    by destruct Hx as [Hx | Hx]; [rewrite Hs in Hx|].
  - left. by apply onboardingStep_route_idle.
Qed.

Lemma gatedU_onboarded (user : User) :
  gatedU user → onboarded user = true → onboardingStep user = None.
Proof.
  intros Hg Hon. destruct (onboardingStep user) as [step|] eqn:Hs; [|done].
  rewrite Hg in Hon; [done | by rewrite Hs].
Qed.

(** Free text, the scheduled jobs and the manual triggers never put a
    pending intent on top of a running onboarding. *)
Lemma exclusiveU_evolve (ev : Event) (user : User) :
  notConfigCommand ev = true → gatedU user → exclusiveU user →
  exclusiveU (evolve ev user).
Proof.
  intros Hev Hg Hx.
  destruct ev as [openai msg | msg delivered | msg | msg | msg d | msg d | msg d
                 | msg today | openai msg d now | hh mm d | today | ];
    try discriminate Hev; unfold evolve.
  - done.
  - done.
  - destruct (onboarded user) eqn:Hon; simpl negb; cbv iota; [|done].
    left. simpl. rewrite onboardingStep_touchDay. by apply gatedU_onboarded.
  - destruct (onboarded user) eqn:Hon; simpl negb; cbv iota; [|done].
    left. simpl. rewrite onboardingStep_touchDay. by apply gatedU_onboarded.
  - done.
  - destruct (startsWith _ _); [done | by apply exclusiveU_route].
  - destruct (onboarded user) eqn:Hon.
    + left. rewrite onboardingStep_tickUser. by apply gatedU_onboarded.
    + unfold tickUser. by rewrite Hon.
  - done.
  - done.
Qed.

(** The claim C4 as written: no reachable table has a user with both
    [onboardingStep] and [pending] set.  [/start] followed by [/setgoals]
    from a new user produces one. *)
Lemma C4_setgoals_during_onboarding :
  reachable (run [Start ann true; SetGoals ann] ∅)
  ∧ (∃ user, run [Start ann true; SetGoals ann] ∅ !! "42"%string = Some user
       ∧ onboardingStep user = Some StepName ∧ pending user = Some Setgoals)
  ∧ ¬ (∀ users, reachable users → exclusive users).
Proof.
  assert (Hrun : ∃ user, run [Start ann true; SetGoals ann] ∅ !! "42"%string = Some user
       ∧ onboardingStep user = Some StepName ∧ pending user = Some Setgoals).
  { eexists. split; [vm_compute; reflexivity|]. by split. }
  split; [by eexists|]. split; [done|].
  intros Hall. destruct Hrun as (user & Hu & Hs & Hp).
  destruct (Hall _ (ex_intro _ _ eq_refl) _ _ Hu) as [Hx | Hx]; congruence.
Qed.

(** C4 (amended): in every table that can arise, a user with an
    [onboardingStep] is not onboarded; hence no free-text message, no tick
    of the minute job, no manual trigger and no other event except the
    configuration commands can lead from a table in which no user has both
    [onboardingStep] and [pending] set to one in which some user has.
    ([/setgoals] sets [pending] whatever the onboarding state.) *)
Theorem C4_onboarding_owns_routing (users : Users) :
  reachable users →
  (∀ k user, users !! k = Some user →
     onboardingStep user ≠ None → onboarded user = false)
  ∧ (∀ ev, notConfigCommand ev = true → exclusive users → exclusive (step ev users).1).
Proof.
  intros Hr. split.
  - intros k user Hu. by apply (reachable_gated users k).
  - intros ev Hev Hx k user' Hu'.
    apply step_lookup_inv in Hu' as [(user & Hu & [-> | ->]) | (_ & msg & ->)].
    + by apply (Hx k).
    + apply exclusiveU_evolve; [done | by apply (reachable_gated users k) | by apply (Hx k)].
    + apply exclusiveU_evolve; [done | done | by left].
Qed.

(** ** One pending intent, the last one *)

Lemma tickUser_pending (current : string) (d : Date) (user : User) :
  pending (tickUser current d user).1 =
    if duePm current d user then Some AwaitPm
    else if dueAm current d user then Some AwaitAm
    else pending user.
Proof.
  unfold tickUser, dueAm, duePm, amSentU, pmSentU.
  destruct (onboarded user); simpl; [|done].
  rewrite amTime_touchDay, getDay_touchDay.
  destruct (String.eqb current (amTime user) && negb (amPromptSent (getDay d user)));
    simpl; rewrite pmTime_touchDay;
    destruct (String.eqb current (pmTime user) && negb (pmPromptSent (getDay d user)));
    simpl; by rewrite ?pending_touchDay.
Qed.

Lemma tickUser_times (current : string) (d : Date) (user : User) :
  amTime (tickUser current d user).1 = amTime user
  ∧ pmTime (tickUser current d user).1 = pmTime user.
Proof.
  unfold tickUser. destruct (onboarded user); simpl; [|done].
  repeat match goal with
  | |- context [if ?b then _ else _] => destruct b; simpl
  end; by rewrite amTime_touchDay, pmTime_touchDay.
Qed.

Lemma tickUser_day (current : string) (d : Date) (user : User) :
  am (getDay d (tickUser current d user).1) = am (getDay d user)
  ∧ pm (getDay d (tickUser current d user).1) = pm (getDay d user)
  ∧ amSentU (tickUser current d user).1 d = amSentU user d || dueAm current d user
  ∧ pmSentU (tickUser current d user).1 d = pmSentU user d || duePm current d user.
Proof.
  unfold tickUser, dueAm, duePm, amSentU, pmSentU.
  destruct (onboarded user); simpl;
    [|by destruct (amPromptSent (getDay d user)), (pmPromptSent (getDay d user))].
  rewrite getDay_putDay, decide_True by done.
  rewrite amTime_touchDay, getDay_touchDay.
  destruct (String.eqb current (amTime user)); simpl;
    destruct (amPromptSent (getDay d user)) eqn:Ha; simpl;
    rewrite ?pmTime_touchDay;
    destruct (String.eqb current (pmTime user)); simpl;
    destruct (pmPromptSent (getDay d user)) eqn:Hp; simpl; by rewrite ?Ha, ?Hp.
Qed.

Lemma getDay_updateDailyStats (user : User) (d d' : Date) :
  am (getDay d' (updateDailyStats user d)) = am (getDay d' user)
  ∧ pm (getDay d' (updateDailyStats user d)) = pm (getDay d' user).
Proof.
  unfold updateDailyStats. destruct (logs user !! d) as [day|] eqn:Hd; [|done].
  destruct (_counted day); [done|].
  rewrite getDay_putDay. case_decide; [subst|done].
  unfold getDay. simpl. by rewrite Hd.
Qed.

(** The user whose two prompts have fired without a reply awaits the PM
    answer. *)
Lemma two_ticks_pending (hh1 mm1 hh2 mm2 : Z) (d : Date) (user : User) :
  onboarded user = true →
  clock hh1 mm1 = amTime user → clock hh2 mm2 = pmTime user →
  amSentU user d = false → pmSentU user d = false →
  let user1 := (tickUser (clock hh1 mm1) d user).1 in
  let user2 := (tickUser (clock hh2 mm2) d user1).1 in
  pending user2 = Some AwaitPm
  ∧ amSentU user2 d = true ∧ pmSentU user2 d = true
  ∧ am (getDay d user2) = am (getDay d user)
  ∧ pm (getDay d user2) = pm (getDay d user).
Proof.
  intros Hon Ham Hpm Ha Hp user1 user2.
  destruct (tickUser_day (clock hh1 mm1) d user) as (Ham1 & Hpm1 & Has1 & Hps1).
  destruct (tickUser_day (clock hh2 mm2) d user1) as (Ham2 & Hpm2 & Has2 & Hps2).
  destruct (tickUser_times (clock hh1 mm1) d user) as [Hat1 Hpt1].
  fold user1 in Ham1, Hpm1, Has1, Hps1, Hat1, Hpt1.
  fold user2 in Ham2, Hpm2, Has2, Hps2.
  assert (Hon1 : onboarded user1 = true) by (unfold user1; by rewrite onboarded_tickUser).
  assert (Hdue1 : dueAm (clock hh1 mm1) d user = true).
  { unfold dueAm. by rewrite Hon, Ham, String.eqb_refl, Ha. }
  rewrite Hdue1, orb_true_r in Has1.
  assert (HdueA2 : dueAm (clock hh2 mm2) d user1 = false).
  { unfold dueAm. by rewrite Has1, andb_false_r. }
  assert (HdueP2 : duePm (clock hh2 mm2) d user1 = negb (pmSentU user1 d)).
  { unfold duePm. by rewrite Hon1, Hpt1, Hpm, String.eqb_refl. }
  assert (HdueP1 : duePm (clock hh1 mm1) d user = pmSentU user1 d).
  { by rewrite Hps1, Hp. }
  split; [|split; [|split; [|split]]].
  - unfold user2. rewrite tickUser_pending, HdueA2, HdueP2.
    destruct (pmSentU user1 d) eqn:Hs1; simpl; [|done].
    unfold user1. by rewrite tickUser_pending, HdueP1.
  - by rewrite Has2, Has1.
  - rewrite Hps2, HdueP2. by destruct (pmSentU user1 d).
  - by rewrite Ham2, Ham1.
  - by rewrite Hpm2, Hpm1.
Qed.

(** C5: pending intents are not queued.  When the minute job fires the AM
    prompt of an onboarded user and then the PM prompt before any reply,
    [pending] is ["pm"] alone; the next free-text message of that day is
    stored as the day's PM entry, the AM entry stays as it was, and
    [pending] is cleared. *)
Theorem C5_last_prompt_wins (openai : option Client) (users : Users) (c : string)
    (user : User) (hh1 mm1 hh2 mm2 : Z) (d : Date) (msg : Msg) (body now : string) :
  users !! c = Some user →
  onboarded user = true → onboardingStep user = None →
  clock hh1 mm1 = amTime user → clock hh2 mm2 = pmTime user →
  amSentU user d = false → pmSentU user d = false →
  userKey msg = c → msg_text msg = Some body → startsWith "/" body = false →
  let users2 := run [MinuteTick hh1 mm1 d; MinuteTick hh2 mm2 d] users in
  let users3 := (step (Message openai msg d now) users2).1 in
  (∃ user2, users2 !! c = Some user2
     ∧ pending user2 = Some AwaitPm
     ∧ amSentU user2 d = true ∧ pmSentU user2 d = true)
  ∧ (∃ user3, users3 !! c = Some user3
       ∧ pending user3 = None
       ∧ pm (getDay d user3) = Some {| text := body; timestamp := now |}
       ∧ am (getDay d user3) = am (getDay d user)).
Proof.
  intros Hu Hon Hstep Ham Hpm Ha Hp Hkey Htext Hslash users2 users3.
  destruct (two_ticks_pending hh1 mm1 hh2 mm2 d user Hon Ham Hpm Ha Hp)
    as (Hpend & Has & Hps & Ham2 & Hpm2).
  set (user2 := (tickUser (clock hh2 mm2) d (tickUser (clock hh1 mm1) d user).1).1) in *.
  assert (Hu2 : users2 !! c = Some user2).
  { unfold users2, run. simpl. unfold cronTick. simpl.
    by rewrite !lookup_fmap, Hu. }
  split; [by exists user2|].
  assert (Hstep2 : onboardingStep user2 = None).
  { unfold user2. by rewrite !onboardingStep_tickUser. }
  exists (routedUser (route openai body d now user2)). split.
  - unfold users3. rewrite step_lookup. simpl. rewrite Htext. simpl. rewrite Hslash.
    rewrite decide_True by done. by rewrite Hu2.
  - unfold route. rewrite onboardingStep_touchDay, Hstep2, pending_touchDay, Hpend.
    simpl. rewrite pending_updateDailyStats. split; [done|].
    destruct (getDay_updateDailyStats
                (set_pending None
                   (putDay d
                      (set_pm (Some {| text := body; timestamp := now |})
                         (getDay d (touchDay d user2))) (touchDay d user2))) d d)
      as [-> ->].
    assert (Hget : ∀ day u, getDay d (set_pending None (putDay d day u)) = day).
    { intros day u. unfold getDay. simpl. by rewrite lookup_insert_eq. }
    rewrite Hget. simpl. split; [done|]. by rewrite getDay_touchDay.
Qed.

(** ** Saving and sending *)

Lemma ensureUser_eq (msg : Msg) (users : Users) :
  ensureUser msg users =
    (<[userKey msg := default (newUser (userKey msg) msg) (users !! userKey msg)]> users,
     default (newUser (userKey msg) msg) (users !! userKey msg),
     [ESave (<[userKey msg :=
                 default (newUser (userKey msg) msg) (users !! userKey msg)]> users)]).
Proof.
  unfold ensureUser. destruct (users !! userKey msg) as [user|] eqn:Hu; simpl.
  - by rewrite insert_id.
  - reflexivity.
Qed.

Lemma ensureUser_known (msg : Msg) (users : Users) (user : User) :
  users !! userKey msg = Some user →
  ensureUser msg users = (users, user, [ESave users]).
Proof. intros Hu. unfold ensureUser. by rewrite Hu. Qed.

Lemma writeThenNotify_saved (final : Users) (pre post : list Effect) :
  writeThenNotify final (pre ++ ESave final :: post) ↔
  writeThenNotify final pre.
Proof.
  split.
  - intros H i chat body Hi.
    destruct (H i chat body) as (j & Hj & Hs).
    { rewrite lookup_app_l; [done | by eapply lookup_lt_Some]. }
    exists j. split; [done|]. rewrite lookup_app_l in Hs; [done|].
    apply lookup_lt_Some in Hi. lia.
  - intros H i chat body Hi.
    destruct (decide (i < length pre)%nat) as [Hlt | Hge].
    + rewrite lookup_app_l in Hi by done.
      destruct (H i chat body Hi) as (j & Hj & Hs).
      exists j. split; [done|]. rewrite lookup_app_l; [done | lia].
    + exists (length pre). split.
      * destruct (decide (i = length pre)) as [-> | Hne]; [|lia].
        rewrite list_lookup_middle in Hi by done. done.
      * by rewrite list_lookup_middle.
Qed.

Lemma writeThenNotify_onlySaves (final : Users) (snaps : list Users) :
  writeThenNotify final (ESave <$> snaps).
Proof.
  intros i chat body Hi. rewrite list_lookup_fmap in Hi.
  by destruct (snaps !! i).
Qed.

Lemma onlySends_tickUser (current : string) (d : Date) (user : User) :
  onlySends (tickUser current d user).2.
Proof.
  rewrite tickUser_effects. unfold onlySends. apply Forall_app. split.
  - destruct (dueAm current d user); [|done]. apply Forall_singleton. eauto.
  - destruct (duePm current d user); [|done]. apply Forall_singleton. eauto.
Qed.

Lemma onlySends_flat_map (f : string * User → list Effect) (l : list (string * User)) :
  (∀ kv, onlySends (f kv)) → onlySends (flat_map f l).
Proof.
  intros Hf. induction l as [|kv l IH]; simpl; [by apply Forall_nil|].
  apply Forall_app. split; [apply Hf | exact IH].
Qed.

(** The claim C8 as written: when the minute job fires a prompt, the table
    holding the new [pending] and flag is saved before the prompt is sent.
    For Ann at 07:00 the prompt is the first effect and the only save comes
    after it. *)
Lemma C8_tick_sends_before_saving :
  (step (MinuteTick 7 0 day0) enlisted).2
  = [ESend "42" AM_PROMPT; ESave (step (MinuteTick 7 0 day0) enlisted).1]
  ∧ ¬ writeThenNotify (step (MinuteTick 7 0 day0) enlisted).1
        (step (MinuteTick 7 0 day0) enlisted).2.
Proof.
  assert (Heff : (step (MinuteTick 7 0 day0) enlisted).2
    = [ESend "42" AM_PROMPT; ESave (step (MinuteTick 7 0 day0) enlisted).1])
    by (vm_compute; reflexivity).
  split; [done|]. rewrite Heff. intros H.
  destruct (H O "42"%string AM_PROMPT eq_refl) as (j & Hj & _). lia.
Qed.

(** The two branches of the router that store nothing: a time that
    [formatTimeString] rejects at one of the two time steps of onboarding,
    and the coach reply.  They leave the user as [touchDay] made it. *)
Lemma route_unsaved (openai : option Client) (body : string) (d : Date) (now : string)
    (user : User) :
  (routedSave (route openai body d now user) = false ↔
   (∃ step, onboardingStep user = Some step
      ∧ (step = StepAmTime ∨ step = StepPmTime)
      ∧ formatTimeString (trim body) = None)
   ∨ (onboardingStep user = None ∧ pending user = None))
  ∧ (routedSave (route openai body d now user) = false →
     routedUser (route openai body d now user) = touchDay d user).
Proof.
  unfold route. rewrite onboardingStep_touchDay, pending_touchDay.
  destruct (onboardingStep user) as [step|] eqn:Hs.
  - destruct step; simpl; try destruct (formatTimeString (trim body)) eqn:Hf; simpl;
      (split; [split|]); try done;
      try (intros [(step' & [= <-] & [?|?] & ?) | [? _]]; done);
      try (intros _; left; eexists; split; [reflexivity|]; split; [auto|done]).
  - destruct (pending user) as [[]|] eqn:Hp; simpl;
      (split; [split|]); try done;
      try (intros [(step' & ? & _) | [_ ?]]; done);
      try (intros _; right; done).
Qed.

Lemma touchDay_fresh (d : Date) (user : User) :
  (is_Some (logs user !! d) → touchDay d user = user)
  ∧ (logs user !! d = None → touchDay d user ≠ user).
Proof.
  unfold touchDay. split.
  - intros [day ->]. done.
  - intros Hd. rewrite Hd. intros Heq.
    assert (Hl : logs (set_logs (<[d := emptyDay]> (logs user)) user) !! d = logs user !! d)
      by (by rewrite Heq).
    simpl in Hl. rewrite lookup_insert_eq, Hd in Hl. done.
Qed.

(** C8 (amended): the handlers of the configuration commands and the
    branches of the free-text handler that store an answer save the table
    they leave behind before they send their reply.  The two branches of
    the free-text handler that store nothing, a rejected time during
    onboarding and the coach reply, make no save of their own: the save of
    [ensureUser] comes first, then the log of the day is created when the
    sender has none, then the reply is sent; the reply follows a save of
    the table left behind exactly when the sender had a log of the day
    already.  The prompts go the other way round.  A tick of the minute
    job first sends the prompts that are due, assigning [pending] and the
    flag after each send, and saves the resulting table once at the end,
    when at least one prompt was sent.  [/test_am] and [/test_pm], for an
    onboarded user, send the prompt between the save made by
    [ensureUser], of the table as it was, and the save of the table with
    the new [pending] and flag. *)
Theorem C8_save_and_send_order :
  (∀ (openai : option Client) (msg : Msg) (d : Date) (now : string) (users : Users),
     let body := default EmptyString (msg_text msg) in
     let user0 := default (newUser (userKey msg) msg) (users !! userKey msg) in
     let r := route openai body d now user0 in
     let saved := (ensureUser msg users).1.1 in
     let final := (onMessage openai msg d now users).1 in
     let effs := (onMessage openai msg d now users).2 in
     startsWith "/" body = false →
     (routedSave r = true → writeThenNotify final effs)
     ∧ (routedSave r = false ↔
        (∃ step, onboardingStep user0 = Some step
           ∧ (step = StepAmTime ∨ step = StepPmTime)
           ∧ formatTimeString (trim body) = None)
        ∨ (onboardingStep user0 = None ∧ pending user0 = None))
     ∧ (routedSave r = false →
        effs = [ESave saved; ESend (chatId user0) (routedReply r)]
        ∧ final = <[userKey msg := touchDay d user0]> saved
        ∧ (is_Some (logs user0 !! d) → final = saved ∧ writeThenNotify final effs)
        ∧ (logs user0 !! d = None → final ≠ saved ∧ ¬ writeThenNotify final effs)))
  ∧ (∀ (msg : Msg) (delivered : bool) (users : Users),
       writeThenNotify (onStart msg delivered users).1 (onStart msg delivered users).2
       ∧ writeThenNotify (onOnboard msg users).1 (onOnboard msg users).2
       ∧ writeThenNotify (onSetgoals msg users).1 (onSetgoals msg users).2)
  ∧ (∀ (hh mm : Z) (d : Date) (users : Users),
       ∃ sends, onlySends sends
         ∧ (cronTick hh mm d users).2
           = sends ++ match sends with
                      | [] => []
                      | _ :: _ => [ESave (cronTick hh mm d users).1]
                      end)
  ∧ (∀ (msg : Msg) (d : Date) (users : Users) (user : User),
       users !! userKey msg = Some user → onboarded user = true →
       (onTestAm msg d users).2
       = [ESave users; ESend (chatId user) AM_PROMPT; ESave (onTestAm msg d users).1]
       ∧ (onTestPm msg d users).2
         = [ESave users; ESend (chatId user) PM_PROMPT; ESave (onTestPm msg d users).1]).
Proof.
  split; [|split; [|split]].
  - intros openai msg d now users body user0 r saved final effs Hslash.
    assert (Hsaved : saved = <[userKey msg := user0]> users)
      by (subst saved; by rewrite ensureUser_eq).
    assert (Hrun : (final, effs)
      = (<[userKey msg := routedUser r]> saved,
         [ESave saved] ++ (if routedSave r then [ESave final] else [])
           ++ [ESend (chatId user0) (routedReply r)])).
    { subst final effs. unfold onMessage. fold body. rewrite Hslash, ensureUser_eq.
      fold user0. rewrite <- Hsaved. reflexivity. }
    injection Hrun as Hfinal Heffs.
    destruct (route_unsaved openai body d now user0) as [Hwhen Hkeeps]. fold r in Hwhen, Hkeeps.
    split; [|split; [exact Hwhen|]].
    + intros Hsave. rewrite Heffs, Hsave. simpl.
      apply (writeThenNotify_saved final [ESave saved] [ESend (chatId user0) (routedReply r)]).
      apply (writeThenNotify_onlySaves final [saved]).
    + intros Hsave. rewrite Heffs, Hsave. simpl. split; [done|].
      assert (Hfinal' : final = <[userKey msg := touchDay d user0]> saved)
        by (by rewrite Hfinal, (Hkeeps Hsave)).
      split; [exact Hfinal'|].
      destruct (touchDay_fresh d user0) as [Hold Hnew]. split.
      * intros Hd. assert (Hsame : final = saved).
        { rewrite Hfinal', (Hold Hd), Hsaved. by rewrite insert_insert_eq. }
        split; [exact Hsame|]. rewrite <- Hsame at 1.
        apply (writeThenNotify_saved final [] [ESend (chatId user0) (routedReply r)]).
        apply (writeThenNotify_onlySaves final []).
      * intros Hd. assert (Hdiff : final ≠ saved).
        { intros Heq.
          assert (Hl : final !! userKey msg = saved !! userKey msg) by (by rewrite Heq).
          rewrite Hfinal', Hsaved, !lookup_insert_eq in Hl.
          injection Hl as Hl. by apply (Hnew Hd). }
        split; [exact Hdiff|]. intros Hwtn.
        destruct (Hwtn 1%nat (chatId user0) (routedReply r) eq_refl) as (j & Hj & Hs).
        destruct j as [|j]; [|lia]. simpl in Hs. injection Hs as Hs. by apply Hdiff.
  - intros msg delivered users. split; [|split].
    + unfold onStart. rewrite ensureUser_eq.
      destruct (onboarded _); simpl.
      * match goal with
        | |- writeThenNotify ?f [ESave ?f; ?e] =>
            apply (writeThenNotify_saved f [] [e]);
            apply (writeThenNotify_onlySaves f [])
        end.
      * match goal with
        | |- writeThenNotify ?f (ESave ?s :: ESave ?f :: ?post) =>
            apply (writeThenNotify_saved f [ESave s] post);
            apply (writeThenNotify_onlySaves f [s])
        end.
    + unfold onOnboard. rewrite ensureUser_eq. simpl.
      match goal with
      | |- writeThenNotify ?f [ESave ?s; ESave ?f; ?e] =>
          apply (writeThenNotify_saved f [ESave s] [e]);
          apply (writeThenNotify_onlySaves f [s])
      end.
    + unfold onSetgoals. rewrite ensureUser_eq. simpl.
      match goal with
      | |- writeThenNotify ?f [ESave ?s; ESave ?f; ?e] =>
          apply (writeThenNotify_saved f [ESave s] [e]);
          apply (writeThenNotify_onlySaves f [s])
      end.
  - intros hh mm d users. unfold cronTick. simpl. eexists. split; [|reflexivity].
    apply onlySends_flat_map. intros kv. apply onlySends_tickUser.
  - intros msg d users user Hu Hon. split.
    + unfold onTestAm. rewrite (ensureUser_known _ _ _ Hu), Hon. reflexivity.
    + unfold onTestPm. rewrite (ensureUser_known _ _ _ Hu), Hon. reflexivity.
Qed.

(** ** The weekly report *)

Lemma weekCount_fold (logs : gmap Z DayLog) (dates : list Date) (acc : Z * Z) :
  foldl (weekCount logs) acc dates
  = (acc.1 + countIf (hasLog logs) dates, acc.2 + countIf (hasFull logs) dates).
Proof.
  revert acc. induction dates as [|key dates IH]; intros [total full].
  - unfold countIf. simpl. f_equal; lia.
  - simpl. rewrite IH. unfold weekCount, countIf, hasLog, hasFull. simpl.
    destruct (logs !! key) as [day|]; simpl.
    + destruct (isFull day); simpl; f_equal; lia.
    + f_equal.
Qed.

(** The figures of the report: the dates of the trailing seven days that
    have a log, and those among them with both entries. *)
Lemma weekTotals_counts (logs : gmap Z DayLog) (today : Today) :
  weekTotals logs today
  = (countIf (hasLog logs) (weekWindow today), countIf (hasFull logs) (weekWindow today)).
Proof. unfold weekTotals. rewrite weekCount_fold. reflexivity. Qed.

(** On a host whose offset is the same all week the window is the seven
    UTC dates that end with the one of [today]. *)
Lemma weekWindow_fixed_offset (d : Date) (t offset : Z) :
  weekWindow {| todayStr := d; timeValue := t; LocalTZA := λ _ _, offset |}
  = (λ i, Day t - i) <$> [0; 1; 2; 3; 4; 5; 6].
Proof.
  unfold weekWindow. apply list_fmap_ext. intros _ i _.
  unfold weekKey, setDateBack, UTC, LocalTime, Day. simpl.
  replace (t + offset - i * msPerDay - offset) with (t + - i * msPerDay) by lia.
  rewrite Z.div_add by done. lia.
Qed.

Example weekWindow_days :
  weekWindow (eveningOf day0)
  = [day0; day0 - 1; day0 - 2; day0 - 3; day0 - 4; day0 - 5; day0 - 6].
Proof. reflexivity. Qed.

(** Across a change of the offset the window is not seven consecutive
    dates: on the host of [clocksGoBack] the weekly job visits 2024-11-04
    and then 2024-11-02, and goes back to 2024-10-28; 2024-11-03 is not
    visited. *)
Example weekWindow_clocksGoBack :
  weekWindow clocksGoBack = [20031; 20029; 20028; 20027; 20026; 20025; 20024].
Proof. reflexivity. Qed.

Example weekRate_values :
  weekRate 0 0 = 0 ∧ weekRate 4 2 = 50 ∧ weekRate 3 1 = 33 ∧ weekRate 3 2 = 67
  ∧ weekRate 6 1 = 17 ∧ weekRate 7 7 = 100.
Proof. repeat split. Qed.

(** The example of the specification: logs on days 1, 3, 5 and 7 of the
    window, the first and the last of them full. *)
Example weekTotals_every_other_day :
  weekTotals
    (list_to_map
       [(day0 - 6, fullDay); (day0 - 4, amOnlyDay); (day0 - 2, amOnlyDay); (day0, fullDay)])
    (eveningOf day0) = (4, 2)
  ∧ weekRate 4 2 = 50.
Proof. split; vm_compute; reflexivity. Qed.

Example veteran_stats :
  ∃ user, veteran !! "42"%string = Some user
    ∧ stats user
      = {| totalDays := 1; daysWithBoth := 1; streakCurrent := 1; streakBest := 1 |}
    ∧ weekTotals (logs user) (eveningOf (day0 + 1)) = (2, 1)
    ∧ pending user = None.
Proof. eexists. split; [vm_compute; reflexivity|]. repeat split. Qed.

(** C7: the weekly job of [src/bot.js] computes the figures of the
    trailing seven days and sends the report to every onboarded user, but
    it neither stores a snapshot under [weeklyStats] nor saves the table.
    For Ann after two days of use it sends "50%, 1/2" and leaves her
    [weeklyStats] empty, where the weekly job of the older variant, run on
    the same table, stores the snapshot under the week's key. *)
Theorem C7_weekly_job_keeps_no_history :
  (∀ (today : Today) (users : Users), (weeklyReport today users).1 = users)
  ∧ (step (WeeklyTick (eveningOf (day0 + 1))) veteran).2
    = [ESend "42" (weeklyText (day0 + 1) 50 1 2)]
  ∧ (∃ user,
       (step (WeeklyTick (eveningOf (day0 + 1))) veteran).1 !! "42"%string = Some user
       ∧ weeklyStats user = ∅)
  ∧ (∃ user,
       (Part001.weeklyReport (eveningOf (day0 + 1)) "2024-10-06T18:00:00.000Z"
          (asPart001 <$> veteran)).1 !! "42"%string = Some user
       ∧ Part001.weeklyStats user
         = Some {[ (day0 - 5, day0 + 1) :=
                     {| startDate := day0 - 5;
                        endDate := day0 + 1;
                        habitExecutionRate := 50;
                        completedDays := 1;
                        totalDaysLogged := 2;
                        generatedAt := "2024-10-06T18:00:00.000Z" |} ]})
  ∧ (Part001.weeklyReport (eveningOf (day0 + 1)) "2024-10-06T18:00:00.000Z"
       (asPart001 <$> veteran)).2
    = [Part001.ESend "42" (Part001.weekMsg (day0 + 1) 50 1 2);
       Part001.ESave
         (Part001.weeklyReport (eveningOf (day0 + 1)) "2024-10-06T18:00:00.000Z"
            (asPart001 <$> veteran)).1].
Proof.
  split; [reflexivity|]. split; [vm_compute; reflexivity|]. split.
  - eexists. split; [vm_compute; reflexivity|]. reflexivity.
  - split.
    + eexists. split; [vm_compute; reflexivity|]. vm_compute. reflexivity.
    + vm_compute. reflexivity.
Qed.

(** ** The properties at the sample inputs *)

Lemma reachable_enlisted : reachable enlisted.
Proof. exists onboarding. reflexivity. Qed.

Lemma reachable_veteran : reachable veteran.
Proof. apply reachable_run, reachable_enlisted. Qed.

Lemma veteran_annRecord : veteran !! "42"%string = Some annRecord.
Proof. vm_compute. reflexivity. Qed.

Lemma veteran_alone : veteran = {[ "42"%string := annRecord ]}.
Proof. vm_compute. reflexivity. Qed.

(** The dispatch guarantees for Ann: her first two days, and 120 ticks at
    07:00 on the third. *)
Lemma C1_witness :
  (scheduledSends "42" AM_PROMPT day0 (trace firstDays enlisted) ≤ 1)%nat
  ∧ (scheduledSends "42" PM_PROMPT day0 (trace firstDays enlisted) ≤ 1)%nat
  ∧ totalSends "42" AM_PROMPT
      (trace (replicate 120 (MinuteTick 7 0 (day0 + 2))) veteran) = 1%nat.
Proof.
  destruct C1_prompt_flags_monotone_once_per_day as (_ & Honce & Hticks).
  destruct (Honce firstDays enlisted "42"%string day0
              (reachable_wellKeyed _ reachable_enlisted)) as [Ham Hpm].
  split; [exact Ham|]. split; [exact Hpm|].
  - apply (Hticks veteran "42"%string annRecord 7 0 (day0 + 2)).
    + apply reachable_wellKeyed, reachable_veteran.
    + vm_compute. reflexivity.
    + vm_compute. reflexivity.
    + vm_compute. reflexivity.
    + vm_compute. reflexivity.
Defined.

(** The streak law on the four sample days. *)
Lemma C2_witness :
  totalDays (stats (updateDailyStats fourDays day0)) = totalDays (stats fourDays) + 1
  ∧ streakCurrent (stats (updateDailyStats fourDays (day0 + 2))) = 0
  ∧ streakCurrent (stats (closeDays fourDays [day0; day0 + 1; day0 + 2; day0 + 3])) = 1
  ∧ streakBest (stats (closeDays fourDays [day0; day0 + 1; day0 + 2; day0 + 3])) = 2.
Proof.
  destruct C2_updateDailyStats_streak_law as [Hstep Hfour].
  assert (H0 : openDay fourDays day0 true).
  { exists fullDay. split; [vm_compute; reflexivity|]. split; reflexivity. }
  assert (H1 : openDay fourDays (day0 + 1) true).
  { exists fullDay. split; [vm_compute; reflexivity|]. split; reflexivity. }
  assert (H2 : openDay fourDays (day0 + 2) false).
  { exists amOnlyDay. split; [vm_compute; reflexivity|]. split; reflexivity. }
  assert (H3 : openDay fourDays (day0 + 3) true).
  { exists fullDay. split; [vm_compute; reflexivity|]. split; reflexivity. }
  destruct (Hstep fourDays day0 true H0) as (Htotal & _ & _).
  destruct (Hstep fourDays (day0 + 2) false H2) as (_ & _ & Hreset).
  destruct (Hreset eq_refl) as (Hzero & _ & _).
  split; [exact Htotal|]. split; [exact Hzero|].
  - assert (Hnd : NoDup [day0; day0 + 1; day0 + 2; day0 + 3]).
    { refine (bool_decide_unpack _ _). vm_compute. exact I. }
    destruct (Hfour fourDays day0 (day0 + 1) (day0 + 2) (day0 + 3)
                eq_refl Hnd H0 H1 H2 H3) as (Hc & Hb & _).
    split; [exact Hc | exact Hb].
Defined.

(** Ann, onboarded, keeps a single owner of her input through the evening
    tick. *)
Lemma C4_witness :
  (∀ k user, veteran !! k = Some user →
     onboardingStep user ≠ None → onboarded user = false)
  ∧ exclusive (step (MinuteTick 21 0 (day0 + 1)) veteran).1.
Proof.
  destruct (C4_onboarding_owns_routing veteran reachable_veteran) as [Hgate Hexcl].
  split; [exact Hgate|].
  apply Hexcl; [reflexivity|].
  intros k user Hu. rewrite veteran_alone in Hu.
  apply lookup_singleton_Some in Hu as [_ <-]. left. vm_compute. reflexivity.
Defined.

(** Both prompts of a day fire before Ann answers; her answer is the PM
    entry. *)
Lemma C5_witness :
  ∃ user3,
    (step (Message None (say "Trained, built.") (day0 + 2) "2024-10-06T21:05:00.000Z")
       (run [MinuteTick 7 0 (day0 + 2); MinuteTick 21 0 (day0 + 2)] veteran)).1
      !! "42"%string = Some user3
    ∧ pending user3 = None
    ∧ pm (getDay (day0 + 2) user3)
      = Some {| text := "Trained, built."; timestamp := "2024-10-06T21:05:00.000Z" |}
    ∧ am (getDay (day0 + 2) user3) = am (getDay (day0 + 2) annRecord).
Proof.
  apply (C5_last_prompt_wins None veteran "42"%string annRecord 7 0 21 0 (day0 + 2)
           (say "Trained, built.") "Trained, built." "2024-10-06T21:05:00.000Z").
  - exact veteran_annRecord.
  - vm_compute. reflexivity.
  - vm_compute. reflexivity.
  - vm_compute. reflexivity.
  - vm_compute. reflexivity.
  - vm_compute. reflexivity.
  - vm_compute. reflexivity.
  - reflexivity.
  - reflexivity.
  - reflexivity.
Defined.

(** Ann's morning answer is saved before it is acknowledged; a message
    of hers that is left to the coach, the first of its day, is answered
    with the new log of the day on no snapshot; the manual triggers send
    first. *)
Lemma C8_witness :
  writeThenNotify
    (onMessage None (say "Train.") (day0 + 2) "2024-10-06T07:02:00.000Z"
       (run [MinuteTick 7 0 (day0 + 2)] veteran)).1
    (onMessage None (say "Train.") (day0 + 2) "2024-10-06T07:02:00.000Z"
       (run [MinuteTick 7 0 (day0 + 2)] veteran)).2
  ∧ (onMessage None (say "Hello.") (day0 + 2) "2024-10-06T06:30:00.000Z" veteran).1
    ≠ (ensureUser (say "Hello.") veteran).1.1
  ∧ ¬ writeThenNotify
        (onMessage None (say "Hello.") (day0 + 2) "2024-10-06T06:30:00.000Z" veteran).1
        (onMessage None (say "Hello.") (day0 + 2) "2024-10-06T06:30:00.000Z" veteran).2
  ∧ (onTestAm ann (day0 + 2) veteran).2
    = [ESave veteran; ESend "42" AM_PROMPT; ESave (onTestAm ann (day0 + 2) veteran).1]
  ∧ (onTestPm ann (day0 + 2) veteran).2
    = [ESave veteran; ESend "42" PM_PROMPT; ESave (onTestPm ann (day0 + 2) veteran).1].
Proof.
  destruct C8_save_and_send_order as (Hmsg & _ & _ & Htest).
  split.
  - destruct (Hmsg None (say "Train.") (day0 + 2) "2024-10-06T07:02:00.000Z"
                (run [MinuteTick 7 0 (day0 + 2)] veteran) eq_refl) as (Hsaved & _ & _).
    apply Hsaved. vm_compute. reflexivity.
  - destruct (Hmsg None (say "Hello.") (day0 + 2) "2024-10-06T06:30:00.000Z" veteran
                eq_refl) as (_ & _ & Hunsaved).
    destruct Hunsaved as (_ & _ & _ & Hnew); [vm_compute; reflexivity|].
    destruct Hnew as [Hdiff Hnot]; [vm_compute; reflexivity|].
    split; [exact Hdiff|]. split; [exact Hnot|].
    apply (Htest ann (day0 + 2) veteran annRecord).
    + exact veteran_annRecord.
    + vm_compute. reflexivity.
Defined.

(** The coach with a client that times out. *)
Lemma C9_witness :
  coachReply (Some timingOut) annRecord "I skipped training." ≠ EmptyString
  ∧ contains "I skipped training."
      (coachReply (Some timingOut) annRecord "I skipped training.")
  ∧ Part001.coachReply (Some timingOut) (asPart001 annRecord) "I skipped training."
    ≠ EmptyString
  ∧ contains "I skipped training."
      (Part001.coachReply (Some timingOut) (asPart001 annRecord) "I skipped training.")
  ∧ coachGoals annRecord = "Train. Build. Study."%string.
Proof.
  destruct C9_coachReply_fallback as (Hfail & Hoff & Hfail1 & _).
  split; [|split; [|split; [|split]]].
  - eapply (Hfail timingOut annRecord "I skipped training."); [reflexivity|].
    left. eexists. reflexivity.
  - eapply (Hfail timingOut annRecord "I skipped training."); [reflexivity|].
    left. eexists. reflexivity.
  - eapply (Hfail1 timingOut (asPart001 annRecord) "I skipped training.");
      reflexivity.
  - eapply (Hfail1 timingOut (asPart001 annRecord) "I skipped training.");
      reflexivity.
  - destruct (Hoff annRecord "I skipped training.") as (_ & _ & Hgoals).
    rewrite Hgoals; [vm_compute; reflexivity|]. vm_compute. discriminate.
Defined.

(** Ann's stats after two days. *)
Lemma C10_witness :
  0 ≤ streakCurrent (stats annRecord)
  ∧ streakCurrent (stats annRecord) ≤ daysWithBoth (stats annRecord)
  ∧ daysWithBoth (stats annRecord) ≤ totalDays (stats annRecord).
Proof.
  apply (C10_stats_chain veteran "42"%string annRecord).
  - exact reachable_veteran.
  - exact veteran_annRecord.
Defined.


(** * Further properties of the code *)

(** ** Times of day *)

Lemma allClocksChecked_true : allClocksChecked = true.
Proof. vm_compute. reflexivity. Qed.

Lemma clockChecked_range (h m : Z) :
  0 ≤ h ≤ 23 → 0 ≤ m ≤ 59 → clockChecked h m = true.
Proof.
  intros Hh Hm. pose proof allClocksChecked_true as Hall.
  unfold allClocksChecked in Hall.
  rewrite forallb_forall in Hall.
  assert (Hin : In h (seqZ 0 24)).
  { apply list_elem_of_In, elem_of_seqZ. lia. }
  specialize (Hall h Hin). rewrite forallb_forall in Hall.
  apply Hall. apply list_elem_of_In, elem_of_seqZ. lia.
Qed.

Lemma clock_facts (h m : Z) :
  0 ≤ h ≤ 23 → 0 ≤ m ≤ 59 →
  isHHMM (clock h m) = true
  ∧ matchTime (clock h m) = Some (h, m)
  ∧ formatTimeString (clock h m) = Some (clock h m).
Proof.
  intros Hh Hm. pose proof (clockChecked_range h m Hh Hm) as Hc.
  unfold clockChecked in Hc.
  apply andb_prop in Hc as [Hc Hf]. apply andb_prop in Hc as [Hs Hp].
  split; [done|]. split.
  - destruct (matchTime (clock h m)) as [[h' m']|]; [|done].
    apply andb_prop in Hp as [Hh' Hm'].
    apply Z.eqb_eq in Hh', Hm'. by subst.
  - destruct (formatTimeString (clock h m)) as [t|]; [|done].
    apply String.eqb_eq in Hf. by subst.
Qed.

Lemma formatTimeString_clock (s t : string) :
  formatTimeString s = Some t → clockTime t.
Proof.
  unfold formatTimeString. destruct (matchTime s) as [[h m]|]; [|done].
  destruct ((h <? 0) || (23 <? h) || (m <? 0) || (59 <? m)) eqn:Hb; [done|].
  intros [= <-]. exists h, m.
  apply orb_false_elim in Hb as [Hb H4]. apply orb_false_elim in Hb as [Hb H3].
  apply orb_false_elim in Hb as [H1 H2].
  apply Z.ltb_ge in H1, H2, H3, H4. repeat split; lia.
Qed.

(** X1: whatever [formatTimeString] accepts, its result has the shape
    HH:MM with the hour at most 23 and the minute at most 59, and is itself
    accepted and returned unchanged; and the clock reading of every minute
    of the day is read back by the pattern as that hour and minute. *)
Theorem X1_formatTimeString_normal_form :
  (∀ s t : string, formatTimeString s = Some t →
     isHHMM t = true ∧ formatTimeString t = Some t)
  ∧ (∀ h m : Z, 0 ≤ h ≤ 23 → 0 ≤ m ≤ 59 →
       matchTime (clock h m) = Some (h, m)
       ∧ formatTimeString (clock h m) = Some (clock h m)).
Proof.
  split.
  - intros s t Hs. apply formatTimeString_clock in Hs as (h & m & Hh & Hm & ->).
    destruct (clock_facts h m Hh Hm) as (H1 & _ & H3). by split.
  - intros h m Hh Hm. destruct (clock_facts h m Hh Hm) as (_ & H2 & H3). by split.
Qed.

Lemma X1_witness :
  isHHMM "07:05" = true ∧ formatTimeString "07:05" = Some "07:05"%string
  ∧ matchTime (clock 23 59) = Some (23, 59).
Proof.
  destruct X1_formatTimeString_normal_form as [Hnf Hclock].
  destruct (Hnf " 7:05 "%string "07:05"%string eq_refl) as [Hshape Hfix].
  destruct (Hclock 23 59 ltac:(lia) ltac:(lia)) as [Hback _].
  split; [exact Hshape|]. split; [exact Hfix | exact Hback].
Defined.

Lemma times_updateDailyStats (user : User) (d : Date) :
  amTime (updateDailyStats user d) = amTime user
  ∧ pmTime (updateDailyStats user d) = pmTime user.
Proof.
  unfold updateDailyStats. destruct (logs user !! d) as [day|]; [|done].
  by destruct (_counted day).
Qed.

Lemma times_routeOnboarding (step : Step) (value : string) (user : User) :
  (amTime (routedUser (routeOnboarding step value user)) = amTime user
   ∨ clockTime (amTime (routedUser (routeOnboarding step value user))))
  ∧ (pmTime (routedUser (routeOnboarding step value user)) = pmTime user
     ∨ clockTime (pmTime (routedUser (routeOnboarding step value user)))).
Proof.
  destruct step; simpl; auto;
    destruct (formatTimeString value) as [t|] eqn:Ht; simpl; auto.
  - split; [right | by left]. by eapply formatTimeString_clock.
  - split; [by left | right]. by eapply formatTimeString_clock.
Qed.

Lemma times_route (openai : option Client) (body : string) (d : Date) (now : string)
    (user : User) :
  (amTime (routedUser (route openai body d now user)) = amTime user
   ∨ clockTime (amTime (routedUser (route openai body d now user))))
  ∧ (pmTime (routedUser (route openai body d now user)) = pmTime user
     ∨ clockTime (pmTime (routedUser (route openai body d now user)))).
Proof.
  unfold route. destruct (onboardingStep (touchDay d user)) as [step|].
  - destruct (times_routeOnboarding step (trim body) (touchDay d user)) as [Ha Hp].
    rewrite amTime_touchDay in Ha. rewrite pmTime_touchDay in Hp. done.
  - destruct (pending (touchDay d user)) as [[| |]|]; simpl;
      rewrite ?amTime_touchDay, ?pmTime_touchDay; auto.
    match goal with
    | |- context [updateDailyStats ?u d] =>
        destruct (times_updateDailyStats u d) as [-> ->]
    end.
    simpl. rewrite amTime_touchDay, pmTime_touchDay. auto.
Qed.

Lemma times_evolve (ev : Event) (user : User) :
  (amTime (evolve ev user) = amTime user ∨ clockTime (amTime (evolve ev user)))
  ∧ (pmTime (evolve ev user) = pmTime user ∨ clockTime (pmTime (evolve ev user))).
Proof.
  destruct ev as [openai msg | msg delivered | msg | msg | msg d | msg d | msg d
                 | msg today | openai msg d now | hh mm d | today | ];
    unfold evolve.
  - auto.
  - destruct (onboarded user); auto.
  - auto.
  - auto.
  - auto.
  - destruct (onboarded user); simpl; rewrite ?amTime_touchDay, ?pmTime_touchDay; auto.
  - destruct (onboarded user); simpl; rewrite ?amTime_touchDay, ?pmTime_touchDay; auto.
  - auto.
  - destruct (startsWith _ _); [auto | apply times_route].
  - destruct (tickUser_times (clock hh mm) d user) as [-> ->]. auto.
  - auto.
  - auto.
Qed.

(** X2: in every table that can arise, the AM and the PM time of every
    user is the clock reading of some minute of the day, so the minute job
    can meet it: the defaults are, and onboarding only stores what
    [formatTimeString] returns. *)
Theorem X2_stored_times_are_clock_readings (users : Users) (k : string) (user : User) :
  reachable users → users !! k = Some user →
  clockTime (amTime user) ∧ clockTime (pmTime user).
Proof.
  intros Hr Hu.
  apply (run_invariant (λ _ u, clockTime (amTime u) ∧ clockTime (pmTime u)))
    with (users := users) (k := k); [ | | done | done].
  - intros k' msg. split.
    + exists 7, 0. repeat split; lia.
    + exists 21, 0. repeat split; lia.
  - intros ev k' u [Ha Hp]. destruct (times_evolve ev u) as [[-> | Ha'] [-> | Hp']]; auto.
Qed.

(** Ann's times after two days of use. *)
Lemma X2_witness : clockTime (amTime annRecord) ∧ clockTime (pmTime annRecord).
Proof.
  apply (X2_stored_times_are_clock_readings veteran "42"%string annRecord).
  - exact reachable_veteran.
  - exact veteran_annRecord.
Defined.

(** ** A day of ticks *)

Lemma ticksAt_total (c body : string) (d : Date) (readings : list (Z * Z))
    (users : Users) :
  totalSends c body (trace (ticksAt d readings) users)
  = scheduledSends c body d (trace (ticksAt d readings) users).
Proof.
  revert users. induction readings as [|[hh mm] readings IH]; intros users; [done|].
  change (ticksAt d ((hh, mm) :: readings))
    with (MinuteTick hh mm d :: ticksAt d readings).
  rewrite totalSends_cons, scheduledSends_cons, IH.
  unfold tickSends. simpl. by rewrite bool_decide_eq_true_2.
Qed.

Lemma dueAm_onboarded_unsent (current : string) (d : Date) (user : User) :
  onboarded user = true → amSentU user d = false →
  dueAm current d user = String.eqb current (amTime user).
Proof. intros Hon Hs. unfold dueAm. rewrite Hon, Hs. simpl. by rewrite andb_true_r. Qed.

Lemma duePm_onboarded_unsent (current : string) (d : Date) (user : User) :
  onboarded user = true → pmSentU user d = false →
  duePm current d user = String.eqb current (pmTime user).
Proof. intros Hon Hs. unfold duePm. rewrite Hon, Hs. simpl. by rewrite andb_true_r. Qed.

Lemma ticks_am_sends (readings : list (Z * Z)) (users : Users) (c : string)
    (user : User) (d : Date) :
  wellKeyed users → users !! c = Some user →
  onboarded user = true → amSentU user d = false →
  totalSends c AM_PROMPT (trace (ticksAt d readings) users)
  = if shows (amTime user) readings then 1%nat else 0%nat.
Proof.
  revert users user. induction readings as [|[hh mm] readings IH];
    intros users user Hwf Hu Hon Hs; [done|].
  change (ticksAt d ((hh, mm) :: readings))
    with (MinuteTick hh mm d :: ticksAt d readings).
  rewrite totalSends_cons. simpl step.
  rewrite (cronTick_am_count hh mm d users c Hwf), Hu.
  pose proof (dueAm_onboarded_unsent (clock hh mm) d user Hon Hs) as Hdue.
  unfold shows. simpl existsb. fold (shows (amTime user) readings).
  destruct (String.eqb (clock hh mm) (amTime user)) eqn:Heq; rewrite Hdue; simpl.
  - rewrite ticksAt_total.
    rewrite (slot_none_once_sent AM_PROMPT dueAm amSentU
               cronTick_am_count dueAm_unsent amSentU_evolve);
      [done | by apply (wellKeyed_step (MinuteTick hh mm d)) |].
    unfold cronTick. simpl. rewrite lookup_fmap, Hu. simpl.
    by apply tickUser_am_flag.
  - destruct (tickUser_day (clock hh mm) d user) as (_ & _ & Hflag & _).
    destruct (tickUser_times (clock hh mm) d user) as [Htime _].
    rewrite <- Htime.
    apply IH.
    + by apply (wellKeyed_step (MinuteTick hh mm d)).
    + unfold cronTick. simpl. by rewrite lookup_fmap, Hu.
    + by rewrite onboarded_tickUser.
    + by rewrite Hflag, Hs, Hdue.
Qed.

Lemma ticks_pm_sends (readings : list (Z * Z)) (users : Users) (c : string)
    (user : User) (d : Date) :
  wellKeyed users → users !! c = Some user →
  onboarded user = true → pmSentU user d = false →
  totalSends c PM_PROMPT (trace (ticksAt d readings) users)
  = if shows (pmTime user) readings then 1%nat else 0%nat.
Proof.
  revert users user. induction readings as [|[hh mm] readings IH];
    intros users user Hwf Hu Hon Hs; [done|].
  change (ticksAt d ((hh, mm) :: readings))
    with (MinuteTick hh mm d :: ticksAt d readings).
  rewrite totalSends_cons. simpl step.
  rewrite (cronTick_pm_count hh mm d users c Hwf), Hu.
  pose proof (duePm_onboarded_unsent (clock hh mm) d user Hon Hs) as Hdue.
  unfold shows. simpl existsb. fold (shows (pmTime user) readings).
  destruct (String.eqb (clock hh mm) (pmTime user)) eqn:Heq; rewrite Hdue; simpl.
  - rewrite ticksAt_total.
    rewrite (slot_none_once_sent PM_PROMPT duePm pmSentU
               cronTick_pm_count duePm_unsent pmSentU_evolve);
      [done | by apply (wellKeyed_step (MinuteTick hh mm d)) |].
    unfold cronTick. simpl. rewrite lookup_fmap, Hu. simpl.
    by apply tickUser_pm_flag.
  - destruct (tickUser_day (clock hh mm) d user) as (_ & _ & _ & Hflag).
    destruct (tickUser_times (clock hh mm) d user) as [_ Htime].
    rewrite <- Htime.
    apply IH.
    + by apply (wellKeyed_step (MinuteTick hh mm d)).
    + unfold cronTick. simpl. by rewrite lookup_fmap, Hu.
    + by rewrite onboarded_tickUser.
    + by rewrite Hflag, Hs, Hdue.
Qed.

(** X3: when the minute job runs at a list of clock readings of one date,
    an onboarded user whose flag for that date is not yet set is sent the
    AM prompt exactly once if one of the readings is their AM time, and
    not at all otherwise: a minute that was not ticked is not made up for
    later.  The same holds for the PM prompt. *)
Theorem X3_prompt_iff_minute_ticked (readings : list (Z * Z)) (users : Users)
    (c : string) (user : User) (d : Date) :
  wellKeyed users → users !! c = Some user → onboarded user = true →
  (amSentU user d = false →
   totalSends c AM_PROMPT (trace (ticksAt d readings) users)
   = if shows (amTime user) readings then 1%nat else 0%nat)
  ∧ (pmSentU user d = false →
     totalSends c PM_PROMPT (trace (ticksAt d readings) users)
     = if shows (pmTime user) readings then 1%nat else 0%nat).
Proof.
  intros Hwf Hu Hon. split; intros Hs.
  - by apply ticks_am_sends.
  - by apply ticks_pm_sends.
Qed.

(** On Ann's third day the job runs at 06:59, 07:00, 07:01 and 07:00 again
    but misses 21:00. *)
Lemma X3_witness :
  totalSends "42" AM_PROMPT
    (trace (ticksAt (day0 + 2) [(6, 59); (7, 0); (7, 1); (7, 0)]) veteran) = 1%nat
  ∧ totalSends "42" PM_PROMPT
      (trace (ticksAt (day0 + 2) [(6, 59); (7, 0); (7, 1); (7, 0)]) veteran) = 0%nat.
Proof.
  destruct (X3_prompt_iff_minute_ticked [(6, 59); (7, 0); (7, 1); (7, 0)]
              veteran "42"%string annRecord (day0 + 2)) as [Ham Hpm].
  - apply reachable_wellKeyed, reachable_veteran.
  - exact veteran_annRecord.
  - vm_compute. reflexivity.
  - split.
    + rewrite Ham; [vm_compute; reflexivity | vm_compute; reflexivity].
    + rewrite Hpm; [vm_compute; reflexivity | vm_compute; reflexivity].
Defined.

(** ** Onboarding *)


Lemma message_lookup (openai : option Client) (msg : Msg) (body : string) (d : Date)
    (now : string) (users : Users) (user : User) :
  msg_text msg = Some body → startsWith "/" body = false →
  users !! userKey msg = Some user →
  (step (Message openai msg d now) users).1 !! userKey msg
  = Some (routedUser (route openai body d now user)).
Proof.
  intros Htext Hslash Hu. rewrite step_lookup. simpl.
  rewrite Htext. simpl. rewrite Hslash, decide_True by done. by rewrite Hu.
Qed.

Lemma route_onboarding (openai : option Client) (body : string) (d : Date)
    (now : string) (user : User) (step : Step) :
  onboardingStep user = Some step →
  route openai body d now user = routeOnboarding step (trim body) (touchDay d user).
Proof. intros Hs. unfold route. by rewrite onboardingStep_touchDay, Hs. Qed.



(** X5: while a user is at the AM-time or PM-time step of onboarding, a
    free-text message that [formatTimeString] rejects is answered with the
    format hint.  The router has created the log of the day before it
    looks at the step, so the sender's record is left as it was but for
    its logs, where the log of the day is the one that was there, or an
    empty one when there was none; the logs of the other days, the step,
    both times, the onboarded flag and the pending intent stay as they
    are, and no other record changes.  No save follows the one made by
    [ensureUser], so a log that was created is not saved by this run. *)
Theorem X5_invalid_time_is_asked_again (openai : option Client) (msg : Msg)
    (body : string) (d : Date) (now : string) (users : Users) (user : User)
    (step : Step) :
  msg_text msg = Some body → startsWith "/" body = false →
  users !! userKey msg = Some user →
  onboardingStep user = Some step → step = StepAmTime ∨ step = StepPmTime →
  formatTimeString (trim body) = None →
  (onMessage openai msg d now users).2
  = [ESave users; ESend (chatId user) INVALID_TIME]
  ∧ (∀ k, k ≠ userKey msg → (onMessage openai msg d now users).1 !! k = users !! k)
  ∧ (is_Some (logs user !! d) → (onMessage openai msg d now users).1 = users)
  ∧ (logs user !! d = None → (onMessage openai msg d now users).1 ≠ users)
  ∧ ∃ user', (onMessage openai msg d now users).1 !! userKey msg = Some user'
      ∧ set_logs (logs user) user' = user
      ∧ logs user' !! d = Some (default emptyDay (logs user !! d))
      ∧ (∀ d', d' ≠ d → logs user' !! d' = logs user !! d')
      ∧ onboardingStep user' = Some step
      ∧ amTime user' = amTime user ∧ pmTime user' = pmTime user
      ∧ onboarded user' = onboarded user ∧ pending user' = pending user.
Proof.
  intros Htext Hslash Hu Hstep Hwhich Hbad.
  assert (Hroute : route openai body d now user
    = {| routedUser := touchDay d user; routedSave := false;
         routedReply := INVALID_TIME |}).
  { rewrite (route_onboarding _ _ _ _ _ step Hstep).
    destruct Hwhich as [-> | ->]; simpl; by rewrite Hbad. }
  unfold onMessage. rewrite Htext. simpl. rewrite Hslash.
  rewrite (ensureUser_known _ _ _ Hu), Hroute. simpl.
  destruct (touchDay_fresh d user) as [Hold Hnew].
  split; [done|]. split; [intros k Hk; by rewrite lookup_insert_ne|].
  split; [intros Hd; rewrite (Hold Hd); by apply insert_id|].
  split.
  { intros Hd Heq.
    assert (Hl : <[userKey msg := touchDay d user]> users !! userKey msg
                 = users !! userKey msg) by (by rewrite Heq).
    rewrite lookup_insert_eq, Hu in Hl. injection Hl as Hl. by apply (Hnew Hd). }
  exists (touchDay d user). rewrite lookup_insert_eq.
  rewrite onboardingStep_touchDay, amTime_touchDay, pmTime_touchDay,
    onboarded_touchDay, pending_touchDay.
  split; [done|]. split.
  { unfold touchDay. destruct (logs user !! d); by destruct user. }
  split.
  { unfold touchDay. destruct (logs user !! d) as [day|] eqn:Hd; simpl.
    - by rewrite Hd.
    - by rewrite lookup_insert_eq. }
  split.
  { intros d' Hne. unfold touchDay. destruct (logs user !! d) as [day|] eqn:Hd; simpl.
    - done.
    - by rewrite lookup_insert_ne. }
  by repeat split.
Qed.

(** Ben, asked for his AM time, answers "7am" the next morning. *)
Lemma X5_witness :
  (onMessage None (ben "7am") (day0 + 1) "2024-10-05T09:00:30.000Z" benAsked).2
  = [ESave benAsked; ESend "7" INVALID_TIME]
  ∧ (onMessage None (ben "7am") (day0 + 1) "2024-10-05T09:00:30.000Z" benAsked).1
    ≠ benAsked
  ∧ ∃ user', (onMessage None (ben "7am") (day0 + 1) "2024-10-05T09:00:30.000Z" benAsked).1
               !! "7"%string = Some user'
      ∧ logs user' !! (day0 + 1) = Some emptyDay
      ∧ onboardingStep user' = Some StepAmTime.
Proof.
  destruct (X5_invalid_time_is_asked_again None (ben "7am") "7am" (day0 + 1)
              "2024-10-05T09:00:30.000Z" benAsked benRecord StepAmTime)
    as (Heff & _ & _ & Hnew & user' & Hu' & _ & Hlog & _ & Hstep & _).
  - reflexivity.
  - reflexivity.
  - vm_compute. reflexivity.
  - vm_compute. reflexivity.
  - left. reflexivity.
  - reflexivity.
  - split; [exact Heff|]. split; [apply Hnew; vm_compute; reflexivity|].
    exists user'. split; [exact Hu'|]. split; [|exact Hstep].
    etransitivity; [exact Hlog|]. vm_compute. reflexivity.
Defined.

(** ** One user at a time *)

Lemma chatId_ensured (msg : Msg) (users : Users) :
  wellKeyed users →
  chatId (default (newUser (userKey msg) msg) (users !! userKey msg)) = userKey msg.
Proof.
  intros Hwf. destruct (users !! userKey msg) as [user|] eqn:Hu; simpl; [|done].
  by apply Hwf.
Qed.

(** Membership of a send in a short explicit list of effects. *)
Ltac sends_to :=
  repeat match goal with
  | H : _ ∈ _ ++ _ |- _ => apply elem_of_app in H as [H | H]
  | H : _ ∈ _ :: _ |- _ => apply elem_of_cons in H as [H | H]
  | H : _ ∈ [] |- _ => by apply elem_of_nil in H
  | H : _ ∈ (if ?b then _ else _) |- _ => destruct b
  | H : ESend _ _ = ESave _ |- _ => discriminate H
  | H : ESend _ _ = ESend _ _ |- _ => injection H as -> ->
  end.

Lemma sender_other_record (ev : Event) (msg : Msg) (users : Users) (k : string) :
  sender ev = Some msg → k ≠ userKey msg → (step ev users).1 !! k = users !! k.
Proof.
  intros Hs Hk. rewrite step_lookup.
  destruct ev; simpl in Hs; try discriminate Hs; injection Hs as ->; simpl;
    try (by rewrite decide_False by done);
    try (by destruct (users !! k)).
  unfold evolve. destruct (startsWith _ _); simpl.
  - by destruct (users !! k).
  - by rewrite decide_False by done.
Qed.

Lemma sender_only_addressee (ev : Event) (msg : Msg) (users : Users) (c body : string) :
  sender ev = Some msg → wellKeyed users →
  ESend c body ∈ (step ev users).2 → c = userKey msg.
Proof.
  intros Hs Hwf Hin. pose proof (chatId_ensured msg users Hwf) as Hchat.
  destruct ev; simpl in Hs; try discriminate Hs; injection Hs as ->; simpl in Hin.
  - unfold onGpt in Hin. destruct openai as [create|]; simpl in Hin.
    + destruct (create _ _ _) as [|[|]]; simpl in Hin; by sends_to.
    + by sends_to.
  - unfold onStart in Hin. rewrite ensureUser_eq in Hin.
    destruct (onboarded _); simpl in Hin; by sends_to.
  - unfold onOnboard in Hin. rewrite ensureUser_eq in Hin. simpl in Hin. by sends_to.
  - unfold onSetgoals in Hin. rewrite ensureUser_eq in Hin. simpl in Hin. by sends_to.
  - unfold onStatus in Hin. rewrite ensureUser_eq in Hin. simpl in Hin. by sends_to.
  - unfold onTestAm in Hin. rewrite ensureUser_eq in Hin.
    destruct (onboarded _); simpl in Hin; by sends_to.
  - unfold onTestPm in Hin. rewrite ensureUser_eq in Hin.
    destruct (onboarded _); simpl in Hin; by sends_to.
  - unfold onTestWeekly in Hin. rewrite ensureUser_eq in Hin.
    destruct (onboarded _); simpl in Hin; by sends_to.
  - unfold onMessage in Hin. destruct (startsWith _ _); simpl in Hin; [by sends_to|].
    rewrite ensureUser_eq in Hin. simpl in Hin. by sends_to.
Qed.

(** X6: a message or a command changes no record but the sender's, and,
    in a table where every record sits under its own chat id, every
    message it sends goes to the sender's chat. *)
Theorem X6_only_the_sender_is_touched (ev : Event) (msg : Msg) (users : Users) :
  sender ev = Some msg →
  (∀ k, k ≠ userKey msg → (step ev users).1 !! k = users !! k)
  ∧ (wellKeyed users →
     ∀ c body, ESend c body ∈ (step ev users).2 → c = userKey msg).
Proof.
  intros Hs. split.
  - intros k Hk. by apply (sender_other_record ev msg).
  - intros Hwf c body Hin. by apply (sender_only_addressee ev msg users c body).
Qed.

(** Ben's invalid answer leaves Ann's record alone. *)
Lemma X6_witness :
  (step (Message None (ben "7am") day0 "2024-10-04T09:00:30.000Z") benAsked).1
    !! "42"%string = benAsked !! "42"%string.
Proof.
  destruct (X6_only_the_sender_is_touched
              (Message None (ben "7am") day0 "2024-10-04T09:00:30.000Z")
              (ben "7am") benAsked eq_refl) as [Hrec _].
  apply Hrec. vm_compute. discriminate.
Defined.

(** ** Nothing is forgotten *)

Lemma keepsDay_refl (day : DayLog) : keepsDay day day.
Proof. by repeat split. Qed.

Lemma keeps_refl (user : User) : keeps user user.
Proof. intros d day Hd. exists day. split; [done | apply keepsDay_refl]. Qed.

Lemma keeps_trans (u1 u2 u3 : User) : keeps u1 u2 → keeps u2 u3 → keeps u1 u3.
Proof.
  intros H12 H23 d day Hd.
  destruct (H12 d day Hd) as (day2 & Hd2 & Ha & Hp & Hc).
  destruct (H23 d day2 Hd2) as (day3 & Hd3 & Ha' & Hp' & Hc').
  exists day3. split; [done|]. repeat split; auto.
Qed.

Lemma keeps_logs (user u1 u2 : User) : logs u2 = logs u1 → keeps user u1 → keeps user u2.
Proof. intros Hl H d day Hd. rewrite Hl. by apply H. Qed.

Lemma keeps_touchDay (d : Date) (user : User) : keeps user (touchDay d user).
Proof.
  unfold touchDay. destruct (logs user !! d) eqn:Hd; [apply keeps_refl|].
  intros d' day Hd'. exists day. split; [|apply keepsDay_refl]. simpl.
  rewrite lookup_insert_ne; [done|]. intros ->. unfold Date in *. congruence.
Qed.

Lemma keeps_putDay (d : Date) (day' : DayLog) (user u0 : User) :
  keeps user u0 →
  (∀ day, logs u0 !! d = Some day → keepsDay day day') →
  keeps user (putDay d day' u0).
Proof.
  intros H0 Hday. eapply keeps_trans; [exact H0|].
  intros d' day Hd'. unfold putDay. simpl.
  destruct (decide (d = d')) as [<- | Hne].
  - exists day'. rewrite lookup_insert_eq. split; [done | by apply Hday].
  - exists day. rewrite lookup_insert_ne by done. split; [done | apply keepsDay_refl].
Qed.

Lemma getDay_lookup (d : Date) (user : User) (day : DayLog) :
  logs user !! d = Some day → getDay d user = day.
Proof. intros Hd. unfold getDay. by rewrite Hd. Qed.

(** Peels the assignments that leave [logs] alone. *)
Ltac peel_kept :=
  repeat match goal with
  | |- keeps ?u (?f ?v ?x) => apply (keeps_logs u x); [reflexivity|]
  end.

Lemma keeps_updateDailyStats (user u0 : User) (d : Date) :
  keeps user u0 → keeps user (updateDailyStats u0 d).
Proof.
  intros H0. unfold updateDailyStats.
  destruct (logs u0 !! d) as [day|] eqn:Hd; [|done].
  destruct (_counted day); [done|].
  apply keeps_putDay; [by peel_kept|].
  intros day0. simpl. rewrite Hd. intros [= <-]. by repeat split.
Qed.

Lemma keeps_routeOnboarding (step : Step) (value : string) (user u0 : User) :
  keeps user u0 → keeps user (routedUser (routeOnboarding step value u0)).
Proof.
  intros H0. destruct step; simpl; try (by peel_kept);
    destruct (formatTimeString value); simpl; by peel_kept.
Qed.

Lemma keeps_route (openai : option Client) (body : string) (d : Date) (now : string)
    (user : User) :
  keeps user (routedUser (route openai body d now user)).
Proof.
  unfold route. pose proof (keeps_touchDay d user) as H1.
  set (user1 := touchDay d user) in *.
  destruct (onboardingStep user1) as [step|]; [by apply keeps_routeOnboarding|].
  destruct (pending user1) as [[| |]|]; simpl.
  - by peel_kept.
  - peel_kept. apply keeps_putDay; [done|].
    intros day Hd. rewrite (getDay_lookup _ _ _ Hd). by repeat split.
  - apply keeps_updateDailyStats. peel_kept. apply keeps_putDay; [done|].
    intros day Hd. rewrite (getDay_lookup _ _ _ Hd). by repeat split.
  - done.
Qed.

Lemma keeps_tickUser (current : string) (d : Date) (user : User) :
  keeps user (tickUser current d user).1.
Proof.
  unfold tickUser. destruct (onboarded user); simpl; [|apply keeps_refl].
  pose proof (keeps_touchDay d user) as H1.
  set (user0 := touchDay d user) in *.
  destruct (String.eqb current (amTime user0) && negb (amPromptSent (getDay d user0)));
    simpl;
    match goal with
    | |- context [String.eqb current ?t && negb ?f] =>
        destruct (String.eqb current t && negb f)
    end;
    (apply keeps_putDay; [by peel_kept|]);
    intros day Hd; simpl in Hd; rewrite (getDay_lookup _ _ _ Hd); by repeat split.
Qed.

Lemma keeps_evolve (ev : Event) (user : User) : keeps user (evolve ev user).
Proof.
  pose proof (keeps_refl user) as H0.
  destruct ev as [openai msg | msg delivered | msg | msg | msg d | msg d | msg d
                 | msg today | openai msg d now | hh mm d | today | ];
    unfold evolve.
  - done.
  - destruct (onboarded user); [done | by apply (keeps_logs user user)].
  - by apply (keeps_logs user user).
  - by apply (keeps_logs user user).
  - done.
  - destruct (onboarded user); simpl negb; cbv iota; [|done].
    pose proof (keeps_touchDay d user) as H1.
    apply keeps_putDay; [by peel_kept|].
    intros day Hd. simpl in Hd. unfold getDay. simpl. unfold Date in *. rewrite Hd.
    by repeat split.
  - destruct (onboarded user); simpl negb; cbv iota; [|done].
    pose proof (keeps_touchDay d user) as H1.
    apply keeps_putDay; [by peel_kept|].
    intros day Hd. simpl in Hd. unfold getDay. simpl. unfold Date in *. rewrite Hd.
    by repeat split.
  - done.
  - destruct (startsWith _ _); [done | apply keeps_route].
  - apply keeps_tickUser.
  - done.
  - done.
Qed.

Lemma keeps_run (evs : list Event) (users : Users) (k : string) (user : User) :
  users !! k = Some user →
  ∃ user', run evs users !! k = Some user'
    ∧ chatId user' = chatId user ∧ keeps user user'.
Proof.
  revert users user. induction evs as [|ev evs IH]; intros users user Hu.
  - exists user. split; [done|]. split; [done | apply keeps_refl].
  - rewrite run_cons.
    destruct (step_lookup_Some ev users k user Hu) as [H1 | H1];
      destruct (IH _ _ H1) as (user' & Hu' & Hc & Hk);
      exists user'; (split; [done|]).
    + done.
    + split; [by rewrite Hc, chatId_evolve|].
      eapply keeps_trans; [apply keeps_evolve | exact Hk].
Qed.

(** X7: nothing is ever deleted.  Whatever events follow, a user who is in
    the table stays in it under the same chat id, every day log of theirs
    is still there, an AM or PM entry that was stored is still present
    (possibly replaced by a later answer), and a day that was counted for
    the stats stays counted. *)
Theorem X7_nothing_is_deleted (evs : list Event) (users : Users) (k : string)
    (user : User) :
  users !! k = Some user →
  ∃ user', run evs users !! k = Some user'
    ∧ chatId user' = chatId user
    ∧ ∀ d day, logs user !! d = Some day →
        ∃ day', logs user' !! d = Some day'
          ∧ (is_Some (am day) → is_Some (am day'))
          ∧ (is_Some (pm day) → is_Some (pm day'))
          ∧ (_counted day = true → _counted day' = true).
Proof. apply keeps_run. Qed.

(** Ann re-onboards and is prompted again; her first day is still there. *)
Lemma X7_witness :
  ∃ user',
    run [Onboard ann; TestPm ann day0; MinuteTick 7 0 (day0 + 5)] veteran !! "42"%string
    = Some user'
    ∧ chatId user' = chatId annRecord.
Proof.
  destruct (X7_nothing_is_deleted [Onboard ann; TestPm ann day0; MinuteTick 7 0 (day0 + 5)]
              veteran "42"%string annRecord veteran_annRecord)
    as (user' & Hu & Hc & _).
  exists user'. split; [exact Hu | exact Hc].
Defined.

(** ** More on the stats *)

(** An event leaves the stats alone or closes one day on a record with
    the same stats. *)
Lemma stats_evolve_cases (ev : Event) (user : User) :
  stats (evolve ev user) = stats user
  ∨ ∃ u0 d, stats u0 = stats user
      ∧ stats (evolve ev user) = stats (updateDailyStats u0 d).
Proof.
  destruct ev as [openai msg | msg delivered | msg | msg | msg d | msg d | msg d
                 | msg today | openai msg d now | hh mm d | today | ];
    unfold evolve; auto.
  - destruct (onboarded user); auto.
  - destruct (onboarded user); simpl; [|auto]. left. apply stats_touchDay.
  - destruct (onboarded user); simpl; [|auto]. left. apply stats_touchDay.
  - destruct (startsWith _ _); [auto|]. unfold route.
    destruct (onboardingStep (touchDay d user)) as [step|].
    + left. by rewrite stats_routeOnboarding, stats_touchDay.
    + destruct (pending (touchDay d user)) as [[| |]|]; simpl;
        rewrite ?stats_touchDay; auto.
      right. eexists _, d. split; [|reflexivity]. simpl. apply stats_touchDay.
  - left. apply stats_tickUser.
Qed.

Lemma streaksBounded_updateDailyStats (user : User) (d : Date) :
  streaksBounded (stats user) → streaksBounded (stats (updateDailyStats user d)).
Proof.
  unfold updateDailyStats, streaksBounded.
  destruct (logs user !! d) as [day|]; [|done].
  destruct (_counted day); [done|].
  destruct (isFull day); simpl; lia.
Qed.

Lemma statsLe_updateDailyStats (user : User) (d : Date) :
  statsLe (stats user) (stats (updateDailyStats user d)).
Proof.
  unfold updateDailyStats, statsLe.
  destruct (logs user !! d) as [day|]; [|lia].
  destruct (_counted day); [lia|].
  destruct (isFull day); simpl; lia.
Qed.

(** X8: in every table that can arise, the current streak of a user is
    between 0 and their best streak, and the best streak is at most their
    number of full days. *)
Theorem X8_streak_bounded_by_best (users : Users) (k : string) (user : User) :
  reachable users → users !! k = Some user →
  0 ≤ streakCurrent (stats user)
  ∧ streakCurrent (stats user) ≤ streakBest (stats user)
  ∧ streakBest (stats user) ≤ daysWithBoth (stats user).
Proof.
  intros Hr Hu.
  apply (run_invariant (λ _ u, streaksBounded (stats u))) with (users := users) (k := k);
    [ | | done | done].
  - intros k' msg. unfold streaksBounded. simpl. lia.
  - intros ev k' u Hb.
    destruct (stats_evolve_cases ev u) as [-> | (u0 & d & H0 & ->)]; [done|].
    apply streaksBounded_updateDailyStats. by rewrite H0.
Qed.

(** Ann's streaks after two days. *)
Lemma X8_witness :
  0 ≤ streakCurrent (stats annRecord)
  ∧ streakCurrent (stats annRecord) ≤ streakBest (stats annRecord)
  ∧ streakBest (stats annRecord) ≤ daysWithBoth (stats annRecord).
Proof.
  apply (X8_streak_bounded_by_best veteran "42"%string annRecord).
  - exact reachable_veteran.
  - exact veteran_annRecord.
Defined.

Lemma statsLe_run (evs : list Event) (users : Users) (k : string) (user : User) :
  users !! k = Some user →
  ∃ user', run evs users !! k = Some user' ∧ statsLe (stats user) (stats user').
Proof.
  revert users user. induction evs as [|ev evs IH]; intros users user Hu.
  - exists user. split; [done|]. unfold statsLe. lia.
  - rewrite run_cons.
    destruct (step_lookup_Some ev users k user Hu) as [H1 | H1];
      destruct (IH _ _ H1) as (user' & Hu' & Hle);
      exists user'; (split; [done|]); [done|].
    assert (Hstep : statsLe (stats user) (stats (evolve ev user))).
    { destruct (stats_evolve_cases ev user) as [-> | (u0 & d & H0 & ->)].
      - unfold statsLe. lia.
      - rewrite <- H0. apply statsLe_updateDailyStats. }
    unfold statsLe in *. lia.
Qed.

(** X9: the number of counted days, the number of full days and the best
    streak of a user never go down, whatever events follow (re-onboarding
    included); only the current streak can fall. *)
Theorem X9_counters_never_decrease (evs : list Event) (users : Users) (k : string)
    (user : User) :
  users !! k = Some user →
  ∃ user', run evs users !! k = Some user'
    ∧ totalDays (stats user) ≤ totalDays (stats user')
    ∧ daysWithBoth (stats user) ≤ daysWithBoth (stats user')
    ∧ streakBest (stats user) ≤ streakBest (stats user').
Proof. apply statsLe_run. Qed.

(** Ann re-onboards and answers one more evening prompt. *)
Lemma X9_witness :
  ∃ user',
    run [Onboard ann; TestPm ann (day0 + 1);
         Message None (say "Late.") (day0 + 1) "2024-10-05T21:30:00.000Z"] veteran
      !! "42"%string = Some user'
    ∧ totalDays (stats annRecord) ≤ totalDays (stats user').
Proof.
  destruct (X9_counters_never_decrease
              [Onboard ann; TestPm ann (day0 + 1);
               Message None (say "Late.") (day0 + 1) "2024-10-05T21:30:00.000Z"]
              veteran "42"%string annRecord veteran_annRecord)
    as (user' & Hu & Ht & _).
  exists user'. split; [exact Hu | exact Ht].
Defined.

(** ** Counted days *)

Lemma counted_insert_same (lg : gmap Z DayLog) (d : Z) (day' : DayLog) :
  _counted day' = _counted (default emptyDay (lg !! d)) →
  size (filter (λ kv : Z * DayLog, _counted kv.2 = true) (<[d := day']> lg))
  = size (filter (λ kv : Z * DayLog, _counted kv.2 = true) lg).
Proof.
  intros Hc. destruct (_counted day') eqn:Hday.
  - rewrite map_filter_insert_True by done.
    apply map_size_insert_Some.
    destruct (lg !! d) as [day|] eqn:Hd; simpl in Hc; [|done].
    exists day. by apply map_lookup_filter_Some_2.
  - rewrite map_filter_insert_not'; [done | by simpl; rewrite Hday |].
    intros day Hd. simpl. rewrite Hd in Hc. simpl in Hc. by rewrite <- Hc.
Qed.

Lemma counted_insert_new (lg : gmap Z DayLog) (d : Z) (day day' : DayLog) :
  lg !! d = Some day → _counted day = false → _counted day' = true →
  size (filter (λ kv : Z * DayLog, _counted kv.2 = true) (<[d := day']> lg))
  = S (size (filter (λ kv : Z * DayLog, _counted kv.2 = true) lg)).
Proof.
  intros Hd Hc Hc'. rewrite map_filter_insert_True by done.
  apply map_size_insert_None. apply map_lookup_filter_None_2. right.
  intros x Hx. simpl. rewrite Hd in Hx. injection Hx as <-. by rewrite Hc.
Qed.

Lemma countedDays_logs (u1 u2 : User) : logs u2 = logs u1 → countedDays u2 = countedDays u1.
Proof. intros Hl. unfold countedDays. by rewrite Hl. Qed.

Lemma countedDays_touchDay (d : Date) (user : User) :
  countedDays (touchDay d user) = countedDays user.
Proof.
  unfold touchDay. destruct (logs user !! d) eqn:Hd; [done|].
  unfold countedDays. simpl. rewrite counted_insert_same; [done|].
  unfold Date in *. by rewrite Hd.
Qed.

Lemma countedDays_putDay (d : Date) (day' : DayLog) (user : User) :
  _counted day' = _counted (getDay d user) →
  countedDays (putDay d day' user) = countedDays user.
Proof.
  intros Hc. unfold countedDays, putDay. simpl. by rewrite counted_insert_same.
Qed.

Lemma countedDays_putDay_on (d : Date) (day' : DayLog) (user u0 : User) :
  logs user = logs u0 → _counted day' = _counted (getDay d u0) →
  countedDays (putDay d day' user) = countedDays u0.
Proof.
  intros Hl Hc. rewrite (countedDays_logs (putDay d day' u0)).
  - by apply countedDays_putDay.
  - unfold putDay. simpl. by rewrite Hl.
Qed.

(** The record is in step: its [totalDays] is the number of its counted
    day logs. *)
Lemma inStep_updateDailyStats (user : User) (d : Date) :
  totalDays (stats user) = countedDays user →
  totalDays (stats (updateDailyStats user d)) = countedDays (updateDailyStats user d).
Proof.
  intros Hs. unfold updateDailyStats.
  destruct (logs user !! d) as [day|] eqn:Hd; [|done].
  destruct (_counted day) eqn:Hc; [done|].
  unfold countedDays, putDay. simpl.
  rewrite (counted_insert_new _ _ day) by done.
  unfold countedDays in Hs. destruct (isFull day); simpl; lia.
Qed.

Lemma inStep_routeOnboarding (step : Step) (value : string) (user : User) :
  totalDays (stats user) = countedDays user →
  totalDays (stats (routedUser (routeOnboarding step value user)))
  = countedDays (routedUser (routeOnboarding step value user)).
Proof.
  intros Hs. destruct step; simpl; try done; by destruct (formatTimeString value).
Qed.

Lemma inStep_touchDay (d : Date) (user : User) :
  totalDays (stats user) = countedDays user →
  totalDays (stats (touchDay d user)) = countedDays (touchDay d user).
Proof. intros Hs. by rewrite stats_touchDay, countedDays_touchDay. Qed.

Lemma inStep_route (openai : option Client) (body : string) (d : Date) (now : string)
    (user : User) :
  totalDays (stats user) = countedDays user →
  totalDays (stats (routedUser (route openai body d now user)))
  = countedDays (routedUser (route openai body d now user)).
Proof.
  intros Hs. apply (inStep_touchDay d) in Hs. unfold route.
  set (user1 := touchDay d user) in *.
  destruct (onboardingStep user1) as [step|]; [by apply inStep_routeOnboarding|].
  destruct (pending user1) as [[| |]|]; simpl; try done.
  - match goal with
    | |- context [putDay d ?day user1] =>
        rewrite (countedDays_logs (putDay d day user1)) by done
    end.
    by rewrite countedDays_putDay.
  - apply inStep_updateDailyStats. simpl.
    match goal with
    | |- context [putDay d ?day user1] =>
        rewrite (countedDays_logs (putDay d day user1)) by done
    end.
    by rewrite countedDays_putDay.
Qed.

Lemma inStep_tickUser (current : string) (d : Date) (user : User) :
  totalDays (stats user) = countedDays user →
  totalDays (stats (tickUser current d user).1) = countedDays (tickUser current d user).1.
Proof.
  intros Hs. rewrite stats_tickUser. unfold tickUser.
  destruct (onboarded user); simpl; [|done].
  apply (inStep_touchDay d) in Hs. rewrite stats_touchDay in Hs.
  set (user0 := touchDay d user) in *.
  destruct (String.eqb current (amTime user0) && negb (amPromptSent (getDay d user0)));
    simpl;
    match goal with
    | |- context [String.eqb current ?t && negb ?f] =>
        destruct (String.eqb current t && negb f)
    end;
    by rewrite (countedDays_putDay_on d _ _ user0).
Qed.

Lemma inStep_evolve (ev : Event) (user : User) :
  totalDays (stats user) = countedDays user →
  totalDays (stats (evolve ev user)) = countedDays (evolve ev user).
Proof.
  intros Hs.
  destruct ev as [openai msg | msg delivered | msg | msg | msg d | msg d | msg d
                 | msg today | openai msg d now | hh mm d | today | ];
    unfold evolve.
  - done.
  - by destruct (onboarded user).
  - done.
  - done.
  - done.
  - destruct (onboarded user); simpl negb; cbv iota; [|done].
    apply (inStep_touchDay d) in Hs.
    by rewrite (countedDays_putDay_on d _ _ (touchDay d user)).
  - destruct (onboarded user); simpl negb; cbv iota; [|done].
    apply (inStep_touchDay d) in Hs.
    by rewrite (countedDays_putDay_on d _ _ (touchDay d user)).
  - done.
  - destruct (startsWith _ _); [done | by apply inStep_route].
  - by apply inStep_tickUser.
  - done.
  - done.
Qed.

(** X10: in every table that can arise, [totalDays] of a user is exactly
    the number of their day logs marked as counted: each day enters the
    stats once, when it is marked, and marks are neither lost nor set
    without counting. *)
Theorem X10_totalDays_counts_marked_days (users : Users) (k : string) (user : User) :
  reachable users → users !! k = Some user →
  totalDays (stats user) = countedDays user.
Proof.
  intros Hr Hu.
  apply (run_invariant (λ _ u, totalDays (stats u) = countedDays u))
    with (users := users) (k := k); [done | | done | done].
  intros ev k' u. apply inStep_evolve.
Qed.

(** Ann has one counted day. *)
Lemma X10_witness : totalDays (stats annRecord) = countedDays annRecord.
Proof.
  apply (X10_totalDays_counts_marked_days veteran "42"%string annRecord).
  - exact reachable_veteran.
  - exact veteran_annRecord.
Defined.

(** ** Answers *)

Lemma route_idle (openai : option Client) (body : string) (d : Date) (now : string)
    (user : User) :
  onboardingStep user = None →
  route openai body d now user =
    match pending user with
    | Some Setgoals =>
        {| routedUser := set_pending None (set_mission (trim body) (touchDay d user));
           routedSave := true;
           routedReply := "Mission updated:" +:+ nl +:+ trim body |}
    | Some AwaitAm =>
        {| routedUser :=
             set_pending None
               (putDay d (set_am (Some {| text := body; timestamp := now |})
                            (getDay d (touchDay d user))) (touchDay d user));
           routedSave := true;
           routedReply := "Dawn Report logged." +:+ nl +:+ "Execute." |}
    | Some AwaitPm =>
        {| routedUser :=
             updateDailyStats
               (set_pending None
                  (putDay d (set_pm (Some {| text := body; timestamp := now |})
                               (getDay d (touchDay d user))) (touchDay d user))) d;
           routedSave := true;
           routedReply := "Nightly Debrief logged." +:+ nl +:+ "Tomorrow the standard rises." |}
    | None =>
        {| routedUser := touchDay d user; routedSave := false;
           routedReply := coachReply openai (touchDay d user) body |}
    end.
Proof.
  intros Hs. unfold route. rewrite onboardingStep_touchDay, Hs, pending_touchDay.
  by destruct (pending user) as [[| |]|].
Qed.

(** X11: the PM answer of a user who is not in onboarding is stored as the
    day's PM entry and clears the pending intent; the day is then marked
    as counted.  If it was already counted the stats do not move (a second
    evening answer only rewrites the entry); otherwise the day counts as
    full exactly when an AM entry is there, and as a streak-breaking day
    when it is not. *)
Theorem X11_pm_answer_closes_the_day (openai : option Client) (msg : Msg)
    (body : string) (d : Date) (now : string) (users : Users) (user : User) :
  msg_text msg = Some body → startsWith "/" body = false →
  users !! userKey msg = Some user →
  onboardingStep user = None → pending user = Some AwaitPm →
  ∃ user', (step (Message openai msg d now) users).1 !! userKey msg = Some user'
    ∧ pending user' = None
    ∧ pm (getDay d user') = Some {| text := body; timestamp := now |}
    ∧ am (getDay d user') = am (getDay d user)
    ∧ _counted (getDay d user') = true
    ∧ stats user' =
        if _counted (getDay d user) then stats user
        else closedStats (match am (getDay d user) with Some _ => true | None => false end)
               (stats user).
Proof.
  intros Htext Hslash Hu Hstep Hpend.
  exists (routedUser (route openai body d now user)).
  split; [by apply message_lookup|].
  rewrite (route_idle _ _ _ _ _ Hstep), Hpend. simpl.
  set (day2 := set_pm (Some {| text := body; timestamp := now |})
                 (getDay d (touchDay d user))).
  set (u2 := set_pending None (putDay d day2 (touchDay d user))).
  assert (Hd2 : logs u2 !! d = Some day2) by (simpl; apply lookup_insert_eq).
  assert (Hget : getDay d u2 = day2) by by apply getDay_lookup.
  assert (Hc2 : _counted day2 = _counted (getDay d user))
    by (unfold day2; simpl; by rewrite getDay_touchDay).
  assert (Hs2 : stats u2 = stats user) by (simpl; apply stats_touchDay).
  assert (Hfull : isFull day2
    = match am (getDay d user) with Some _ => true | None => false end).
  { unfold isFull, day2. simpl. rewrite getDay_touchDay. by destruct (am _). }
  destruct (_counted (getDay d user)) eqn:Hc.
  - rewrite (updateDailyStats_counted _ _ _ Hd2 Hc2), Hget.
    unfold u2, day2. simpl. rewrite getDay_touchDay, stats_touchDay, Hc. by repeat split.
  - rewrite (updateDailyStats_open _ _ _ Hd2 Hc2).
    rewrite getDay_putDay, decide_True by done. simpl.
    rewrite getDay_touchDay, Hfull, stats_touchDay.
    unfold closedStats. by destruct (am (getDay d user)).
Qed.

(** Ann answers the evening prompt of her second day, which has its
    morning entry. *)
Lemma X11_witness :
  ∃ user',
    (step (Message None (say "Trained.") (day0 + 1) "2024-10-05T21:04:00.000Z")
       (run [MinuteTick 21 0 (day0 + 1)] veteran)).1 !! "42"%string = Some user'
    ∧ pending user' = None
    ∧ stats user'
      = {| totalDays := 2; daysWithBoth := 2; streakCurrent := 2; streakBest := 2 |}.
Proof.
  destruct (X11_pm_answer_closes_the_day None (say "Trained.") "Trained." (day0 + 1)
              "2024-10-05T21:04:00.000Z" (run [MinuteTick 21 0 (day0 + 1)] veteran)
              (default annRecord
                 (run [MinuteTick 21 0 (day0 + 1)] veteran !! "42"%string)))
    as (user' & Hu & Hp & _ & _ & _ & Hs).
  - reflexivity.
  - reflexivity.
  - vm_compute. reflexivity.
  - vm_compute. reflexivity.
  - vm_compute. reflexivity.
  - exists user'. split; [exact Hu|]. split; [exact Hp|].
    rewrite Hs. vm_compute. reflexivity.
Defined.

(** X12: a free-text message sent while [setgoals] is pending, outside
    onboarding, becomes the mission: its trimmed text is stored as both
    [goalsText] and [habitsText], the pending intent is cleared, the new
    table is saved and then acknowledged, and the stats and both times
    stay as they were. *)
Theorem X12_setgoals_answer_becomes_mission (openai : option Client) (msg : Msg)
    (body : string) (d : Date) (now : string) (users : Users) (user : User) :
  msg_text msg = Some body → startsWith "/" body = false →
  users !! userKey msg = Some user →
  onboardingStep user = None → pending user = Some Setgoals →
  ∃ user', (onMessage openai msg d now users).1 !! userKey msg = Some user'
    ∧ goalsText user' = trim body ∧ habitsText user' = trim body
    ∧ pending user' = None
    ∧ stats user' = stats user
    ∧ amTime user' = amTime user ∧ pmTime user' = pmTime user
    ∧ (onMessage openai msg d now users).2
      = [ESave users; ESave (onMessage openai msg d now users).1;
         ESend (chatId user) ("Mission updated:" +:+ nl +:+ trim body)].
Proof.
  intros Htext Hslash Hu Hstep Hpend.
  unfold onMessage. rewrite Htext. simpl. rewrite Hslash.
  rewrite (ensureUser_known _ _ _ Hu), (route_idle _ _ _ _ _ Hstep), Hpend. simpl.
  eexists. split; [apply lookup_insert_eq|]. simpl.
  rewrite stats_touchDay, amTime_touchDay, pmTime_touchDay. by repeat split.
Qed.

(** Ann changes her mission. *)
Lemma X12_witness :
  ∃ user',
    (onMessage None (say " Sleep by ten. ") (day0 + 1) "2024-10-05T12:00:00.000Z"
       (run [SetGoals ann] veteran)).1 !! "42"%string = Some user'
    ∧ goalsText user' = "Sleep by ten."%string.
Proof.
  destruct (X12_setgoals_answer_becomes_mission None (say " Sleep by ten. ")
              " Sleep by ten. " (day0 + 1) "2024-10-05T12:00:00.000Z"
              (run [SetGoals ann] veteran)
              (default annRecord (run [SetGoals ann] veteran !! "42"%string)))
    as (user' & Hu & Hg & _).
  - reflexivity.
  - reflexivity.
  - vm_compute. reflexivity.
  - vm_compute. reflexivity.
  - vm_compute. reflexivity.
  - exists user'. split; [exact Hu|]. rewrite Hg. vm_compute. reflexivity.
Defined.

(** ** Who is prompted *)

Lemma countSends_none (c body : string) (effs : list Effect) :
  (∀ body', ESend c body' ∉ effs) → countSends c body effs = O.
Proof.
  induction effs as [|e effs IH]; intros Hnone; [done|]. simpl.
  rewrite IH.
  - destruct e as [snap | c' body']; simpl; [done|].
    destruct (String.eqb c' c) eqn:Hc; [|done].
    apply String.eqb_eq in Hc as ->. exfalso. apply (Hnone body'). by left.
  - intros body' Hin. apply (Hnone body'). by right.
Qed.

Lemma tickUser_not_onboarded (current : string) (d : Date) (user : User) :
  onboarded user = false → tickUser current d user = (user, []).
Proof. intros Hon. unfold tickUser. by rewrite Hon. Qed.

(** X13: the minute job and the manual triggers never prompt a user who
    is not onboarded.  In a table where every record sits under its own
    chat id, such an event, whoever it comes from, sends neither the AM nor
    the PM prompt to a user with [onboarded] false and leaves that user's
    record exactly as it was. *)
Theorem X13_no_prompt_before_onboarding (ev : Event) (users : Users) (c : string)
    (user : User) :
  firesPrompts ev = true → wellKeyed users →
  users !! c = Some user → onboarded user = false →
  countSends c AM_PROMPT (step ev users).2 = O
  ∧ countSends c PM_PROMPT (step ev users).2 = O
  ∧ (step ev users).1 !! c = Some user.
Proof.
  intros Hev Hwf Hu Hon.
  destruct ev as [openai msg | msg delivered | msg | msg | msg d | msg d | msg d
                 | msg today | openai msg d now | hh mm d | today | ];
    try discriminate Hev.
  - destruct (decide (c = userKey msg)) as [-> | Hne].
    + simpl step. unfold onTestAm. rewrite (ensureUser_known _ _ _ Hu), Hon. simpl.
      rewrite !andb_false_r. by repeat split.
    + split; [|split].
      * apply countSends_none. intros body' Hin.
        by apply (sender_only_addressee (TestAm msg d) msg) in Hin.
      * apply countSends_none. intros body' Hin.
        by apply (sender_only_addressee (TestAm msg d) msg) in Hin.
      * by rewrite (sender_other_record (TestAm msg d) msg), Hu.
  - destruct (decide (c = userKey msg)) as [-> | Hne].
    + simpl step. unfold onTestPm. rewrite (ensureUser_known _ _ _ Hu), Hon. simpl.
      rewrite !andb_false_r. by repeat split.
    + split; [|split].
      * apply countSends_none. intros body' Hin.
        by apply (sender_only_addressee (TestPm msg d) msg) in Hin.
      * apply countSends_none. intros body' Hin.
        by apply (sender_only_addressee (TestPm msg d) msg) in Hin.
      * by rewrite (sender_other_record (TestPm msg d) msg), Hu.
  - simpl step. rewrite cronTick_am_count, cronTick_pm_count, Hu by done.
    unfold dueAm, duePm. rewrite Hon. simpl. split; [done|]. split; [done|].
    unfold cronTick. simpl. rewrite lookup_fmap, Hu. simpl.
    by rewrite tickUser_not_onboarded.
Qed.

(** Ben, in the middle of onboarding, asks for the morning prompt. *)
Lemma X13_witness :
  countSends "7" AM_PROMPT (step (TestAm (ben "/test_am") day0) benAsked).2 = O
  ∧ countSends "7" PM_PROMPT (step (TestAm (ben "/test_am") day0) benAsked).2 = O
  ∧ (step (TestAm (ben "/test_am") day0) benAsked).1 !! "7"%string = Some benRecord.
Proof.
  apply (X13_no_prompt_before_onboarding (TestAm (ben "/test_am") day0) benAsked
           "7"%string benRecord).
  - reflexivity.
  - apply reachable_wellKeyed, reachable_run, reachable_veteran.
  - vm_compute. reflexivity.
  - vm_compute. reflexivity.
Defined.

(** ** The weekly figures *)

Lemma filter_length_le {A} (p : A → bool) (l : list A) :
  (length (List.filter p l) ≤ length l)%nat.
Proof. induction l as [|x l IH]; simpl; [lia|]. destruct (p x); simpl; lia. Qed.

Lemma filter_length_mono {A} (p q : A → bool) (l : list A) :
  (∀ x, q x = true → p x = true) →
  (length (List.filter q l) ≤ length (List.filter p l))%nat.
Proof.
  intros Hpq. induction l as [|x l IH]; simpl; [lia|].
  destruct (q x) eqn:Hq.
  - rewrite (Hpq x Hq). simpl. lia.
  - destruct (p x); simpl; lia.
Qed.

Lemma weekTotals_bounds (lg : gmap Z DayLog) (today : Today) :
  0 ≤ (weekTotals lg today).2 ∧ (weekTotals lg today).2 ≤ (weekTotals lg today).1
  ∧ (weekTotals lg today).1 ≤ 7.
Proof.
  rewrite weekTotals_counts. unfold countIf. cbn [fst snd].
  pose proof (filter_length_le (hasLog lg) (weekWindow today)) as H1.
  pose proof (filter_length_mono (hasLog lg) (hasFull lg) (weekWindow today)) as H2.
  assert (Hlen : length (weekWindow today) = 7%nat) by reflexivity.
  rewrite Hlen in H1.
  assert (Himp : ∀ x, hasFull lg x = true → hasLog lg x = true).
  { intros x. unfold hasFull, hasLog. by destruct (lg !! x). }
  specialize (H2 Himp). lia.
Qed.

Lemma weekRate_range (total full : Z) :
  0 ≤ full → full ≤ total → total ≤ 7 →
  0 ≤ weekRate total full ≤ 100
  ∧ (weekRate total full = 100 ↔ total ≠ 0 ∧ full = total)
  ∧ (weekRate total full = 0 ↔ full = 0).
Proof.
  intros H0 H1 H2.
  assert (Ht : total = 0 ∨ total = 1 ∨ total = 2 ∨ total = 3 ∨ total = 4
               ∨ total = 5 ∨ total = 6 ∨ total = 7) by lia.
  assert (Hf : full = 0 ∨ full = 1 ∨ full = 2 ∨ full = 3 ∨ full = 4
               ∨ full = 5 ∨ full = 6 ∨ full = 7) by lia.
  destruct Ht as [-> | [-> | [-> | [-> | [-> | [-> | [-> | ->]]]]]]];
    destruct Hf as [-> | [-> | [-> | [-> | [-> | [-> | [-> | ->]]]]]]];
    try lia; vm_compute; (split; [split; discriminate|]);
    split; split; (intros [? ?] || intros ?); (done || lia || (split; (done || lia))).
Qed.

(** X14: the figures of the weekly report are always sound: of the seven
    dates of the window at most seven have a log, the full days are among
    them, the execution rate lies between 0 and 100, it is 100 exactly
    when there is at least one logged day and every logged day is full,
    and 0 exactly when no day is full. *)
Theorem X14_weekly_figures_in_range (lg : gmap Z DayLog) (today : Today) :
  let total := (weekTotals lg today).1 in
  let full := (weekTotals lg today).2 in
  0 ≤ full ∧ full ≤ total ∧ total ≤ 7
  ∧ 0 ≤ weekRate total full ≤ 100
  ∧ (weekRate total full = 100 ↔ total ≠ 0 ∧ full = total)
  ∧ (weekRate total full = 0 ↔ full = 0).
Proof.
  intros total full. destruct (weekTotals_bounds lg today) as (H0 & H1 & H2).
  fold total full in H0, H1, H2.
  destruct (weekRate_range total full H0 H1 H2) as (Hr & H100 & Hz).
  by repeat split; try apply Hr; try apply H100; try apply Hz.
Qed.

(** ** The older variant *)

(** X15: on a user object that has all its fields, [updateDailyStats] of
    the older variant does exactly what the one of [src/bot.js] does (its
    comparison-and-assignment of the best streak is the [Math.max] of the
    newer code). *)
Theorem X15_updateDailyStats_variants_agree (user : User) (d : Date) :
  Part001.updateDailyStats (asPart001 user) d = asPart001 (updateDailyStats user d).
Proof.
  unfold Part001.updateDailyStats, updateDailyStats. simpl.
  destruct (logs user !! d) as [day|]; [|done].
  destruct (_counted day); [done|].
  unfold asPart001, Part001.set_logs, Part001.set_stats. simpl.
  destruct (isFull day); simpl; [|done].
  destruct (streakBest (stats user) <? streakCurrent (stats user) + 1) eqn:Hlt.
  - apply Z.ltb_lt in Hlt. by rewrite Z.max_r by lia.
  - apply Z.ltb_ge in Hlt. by rewrite Z.max_l by lia.
Qed.





Lemma truthy_nonempty (s : string) : truthy s = true → s ≠ EmptyString.
Proof. by destruct s. Qed.

(** X17: [coachReply] of the older variant never returns the empty string,
    whatever the client does.  When the client answers with a completion
    that is not blank, the reply is that completion, trimmed; in every
    other case (no client, a rejected call, a completion without content
    or a blank one) it is the local fallback, which names the reason and
    holds the user's message. *)
Theorem X17_older_coach_never_silent (openai : option Client) (user : Part001.User)
    (body : string) :
  let reply := Part001.coachReply openai user body in
  let answer :=
    match openai with
    | Some create =>
        Some (create OPENAI_MODEL SYSTEM_PROMPT
                ("Trainee name: " +:+ Part001.coachName user +:+ "." +:+ nl
                 +:+ "Current habits / goals:" +:+ nl +:+ Part001.coachGoals user
                 +:+ nl +:+ nl +:+ "Message from trainee:" +:+ nl +:+ body))
    | None => None
    end in
  reply ≠ EmptyString
  ∧ (∀ content, answer = Some (Replied (Some content)) → trim content ≠ EmptyString →
       reply = trim content)
  ∧ (answer = None →
       reply = Part001.localFallback user body "OpenAI key missing or not loaded.")
  ∧ (∀ message, answer = Some (Failed message) →
       reply = Part001.localFallback user body ("OpenAI error: " +:+ message))
  ∧ (answer = Some (Replied None)
     ∨ (∃ content, answer = Some (Replied (Some content)) ∧ trim content = EmptyString) →
       reply = Part001.localFallback user body "OpenAI returned an empty reply.")
  ∧ ((∀ content, answer = Some (Replied (Some content)) → trim content = EmptyString) →
       contains body reply).
Proof.
  intros reply answer. subst reply answer. unfold Part001.coachReply.
  assert (Hblank : ∀ s, truthy s = false → s = EmptyString) by (by intros []).
  assert (Hfull : ∀ s, s ≠ EmptyString → truthy s = true) by (by intros []).
  destruct openai as [create|].
  - destruct (create _ _ _) as [message | [content|]].
    + split; [apply localFallback_echo|]. split; [by intros content [= ]|].
      split; [by intros [= ]|]. split; [by intros message' [= <-]|].
      split; [by intros [[= ] | (content & [= ] & _)]|].
      intros _. apply localFallback_echo.
    + simpl. destruct (truthy (trim content)) eqn:Ht.
      * split; [by apply truthy_nonempty|]. split; [by intros content' [= <-] _|].
        split; [by intros [= ]|]. split; [by intros message [= ]|]. split.
        { intros [[= ] | (content' & [= <-] & Hb)]. by rewrite Hb in Ht. }
        intros Hall. specialize (Hall content eq_refl). by rewrite Hall in Ht.
      * split; [apply localFallback_echo|]. split.
        { intros content' [= <-] Hne. by rewrite (Hfull _ Hne) in Ht. }
        split; [by intros [= ]|]. split; [by intros message [= ]|].
        split; [done|]. intros _. apply localFallback_echo.
    + simpl. split; [apply localFallback_echo|]. split; [by intros content [= ]|].
      split; [by intros [= ]|]. split; [by intros message [= ]|].
      split; [done|]. intros _. apply localFallback_echo.
  - split; [apply localFallback_echo|]. split; [by intros content [= ]|].
    split; [done|]. split; [by intros message [= ]|].
    split; [by intros [[= ] | (content & [= ] & _)]|].
    intros _. apply localFallback_echo.
Qed.

(** X18: [coachReply] of [src/bot.js] hands a completion through, trimmed
    and otherwise unchanged; in particular a completion that consists of
    white space only gives the empty reply. *)
Theorem X18_coach_passes_completion_through (create : Client) (user : User)
    (body content : string) :
  create OPENAI_MODEL SYSTEM_PROMPT
    ("Trainee: " +:+ coachName user +:+ nl +:+ "Mission:" +:+ nl
     +:+ coachGoals user +:+ nl +:+ nl +:+ "User message:" +:+ nl +:+ body)
  = Replied (Some content) →
  coachReply (Some create) user body = trim content
  ∧ (trim content = EmptyString → coachReply (Some create) user body = EmptyString).
Proof.
  intros Hc. unfold coachReply. rewrite Hc. split; [done|]. by intros ->.
Qed.

(** A client that answers with blanks. *)
Lemma X18_witness :
  coachReply (Some (λ _ _ _, Replied (Some "   "%string))) annRecord "Report" = trim "   "
  ∧ coachReply (Some (λ _ _ _, Replied (Some "   "%string))) annRecord "Report" = EmptyString.
Proof.
  destruct (X18_coach_passes_completion_through
              (λ _ _ _, Replied (Some "   "%string)) annRecord "Report" "   " eq_refl)
    as [Hr He].
  split; [exact Hr | apply He; vm_compute; reflexivity].
Defined.

(** ** The runtime document *)

Lemma applyAll_snoc (cs : list Runtime.Change) (c : Runtime.Change) (rt : Runtime.Runtime) :
  Runtime.applyAll (cs ++ [c]) rt = Runtime.apply c (Runtime.applyAll cs rt).
Proof. unfold Runtime.applyAll. by rewrite foldl_app. Qed.

Lemma applyAll_cons (cs : list Runtime.Change) (c : Runtime.Change) (rt : Runtime.Runtime) :
  Runtime.applyAll (c :: cs) rt = Runtime.applyAll cs (Runtime.apply c rt).
Proof. reflexivity. Qed.

Lemma lastTick_applyAll (cs : list Runtime.Change) (rt : Runtime.Runtime) :
  Runtime.jobs (Runtime.applyAll cs rt) !! "cron_tick_am_pm"%string ≫= Runtime.last_at
  = Runtime.lastTick
      (Runtime.jobs rt !! "cron_tick_am_pm"%string ≫= Runtime.last_at) cs.
Proof.
  revert rt. induction cs as [|c cs IH]; intros rt; [done|].
  rewrite applyAll_cons, IH. destruct c as [current now | todayStr now | delivered]; simpl.
  - unfold Runtime.markTick, Runtime.markJob. simpl. by rewrite lookup_insert_eq.
  - unfold Runtime.markWeekly, Runtime.markJob. simpl. by rewrite lookup_insert_ne.
  - unfold Runtime.countSend. by destruct delivered.
Qed.

Lemma roundDiv_minutes (diffMs : Z) :
  60000 * Runtime.roundDiv diffMs 60000 - 30000 ≤ diffMs
  ∧ diffMs < 60000 * Runtime.roundDiv diffMs 60000 + 30000.
Proof.
  unfold Runtime.roundDiv.
  pose proof (Z.div_mod (2 * diffMs + 60000) (2 * 60000) ltac:(lia)) as Hdm.
  pose proof (Z.mod_pos_bound (2 * diffMs + 60000) (2 * 60000) ltac:(lia)) as Hb.
  lia.
Qed.

(** X19: the watchdog judges the last tick of the minute job that the
    runtime document has on record, whatever else was written since
    (weekly marks, send counters).  With no tick on record it stays silent,
    however long the bot has been running; with a last tick at most six
    minutes old it stays silent; with an older one it reports that tick
    and the age in minutes, rounded to the nearest minute and at least
    six. *)
Theorem X19_watchdog_judges_last_tick (cs : list Runtime.Change) (rt : Runtime.Runtime)
    (now : Z) :
  let last :=
    Runtime.lastTick (Runtime.jobs rt !! "cron_tick_am_pm"%string ≫= Runtime.last_at) cs in
  let rt' := Runtime.applyAll cs rt in
  (last = None → Runtime.watchdog now rt' = None)
  ∧ (∀ t, last = Some t → now - t ≤ 6 * 60 * 1000 → Runtime.watchdog now rt' = None)
  ∧ (∀ t, last = Some t → 6 * 60 * 1000 < now - t →
       ∃ m, Runtime.watchdog now rt' = Some m
         ∧ Runtime.missed_last_at m = t
         ∧ 6 ≤ Runtime.diff_minutes m
         ∧ 60000 * Runtime.diff_minutes m - 30000 ≤ now - t
         ∧ now - t < 60000 * Runtime.diff_minutes m + 30000).
Proof.
  intros last rt'. unfold Runtime.watchdog. subst rt'.
  rewrite lastTick_applyAll. fold last. repeat split.
  - by intros ->.
  - intros t -> Hle. simpl. destruct (Z.ltb_spec (6 * 60 * 1000) (now - t)); [lia|done].
  - intros t -> Hlt. simpl. destruct (Z.ltb_spec (6 * 60 * 1000) (now - t)); [|lia].
    eexists. split; [reflexivity|]. simpl.
    pose proof (roundDiv_minutes (now - t)). repeat split; lia.
Qed.

(** A tick at noon, a send and the weekly mark after it, and the watchdog
    seven and a half minutes after the tick. *)
Lemma X19_witness :
  ∃ m, Runtime.watchdog 43650000
         (Runtime.applyAll
            [Runtime.Ticked "12:00" 43200000; Runtime.SendSettled true;
             Runtime.WeeklyFired "2024-10-06" 43200500]
            (Runtime.loadRuntime None 0)) = Some m
    ∧ Runtime.missed_last_at m = 43200000
    ∧ 6 ≤ Runtime.diff_minutes m.
Proof.
  destruct (X19_watchdog_judges_last_tick
              [Runtime.Ticked "12:00" 43200000; Runtime.SendSettled true;
               Runtime.WeeklyFired "2024-10-06" 43200500]
              (Runtime.loadRuntime None 0) 43650000) as (_ & _ & Hold).
  destruct (Hold 43200000 eq_refl ltac:(lia)) as (m & Hm & Hl & Hd & _).
  exists m. split; [exact Hm | split; [exact Hl | exact Hd]].
Defined.

Lemma counters_applyAll (delivered : bool) (cs : list Runtime.Change) (rt : Runtime.Runtime) :
  (if delivered then Runtime.send_ok else Runtime.send_err)
    (Runtime.counters (Runtime.applyAll cs rt))
  = (if delivered then Runtime.send_ok else Runtime.send_err) (Runtime.counters rt)
    + Runtime.settled delivered cs.
Proof.
  revert rt. induction cs as [|c cs IH]; intros rt; [simpl; lia|].
  rewrite applyAll_cons, IH. destruct c as [current now | todayStr now | b]; simpl; [done..|].
  unfold Runtime.countSend. destruct b, delivered; simpl; lia.
Qed.

Lemma jobs_applyAll_other (name : string) (cs : list Runtime.Change) (rt : Runtime.Runtime) :
  name ≠ "cron_tick_am_pm"%string → name ≠ "weekly_report"%string →
  Runtime.jobs (Runtime.applyAll cs rt) !! name = Runtime.jobs rt !! name.
Proof.
  intros Hn1 Hn2. revert rt. induction cs as [|c cs IH]; intros rt; [done|].
  rewrite applyAll_cons, IH. destruct c as [current now | todayStr now | b]; simpl.
  - unfold Runtime.markTick, Runtime.markJob. simpl. by rewrite lookup_insert_ne.
  - unfold Runtime.markWeekly, Runtime.markJob. simpl. by rewrite lookup_insert_ne.
  - unfold Runtime.countSend. by destruct b.
Qed.

Lemma jobs_applyAll_kept (name : string) (cs : list Runtime.Change) (rt : Runtime.Runtime) :
  is_Some (Runtime.jobs rt !! name) → is_Some (Runtime.jobs (Runtime.applyAll cs rt) !! name).
Proof.
  revert rt. induction cs as [|c cs IH]; intros rt Hs; [done|].
  rewrite applyAll_cons. apply IH.
  destruct c as [current now | todayStr now | b]; simpl.
  - unfold Runtime.markTick, Runtime.markJob. simpl.
    destruct (decide (name = "cron_tick_am_pm"%string)) as [->|Hne].
    + rewrite lookup_insert_eq. by eexists.
    + by rewrite lookup_insert_ne.
  - unfold Runtime.markWeekly, Runtime.markJob. simpl.
    destruct (decide (name = "weekly_report"%string)) as [->|Hne].
    + rewrite lookup_insert_eq. by eexists.
    + by rewrite lookup_insert_ne.
  - unfold Runtime.countSend. by destruct b.
Qed.

Lemma started_applyAll (cs : list Runtime.Change) (rt : Runtime.Runtime) :
  Runtime.started_at (Runtime.applyAll cs rt) = Runtime.started_at rt.
Proof.
  revert rt. induction cs as [|c cs IH]; intros rt; [done|].
  rewrite applyAll_cons, IH. destruct c as [current now | todayStr now | b]; simpl; [done..|].
  unfold Runtime.countSend. by destruct b.
Qed.

(** X20: the runtime document counts every send once: [send_ok] grows by
    the number of sends that were delivered and [send_err] by the number
    of those that failed, and nothing else moves the counters.  The start
    time is never rewritten, the records of other jobs are left alone and
    no job record is ever dropped. *)
Theorem X20_runtime_counts_every_send (cs : list Runtime.Change) (rt : Runtime.Runtime) :
  let rt' := Runtime.applyAll cs rt in
  Runtime.send_ok (Runtime.counters rt')
    = Runtime.send_ok (Runtime.counters rt) + Runtime.settled true cs
  ∧ Runtime.send_err (Runtime.counters rt')
    = Runtime.send_err (Runtime.counters rt) + Runtime.settled false cs
  ∧ Runtime.started_at rt' = Runtime.started_at rt
  ∧ (∀ name, name ≠ "cron_tick_am_pm"%string → name ≠ "weekly_report"%string →
       Runtime.jobs rt' !! name = Runtime.jobs rt !! name)
  ∧ (∀ name, is_Some (Runtime.jobs rt !! name) → is_Some (Runtime.jobs rt' !! name)).
Proof.
  intros rt'. subst rt'. split; [|split; [|split; [|split]]].
  - apply (counters_applyAll true).
  - apply (counters_applyAll false).
  - apply started_applyAll.
  - intros name. apply jobs_applyAll_other.
  - intros name. apply jobs_applyAll_kept.
Qed.

(** ** The two-channel variant *)

Ltac channels :=
  cbn [Part000.telegramChatId Part000.whatsappFrom Part000.set_telegramChatId
       Part000.set_whatsappFrom Part000.newUser negb andb].

Lemma linkChannels_idem (defaults : Part000.Defaults) (user : Part000.User) :
  Part000.linkChannels defaults (Part000.linkChannels defaults user)
  = Part000.linkChannels defaults user.
Proof.
  unfold Part000.linkChannels.
  destruct (Part000.linked (Part000.defaultTelegramChatId defaults)) eqn:Ht,
           (Part000.linked (Part000.defaultWhatsappFrom defaults)) eqn:Hw,
           (Part000.linked (Part000.telegramChatId user)) eqn:Hut,
           (Part000.linked (Part000.whatsappFrom user)) eqn:Huw;
    repeat (channels; rewrite ?Ht, ?Hw, ?Hut, ?Huw); done.
Qed.

Lemma linkChannels_newUser (key : string) (defaults : Part000.Defaults) :
  Part000.linkChannels defaults (Part000.newUser key defaults)
  = Part000.newUser key defaults.
Proof.
  unfold Part000.linkChannels.
  destruct (Part000.linked (Part000.defaultTelegramChatId defaults)) eqn:Ht,
           (Part000.linked (Part000.defaultWhatsappFrom defaults)) eqn:Hw;
    repeat (channels; unfold Part000.orNull; rewrite ?Ht, ?Hw); done.
Qed.

Lemma linkChannels_fields (defaults : Part000.Defaults) (user : Part000.User) :
  Part000.linkChannels defaults user
  = Part000.set_telegramChatId
      (Part000.telegramChatId (Part000.linkChannels defaults user))
      (Part000.set_whatsappFrom
         (Part000.whatsappFrom (Part000.linkChannels defaults user)) user).
Proof.
  unfold Part000.linkChannels.
  destruct (_ && _); channels; destruct (_ && _); by destruct user.
Qed.

Lemma linkChannels_keeps (defaults : Part000.Defaults) (user : Part000.User) :
  (Part000.linked (Part000.telegramChatId user) = true →
   Part000.telegramChatId (Part000.linkChannels defaults user)
   = Part000.telegramChatId user)
  ∧ (Part000.linked (Part000.whatsappFrom user) = true →
     Part000.whatsappFrom (Part000.linkChannels defaults user)
     = Part000.whatsappFrom user).
Proof.
  unfold Part000.linkChannels. split; intros Hl.
  - rewrite Hl, andb_false_r. by destruct (_ && _).
  - destruct (Part000.linked (Part000.defaultTelegramChatId defaults)
              && negb (Part000.linked (Part000.telegramChatId user)));
      channels; rewrite Hl, andb_false_r; done.
Qed.

Lemma linkChannels_links (defaults : Part000.Defaults) (user : Part000.User) :
  (Part000.linked (Part000.defaultTelegramChatId defaults) = true →
   Part000.linked (Part000.telegramChatId (Part000.linkChannels defaults user)) = true)
  ∧ (Part000.linked (Part000.defaultWhatsappFrom defaults) = true →
     Part000.linked (Part000.whatsappFrom (Part000.linkChannels defaults user)) = true).
Proof.
  unfold Part000.linkChannels. split; intros Hl; rewrite Hl.
  - destruct (Part000.linked (Part000.telegramChatId user)) eqn:Hu; channels;
      by destruct (_ && _).
  - destruct (Part000.linked (Part000.defaultTelegramChatId defaults)
              && negb (Part000.linked (Part000.telegramChatId user))); channels;
      destruct (Part000.linked (Part000.whatsappFrom user)) eqn:Hu; channels; done.
Qed.

(** X21: [ensureUserByKey] of the two-channel variant returns the record
    stored under the key and leaves the other records alone; its last
    effect is the save of the table it leaves.  On an existing record it
    changes nothing but the two channel addresses, and an address that is
    set is never replaced by the one that comes with the call; an address
    that comes with the call leaves the channel linked.  A missing record
    is created with the defaults of a new user.  Calling it again with the
    same arguments changes nothing. *)
Theorem X21_ensureUserByKey_links_once (key : string) (defaults : Part000.Defaults)
    (users : gmap string Part000.User) :
  let users' := (Part000.ensureUserByKey key defaults users).1.1 in
  let user' := (Part000.ensureUserByKey key defaults users).1.2 in
  users' !! key = Some user'
  ∧ (∀ k, k ≠ key → users' !! k = users !! k)
  ∧ last (Part000.ensureUserByKey key defaults users).2 = Some (Part000.ESave users')
  ∧ (∀ old, users !! key = Some old →
       user' = Part000.set_telegramChatId (Part000.telegramChatId user')
                 (Part000.set_whatsappFrom (Part000.whatsappFrom user') old)
       ∧ (Part000.linked (Part000.telegramChatId old) = true →
          Part000.telegramChatId user' = Part000.telegramChatId old)
       ∧ (Part000.linked (Part000.whatsappFrom old) = true →
          Part000.whatsappFrom user' = Part000.whatsappFrom old))
  ∧ (users !! key = None → user' = Part000.newUser key defaults)
  ∧ (Part000.linked (Part000.defaultTelegramChatId defaults) = true →
     Part000.linked (Part000.telegramChatId user') = true)
  ∧ (Part000.linked (Part000.defaultWhatsappFrom defaults) = true →
     Part000.linked (Part000.whatsappFrom user') = true)
  ∧ (Part000.ensureUserByKey key defaults users').1 = (users', user').
Proof.
  intros users' user'. subst users' user'. unfold Part000.ensureUserByKey.
  destruct (users !! key) as [old|] eqn:Hu; simpl.
  - split; [apply lookup_insert_eq|].
    split; [intros k Hne; by rewrite lookup_insert_ne|].
    split; [done|].
    split.
    { intros old' [= <-]. split; [apply linkChannels_fields | apply linkChannels_keeps]. }
    split; [done|].
    split; [apply linkChannels_links|].
    split; [apply linkChannels_links|].
    rewrite lookup_insert_eq. simpl. by rewrite linkChannels_idem, insert_insert_eq.
  - rewrite linkChannels_newUser.
    split; [apply lookup_insert_eq|].
    split; [intros k Hne; by rewrite !lookup_insert_ne|].
    split; [done|].
    split; [done|].
    split; [done|].
    split.
    { intros Hl. rewrite <- (linkChannels_newUser key defaults).
      by apply linkChannels_links. }
    split.
    { intros Hl. rewrite <- (linkChannels_newUser key defaults).
      by apply linkChannels_links. }
    rewrite lookup_insert_eq. simpl.
    by rewrite linkChannels_newUser, !insert_insert_eq.
Qed.

Lemma removeFirst_eq (needle s : string) :
  Part000.removeFirst needle s
  = if String.prefix needle s then Part000.dropChars (String.length needle) s
    else match s with
         | EmptyString => EmptyString
         | String c r => String c (Part000.removeFirst needle r)
         end.
Proof. by destruct s. Qed.

Lemma prefix_append (p s : string) : String.prefix p (p +:+ s) = true.
Proof.
  induction p as [|a p IH].
  - change (EmptyString +:+ s) with s. by destruct s.
  - change (String a p +:+ s) with (String a (p +:+ s)). simpl.
    by destruct (ascii_dec a a).
Qed.

Lemma dropChars_append (p s : string) :
  Part000.dropChars (String.length p) (p +:+ s) = s.
Proof.
  induction p as [|a p IH].
  - change (EmptyString +:+ s) with s. done.
  - change (String a p +:+ s) with (String a (p +:+ s)). simpl. exact IH.
Qed.

Lemma removeFirst_prefix (p s : string) : Part000.removeFirst p (p +:+ s) = s.
Proof. by rewrite removeFirst_eq, prefix_append, dropChars_append. Qed.

Lemma startsWith_plus (s : string) :
  startsWith "+" s = true → ∃ r, s = String "+" r.
Proof.
  unfold startsWith. destruct s as [|c r]; [intros [=]|].
  change (String.prefix "+" (String c r))
    with (if ascii_dec "+"%char c then String.prefix EmptyString r else false).
  destruct (ascii_dec "+"%char c) as [<-|]; [|intros [=]]. by eexists.
Qed.

Lemma normalize_prefixed (phone : string) :
  trim phone = phone →
  Part000.normalizeWhatsAppFrom (Some ("whatsapp:" +:+ phone)) = phone.
Proof.
  intros Ht.
  change (Part000.normalizeWhatsAppFrom (Some ("whatsapp:" +:+ phone)))
    with (trim (Part000.removeFirst "whatsapp:" ("whatsapp:" +:+ phone))).
  by rewrite removeFirst_prefix.
Qed.

(** X22: the address of a WhatsApp sender goes round: for a phone number
    that starts with [+] and has no white space around it,
    [normalizeWhatsAppFrom] takes the [whatsapp:] prefix off the address
    Twilio delivers, [safeSendWhatsApp] puts it back, and each undoes the
    other.  A user created by the webhook for such a sender is stored
    under ["wa:" + phone] with that phone as its only channel, and
    [sendToUser] answers on exactly the address the message came from. *)
Theorem X22_whatsapp_address_round_trip (phone body : string)
    (users : gmap string Part000.User) (on : Part000.Channels) (tgOk waOk : bool)
    (rt : Runtime.Runtime) :
  startsWith "+" phone = true →
  trim phone = phone →
  Part000.normalizeWhatsAppFrom (Some ("whatsapp:" +:+ phone)) = phone
  ∧ Part000.toFormatted phone = "whatsapp:" +:+ phone
  ∧ Part000.normalizeWhatsAppFrom (Some (Part000.toFormatted phone)) = phone
  ∧ (users !! ("wa:" +:+ phone) = None →
     Part000.hasTwilio on = true →
     ∃ user,
       (Part000.webhookUser (Some ("whatsapp:" +:+ phone)) users).1
       = (<["wa:" +:+ phone := user]> users, user)
       ∧ Part000.whatsappFrom user = Some phone
       ∧ Part000.telegramChatId user = None
       ∧ (Part000.sendToUser on tgOk waOk user body rt).2
         = [Part000.EWhatsApp ("whatsapp:" +:+ phone) body]).
Proof.
  intros Hplus Htrim.
  assert (Hfmt : Part000.toFormatted phone = "whatsapp:" +:+ phone)
    by (unfold Part000.toFormatted; by rewrite Hplus).
  split; [by apply normalize_prefixed|].
  split; [exact Hfmt|].
  split; [rewrite Hfmt; by apply normalize_prefixed|].
  intros Hnew Htw. unfold Part000.webhookUser.
  change (default EmptyString (Some ("whatsapp:" +:+ phone)))
    with ("whatsapp:" +:+ phone).
  rewrite (normalize_prefixed phone Htrim).
  destruct (startsWith_plus phone Hplus) as [r Hr].
  unfold Part000.ensureUserByKey. rewrite Hnew, linkChannels_newUser.
  eexists. split; [cbn [fst snd]; by rewrite insert_insert_eq|].
  unfold Part000.sendToUser, Part000.safeSendWhatsApp, Part000.newUser, Part000.orNull.
  cbn [Part000.defaultWhatsappFrom Part000.defaultTelegramChatId Part000.whatsappFrom
       Part000.telegramChatId].
  assert (Hl : Part000.linked (Some phone) = true) by (by rewrite Hr).
  rewrite !Hl. change (Part000.linked None) with false. cbv iota.
  rewrite Htw. change (default EmptyString (Some phone)) with phone. rewrite Hfmt.
  by repeat split.
Qed.

Lemma X22_witness :
  Part000.normalizeWhatsAppFrom (Some (Part000.toFormatted "+41791234567"))
  = "+41791234567"%string.
Proof.
  destruct (X22_whatsapp_address_round_trip "+41791234567" "Report." ∅
              {| Part000.telegramOn := true; Part000.hasTwilio := true |} true true
              (Runtime.loadRuntime None 0))
    as (_ & _ & Hround & _).
  - vm_compute. reflexivity.
  - vm_compute. reflexivity.
  - exact Hround.
Defined.

Lemma countSend_total (delivered : bool) (rt : Runtime.Runtime) :
  Runtime.send_ok (Runtime.counters (Runtime.countSend delivered rt))
  + Runtime.send_err (Runtime.counters (Runtime.countSend delivered rt))
  = Runtime.send_ok (Runtime.counters rt) + Runtime.send_err (Runtime.counters rt) + 1
  ∧ Runtime.send_ok (Runtime.counters (Runtime.countSend delivered rt))
    = Runtime.send_ok (Runtime.counters rt) + (if delivered then 1 else 0)
  ∧ Runtime.jobs (Runtime.countSend delivered rt) = Runtime.jobs rt.
Proof. unfold Runtime.countSend. destruct delivered; simpl; repeat split; lia. Qed.

(** X23: [sendToUser] makes one attempt per channel that the user has and
    that is configured, with the text unchanged, and makes the attempt on
    one channel whatever becomes of the other: which sends go out does not
    depend on the outcomes.  Every attempt is counted once in the runtime
    document, as delivered or as failed, a channel that is skipped is not
    counted, and the job records are not touched.  WhatsApp is always
    addressed as [whatsapp:+...]. *)
Theorem X23_sendToUser_fans_out (on : Part000.Channels) (tgOk waOk : bool)
    (user : Part000.User) (body : string) (rt : Runtime.Runtime) :
  let out := Part000.sendToUser on tgOk waOk user body rt in
  let viaTelegram :=
    Part000.linked (Part000.telegramChatId user) && Part000.telegramOn on in
  let viaWhatsApp :=
    Part000.linked (Part000.whatsappFrom user) && Part000.hasTwilio on in
  (∀ tgOk' waOk', (Part000.sendToUser on tgOk' waOk' user body rt).2 = out.2)
  ∧ Z.of_nat (length out.2)
    = (if viaTelegram then 1 else 0) + (if viaWhatsApp then 1 else 0)
  ∧ (∀ e, e ∈ out.2 →
       (∃ chat, e = Part000.ETelegram chat body
                ∧ Part000.telegramChatId user = Some chat)
       ∨ (∃ to, e = Part000.EWhatsApp to body ∧ startsWith "whatsapp:+" to = true))
  ∧ Runtime.send_ok (Runtime.counters out.1) + Runtime.send_err (Runtime.counters out.1)
    = Runtime.send_ok (Runtime.counters rt) + Runtime.send_err (Runtime.counters rt)
      + Z.of_nat (length out.2)
  ∧ Runtime.send_ok (Runtime.counters out.1)
    = Runtime.send_ok (Runtime.counters rt)
      + (if viaTelegram && tgOk then 1 else 0) + (if viaWhatsApp && waOk then 1 else 0)
  ∧ Runtime.jobs out.1 = Runtime.jobs rt.
Proof.
  intros out viaTelegram viaWhatsApp. subst out viaTelegram viaWhatsApp.
  unfold Part000.sendToUser, Part000.safeSendTelegram, Part000.safeSendWhatsApp.
  assert (Hfmt : ∀ to, startsWith "whatsapp:+" (Part000.toFormatted to) = true).
  { intros to. unfold Part000.toFormatted.
    destruct (startsWith "+" to) eqn:Hp.
    - destruct (startsWith_plus to Hp) as [r ->]. by destruct r.
    - clear Hp. by destruct to. }
  destruct (Part000.linked (Part000.telegramChatId user)) eqn:Ht,
           (Part000.telegramOn on),
           (Part000.linked (Part000.whatsappFrom user)) eqn:Hw,
           (Part000.hasTwilio on);
    cbn [fst snd andb app length];
    (split; [done|]); (split; [done|]);
    (split;
     [ intros e He;
       repeat (apply elem_of_cons in He as [->|He]);
       try (by apply elem_of_nil in He);
       first [ left; destruct (Part000.telegramChatId user) as [chat|] eqn:Hc;
               [by eexists | discriminate]
             | right; eexists; split; [reflexivity | apply Hfmt] ]
     | ]);
    repeat match goal with
      | |- context [Runtime.countSend ?b ?r] =>
          let H := fresh in
          pose proof (countSend_total b r) as H; destruct H as (? & ? & ?);
          generalize dependent (Runtime.countSend b r); intros
      | _ : context [Runtime.countSend ?b ?r] |- _ =>
          let H := fresh in
          pose proof (countSend_total b r) as H; destruct H as (? & ? & ?);
          generalize dependent (Runtime.countSend b r); intros
      end;
    destruct tgOk, waOk; cbn [andb]; repeat split; try lia; congruence.
Qed.

Lemma linkChannels_source (defaults : Part000.Defaults) (user : Part000.User) :
  Part000.userKey (Part000.linkChannels defaults user) = Part000.userKey user
  ∧ (Part000.telegramChatId (Part000.linkChannels defaults user)
     = Part000.telegramChatId user
     ∨ Part000.telegramChatId (Part000.linkChannels defaults user)
       = Part000.defaultTelegramChatId defaults)
  ∧ (Part000.whatsappFrom (Part000.linkChannels defaults user)
     = Part000.whatsappFrom user
     ∨ Part000.whatsappFrom (Part000.linkChannels defaults user)
       = Part000.defaultWhatsappFrom defaults).
Proof.
  unfold Part000.linkChannels.
  destruct (Part000.linked (Part000.defaultTelegramChatId defaults)
            && negb (Part000.linked (Part000.telegramChatId user)));
    channels;
    destruct (Part000.linked (Part000.defaultWhatsappFrom defaults)
              && negb (Part000.linked (Part000.whatsappFrom user)));
    cbn; auto.
Qed.

Lemma linked_orNull (v : option string) :
  Part000.linked (Part000.orNull v) = true → Part000.orNull v = v.
Proof. unfold Part000.orNull. by destruct (Part000.linked v). Qed.

Lemma channelsByKey_ensure (key : string) (defaults : Part000.Defaults)
    (users : gmap string Part000.User) :
  Part000.channelsByKey users →
  (Part000.linked (Part000.defaultTelegramChatId defaults) = true →
   key = "tg:" +:+ default EmptyString (Part000.defaultTelegramChatId defaults)) →
  (Part000.linked (Part000.defaultWhatsappFrom defaults) = true →
   key = "wa:" +:+ default EmptyString (Part000.defaultWhatsappFrom defaults)) →
  Part000.channelsByKey (Part000.ensureUserByKey key defaults users).1.1.
Proof.
  intros Hinv Htg Hwa k user Hk.
  assert (Hcase : (k ≠ key ∧ users !! k = Some user)
                  ∨ (k = key ∧ ∃ old,
                       user = Part000.linkChannels defaults old
                       ∧ (users !! key = Some old
                          ∨ old = Part000.newUser key defaults))).
  { unfold Part000.ensureUserByKey in Hk.
    destruct (decide (k = key)) as [->|Hne].
    - right. split; [done|].
      destruct (users !! key) as [old|] eqn:Hu; simpl in Hk;
        rewrite lookup_insert_eq in Hk; injection Hk as <-; eauto.
    - left. split; [done|].
      destruct (users !! key) as [old|] eqn:Hu; simpl in Hk;
        by rewrite !lookup_insert_ne in Hk. }
  destruct Hcase as [[Hne Hu] | [-> (old & -> & Hold)]]; [by apply Hinv|].
  destruct (linkChannels_source defaults old) as (Hkey & Ht & Hw).
  assert (Hbase : Part000.userKey old = key
            ∧ (Part000.linked (Part000.telegramChatId old) = true →
               key = "tg:" +:+ default EmptyString (Part000.telegramChatId old))
            ∧ (Part000.linked (Part000.whatsappFrom old) = true →
               key = "wa:" +:+ default EmptyString (Part000.whatsappFrom old))).
  { destruct Hold as [Hu | ->]; [by apply Hinv|]. channels.
    split; [done|]. split; intros Hl.
    - pose proof (linked_orNull _ Hl) as He. rewrite He in Hl |- *. by apply Htg.
    - pose proof (linked_orNull _ Hl) as He. rewrite He in Hl |- *. by apply Hwa. }
  destruct Hbase as (Hk0 & Ht0 & Hw0). rewrite Hkey. split; [done|]. split.
  - destruct Ht as [-> | ->]; auto.
  - destruct Hw as [-> | ->]; auto.
Qed.

Lemma channelsByKey_arrive (a : Part000.Arrival) (users : gmap string Part000.User) :
  Part000.channelsByKey users → Part000.channelsByKey (Part000.arrive a users).
Proof.
  intros Hinv. destruct a as [msg | from]; simpl.
  - apply channelsByKey_ensure; [done|done|]. simpl. discriminate.
  - apply channelsByKey_ensure; [done| |done]. simpl. discriminate.
Qed.

Lemma channelsByKey_arriveAll (arrivals : list Part000.Arrival)
    (users : gmap string Part000.User) :
  Part000.channelsByKey users → Part000.channelsByKey (Part000.arriveAll arrivals users).
Proof.
  revert users. induction arrivals as [|a arrivals IH]; intros users Hinv; [done|].
  apply IH. by apply channelsByKey_arrive.
Qed.

Lemma keys_differ (a b : string) : "tg:" +:+ a ≠ "wa:" +:+ b.
Proof.
  change ("tg:" +:+ a) with (String "t" ("g:" +:+ a)).
  change ("wa:" +:+ b) with (String "w" ("a:" +:+ b)).
  discriminate.
Qed.

(** X24: the channel addresses of a user are written by [ensureUserByKey]
    only, from the Telegram handlers under the key ["tg:" + chat id] and
    from the WhatsApp webhook under ["wa:" + phone].  So over any sequence
    of arrivals every record sits under its own key and the key names the
    address the record has, no record ever has both channels, and
    [sendToUser] never sends more than one message for a user, although it
    is written to serve both channels. *)
Theorem X24_one_channel_per_user (arrivals : list Part000.Arrival)
    (users : gmap string Part000.User) :
  Part000.channelsByKey users →
  Part000.channelsByKey (Part000.arriveAll arrivals users)
  ∧ (∀ k user, Part000.arriveAll arrivals users !! k = Some user →
       Part000.linked (Part000.telegramChatId user)
       && Part000.linked (Part000.whatsappFrom user) = false
       ∧ (∀ on tgOk waOk body rt,
            (length (Part000.sendToUser on tgOk waOk user body rt).2 ≤ 1)%nat)).
Proof.
  intros Hinv. pose proof (channelsByKey_arriveAll arrivals users Hinv) as Hall.
  split; [done|]. intros k user Hk.
  destruct (Hall k user Hk) as (_ & Ht & Hw).
  assert (Hone : Part000.linked (Part000.telegramChatId user)
                 && Part000.linked (Part000.whatsappFrom user) = false).
  { destruct (Part000.linked (Part000.telegramChatId user)) eqn:Hlt; [|done].
    destruct (Part000.linked (Part000.whatsappFrom user)) eqn:Hlw; [|done].
    exfalso. specialize (Ht eq_refl). specialize (Hw eq_refl).
    rewrite Ht in Hw. by apply keys_differ in Hw. }
  split; [done|]. intros on tgOk waOk body rt.
  unfold Part000.sendToUser, Part000.safeSendTelegram, Part000.safeSendWhatsApp.
  destruct (Part000.linked (Part000.telegramChatId user)),
           (Part000.linked (Part000.whatsappFrom user)); [done|..];
    destruct (Part000.telegramOn on), (Part000.hasTwilio on); simpl; lia.
Qed.

(** One user from each side, the first of them twice. *)
Lemma X24_witness :
  Part000.channelsByKey
    (Part000.arriveAll
       [Part000.FromTelegram ann; Part000.FromWhatsApp (Some "whatsapp:+41791234567"%string);
        Part000.FromTelegram ann] ∅).
Proof.
  destruct (X24_one_channel_per_user
              [Part000.FromTelegram ann;
               Part000.FromWhatsApp (Some "whatsapp:+41791234567"%string);
               Part000.FromTelegram ann] ∅) as [Hinv _].
  - intros k user Hk. by rewrite lookup_empty in Hk.
  - exact Hinv.
Defined.

(** ** What does not change the table *)

(** X25: the events that only report never change a user record: after
    [/gpt], [/status], [/test_weekly], the weekly job, the startup ping or
    a message that starts with a slash, every record of the table is what
    it was.  The only record that can be new is the one [ensureUser]
    creates for the sender, with the defaults of a new user. *)
Theorem X25_reports_change_no_record (ev : Event) (users : Users) :
  reportsOnly ev = true →
  (∀ k user, users !! k = Some user → (step ev users).1 !! k = Some user)
  ∧ (∀ k user', users !! k = None → (step ev users).1 !! k = Some user' →
       ∃ msg, sender ev = Some msg ∧ k = userKey msg ∧ user' = newUser k msg).
Proof.
  intros Hro. split.
  - intros k user Hu. rewrite step_lookup, Hu.
    destruct ev; try discriminate Hro; simpl in *; try rewrite Hro; simpl;
      try done; by case_decide.
  - intros k user' Hu. rewrite step_lookup, Hu.
    destruct ev; try discriminate Hro; simpl in *; try rewrite Hro; simpl;
      try done; case_decide; try done; intros [= <-]; subst k; eauto.
Qed.

(** Ann asks for her status after two days of use. *)
Lemma X25_witness :
  (step (Status ann (day0 + 1)) veteran).1 !! "42"%string = Some annRecord.
Proof.
  destruct (X25_reports_change_no_record (Status ann (day0 + 1)) veteran eq_refl)
    as [Hkeep _].
  apply Hkeep. rewrite veteran_alone. apply lookup_singleton_eq.
Defined.

(** X26: the minute job does not read the stored time zone: a user is
    prompted at the same readings of the server clock, and its record is
    updated in the same way, whatever [timezone] holds. *)
Theorem X26_scheduler_ignores_timezone (current zone : string) (d : Date) (user : User) :
  tickUser current d (set_timezone zone user)
  = (set_timezone zone (tickUser current d user).1, (tickUser current d user).2).
Proof.
  unfold tickUser. destruct user as [c f n z a p g h pe os ob lg st ws]. simpl.
  destruct ob; simpl; [|done].
  unfold touchDay, getDay. simpl.
  destruct (lg !! d) as [day|] eqn:Hd; simpl; rewrite ?Hd, ?lookup_insert_eq; simpl;
    destruct (String.eqb current a && _); simpl;
    destruct (String.eqb current p && _); reflexivity.
Qed.
